(** * The JUCE message manager: a shallow embedding and its properties

    Source: [juce_appframework/events/juce_MessageManager.cpp].

    The coordinator ([MessageManager]) is a process-wide singleton reached
    through the static pointer [MessageManager::instance].  Its member
    functions and the two constructors and the destructor of
    [MessageManagerLock] are embedded as computations of a small monad [M]
    over the state of the process.  Every computation is run "by" a thread:
    the identity returned by [Thread::getCurrentThreadId()] is the explicit
    argument [tid]. *)

From Stdlib Require Import ZArith Lia.
From stdpp Require Import base decidable list gmap strings.

Local Open Scope Z_scope.

(** ** Machine integers *)

(** [int] is 32 bits wide, [int64] 64 bits wide; both are signed and the
    conversion of an out-of-range value wraps around (two's complement). *)
Definition to_int (z : Z) : Z := (z + 2 ^ 31) mod 2 ^ 32 - 2 ^ 31.
Definition to_int64 (z : Z) : Z := (z + 2 ^ 63) mod 2 ^ 64 - 2 ^ 63.

(** [static const int quitMessageId = 0xfffff321;] *)
Definition quitMessageId : Z := to_int 0xfffff321.

(** ** Data *)

(** [Thread::ThreadID]; [0] is the value the constructor gives to
    [currentLockingThreadId]. *)
Definition ThreadID : Type := Z.

(** Addresses of objects the coordinator only compares: [MessageListener*],
    [Thread*], [ActionListener*].  The null pointer is [0]. *)
Definition Pointer : Type := Z.

(** A [Message], as far as this file reads it: the recipient and the three
    integer parameters and the pointer parameter of its constructor
    [Message (int, int, int, void* )]. *)
Record Message : Type := mkMessage {
  messageRecipient : Pointer;
  intParameter1 : Z;
  intParameter2 : Z;
  intParameter3 : Z;
  pointerParameter : Pointer
}.

(** [new Message (a, b, c, p)].  What the constructor leaves in
    [messageRecipient] does not matter here: the only caller in this file
    assigns the field at once. *)
Definition new_Message (a b c : Z) (p : Pointer) : Message :=
  {| messageRecipient := 0;
     intParameter1 := to_int a; intParameter2 := to_int b;
     intParameter3 := to_int c; pointerParameter := p |}.

(** [m->messageRecipient = r] *)
Definition set_messageRecipient (r : Pointer) (m : Message) : Message :=
  {| messageRecipient := r;
     intParameter1 := intParameter1 m; intParameter2 := intParameter2 m;
     intParameter3 := intParameter3 m; pointerParameter := pointerParameter m |}.

(** Modelled from the spec: the class [CriticalSection] of
    [messageDispatchLock] is not in this file.  The spec describes "a mutex
    with enter / try_enter / exit operations", "not recursive; acquiring it
    while already held by the same thread is undefined".  Its state is the
    thread that holds it, if any. *)
Definition CriticalSection : Type := option ThreadID.

(** The stack object [MessageManagerLock]. *)
Record MessageManagerLock : Type := mkLock {
  lastLockingThreadId : ThreadID;
  locked : bool
}.

(** What a computation is seen to do, in order: the calls it makes to code
    outside this file and the messages it deletes. *)
Inductive Event : Type :=
| EvHandleMessage (recipient : Pointer) (m : Message)
    (* recipient->handleMessage ( *m) *)
| EvDelete (m : Message)
    (* delete m *)
| EvPostToSystemQueue (m : Message)
    (* juce_postMessageToSystemQueue (m) *)
| EvDispatchNextMessage (returnIfNoPendingMessages : bool)
    (* juce_dispatchNextMessageOnSystemQueue (flag) *)
| EvSleep (ms : Z)
    (* Thread::sleep (ms) *)
| EvSendActionMessage (value : string).
    (* broadcastListeners->sendActionMessage (value) *)

(** How a computation ends. *)
Inductive Outcome (A : Type) : Type :=
| Ret (a : A)   (* it returns [a] *)
| Throw         (* a C++ exception leaves it *)
| Block         (* the calling thread is suspended and never resumed by
                   anything this computation does: a mutex held by another
                   thread, an empty system queue *)
| Undef         (* undefined behaviour: null [instance] dereferenced,
                   the mutex re-entered by its holder *)
| NoFuel.       (* the loop bound of the model is exhausted *)
Arguments Ret {A} a.
Arguments Throw {A}.
Arguments Block {A}.
Arguments Undef {A}.
Arguments NoFuel {A}.

Section Coordinator.

(** The fan-out container [ActionListenerList] is external; the coordinator
    only creates it, adds to it, removes from it and sends through it. *)
Context {ActionListenerList : Type}.
Variable new_ActionListenerList : ActionListenerList.
Variable addActionListener : Pointer -> ActionListenerList -> ActionListenerList.
Variable removeActionListener : Pointer -> ActionListenerList -> ActionListenerList.

(** The fields of [MessageManager] that this file reads or writes.
    [messageListeners] is a [SortedSet<void*>] used through [contains]. *)
Record MessageManager : Type := mkMessageManager {
  messageThreadId : ThreadID;
  currentLockingThreadId : ThreadID;
  messageDispatchLock : CriticalSection;
  messageListeners : gset Pointer;
  broadcastListeners : option ActionListenerList;
  quitMessagePosted : bool;
  quitMessageReceived : bool
}.

(** The state of the process: the static [MessageManager::instance]
    ([None] is the null pointer), the operating system's message queue, the
    number of times the clock has been read so far, and the threads whose
    [threadShouldExit()] currently answers true. *)
Record State : Type := mkState {
  instance : option MessageManager;
  systemQueue : list Message;
  clockReads : nat;
  exitSignalled : gset Pointer
}.

(** ** The monad *)

Definition M (A : Type) : Type := State -> Outcome A * State * list Event.

Definition ret {A} (a : A) : M A := fun s => (Ret a, s, []).

Definition bind {A B} (m : M A) (f : A -> M B) : M B :=
  fun s =>
    match m s with
    | (Ret a, s1, t1) => let '(o, s2, t2) := f a s1 in (o, s2, t1 ++ t2)
    | (Throw, s1, t1) => (Throw, s1, t1)
    | (Block, s1, t1) => (Block, s1, t1)
    | (Undef, s1, t1) => (Undef, s1, t1)
    | (NoFuel, s1, t1) => (NoFuel, s1, t1)
    end.

Notation "x <- m ;; k" := (bind m (fun x => k))
  (at level 100, m at next level, right associativity).
Notation "m ;;; k" := (bind m (fun _ => k))
  (at level 100, right associativity).

Definition stop {A} (o : Outcome A) : M A := fun s => (o, s, []).
Definition emit (e : Event) : M unit := fun s => (Ret tt, s, [e]).
Definition get_state : M State := fun s => (Ret s, s, []).
Definition put_state (s' : State) : M unit := fun _ => (Ret tt, s', []).

(** The outcome, final state and trace of a run. *)
Definition outcome {A} (r : Outcome A * State * list Event) : Outcome A := r.1.1.
Definition final {A} (r : Outcome A * State * list Event) : State := r.1.2.
Definition trace {A} (r : Outcome A * State * list Event) : list Event := r.2.

(** Modelled from the spec: the macros [JUCE_TRY] and [JUCE_CATCH_EXCEPTION]
    are not in this file; the spec calls the pair an exception barrier: "any
    thrown error is caught and suppressed so the loop survives".  So
    [JUCE_TRY { body } JUCE_CATCH_EXCEPTION] is [body] with every exception
    caught and dropped. *)
Definition JUCE_TRY_CATCH (body : M unit) : M unit :=
  fun s =>
    match body s with
    | (Throw, s1, t1) => (Ret tt, s1, t1)
    | r => r
    end.

(** A scope that owns a stack object: [cleanup] (the destructor) runs when
    [body] returns and when an exception unwinds through the scope. *)
Definition scope {A} (body : M A) (cleanup : M unit) : M A :=
  fun s =>
    match body s with
    | (Ret a, s1, t1) =>
        let '(o, s2, t2) := cleanup s1 in
        (match o with
         | Ret _ => Ret a | Throw => Throw | Block => Block
         | Undef => Undef | NoFuel => NoFuel
         end, s2, t1 ++ t2)
    | (Throw, s1, t1) =>
        let '(o, s2, t2) := cleanup s1 in
        (match o with
         | Ret _ => Throw | Throw => Throw | Block => Block
         | Undef => Undef | NoFuel => NoFuel
         end, s2, t1 ++ t2)
    | r => r
    end.

(** [a || b] and [a && b]: the right operand is evaluated only when the
    left one does not decide. *)
Definition shortcut_or (a b : M bool) : M bool :=
  x <- a ;; if x then ret true else b.
Definition shortcut_and (a b : M bool) : M bool :=
  x <- a ;; if x then b else ret false.

(** [while (cond) body], with at most [fuel] evaluations of [cond]. *)
Fixpoint while_loop (fuel : nat) (cond : M bool) (body : M unit) : M unit :=
  match fuel with
  | O => stop NoFuel
  | S fuel' =>
      c <- cond ;;
      if c then body ;;; while_loop fuel' cond body else ret tt
  end.

(** A computation keeps a property of the state, however it ends. *)
Definition keeps (I : State -> Prop) {A} (c : M A) : Prop :=
  forall s, I s -> I (final (c s)).

(** ** Code outside this file *)

(** [recipient->handleMessage ( *m)]: what the recipient's handler does to
    the process and how it ends. *)
Variable handleMessage : Pointer -> Message -> State -> Outcome unit * State.

(** The operating system's answer to a post, given the queue and the
    message. *)
Variable systemQueueAccepts : list Message -> Message -> bool.

(** The readings of the system clock, in milliseconds, in the order in
    which the process takes them. *)
Variable Time_currentTimeMillis : nat -> Z.

(** What the other threads of the process do to its state while the caller
    is inside [Thread::sleep (ms)]. *)
Variable otherThreadsDuring : Z -> State -> State.

(** [broadcastListeners->sendActionMessage (value)] *)
Variable sendActionMessage : ActionListenerList -> string -> State -> State.

(** The platform-specific member functions, defined in other files. *)
Variable doPlatformSpecificInitialisation : State -> State.
Variable doPlatformSpecificShutdown : State -> State.

Definition external (f : State -> State) : M unit :=
  fun s => (Ret tt, f s, []).

(** Modelled from the spec: [Thread::sleep (ms)], of the class [Thread]
    that is not in this file ("sleep for 1 ms and retry").  The caller does
    nothing; the rest of the process runs. *)
Definition Thread_sleep (ms : Z) : M unit :=
  emit (EvSleep ms) ;;; external (otherThreadsDuring ms).

(** Modelled from the spec: [thread->threadShouldExit()], of the same
    class: "a worker-thread handle exposing a should_exit() predicate". *)
Definition Thread_threadShouldExit (thread : Pointer) : M bool :=
  s <- get_state ;; ret (bool_decide (thread ∈ exitSignalled s)).

(** ** Access to the singleton *)

(** [MessageManager::instance->...] and, inside a member function,
    [this->...]: the member functions are those of the singleton. *)
Definition deref_instance : M MessageManager :=
  fun s =>
    match instance s with
    | Some mm => (Ret mm, s, [])
    | None => (Undef, s, [])
    end.

Definition set_instance (i : option MessageManager) (s : State) : State :=
  {| instance := i; systemQueue := systemQueue s;
     clockReads := clockReads s; exitSignalled := exitSignalled s |}.

Definition set_systemQueue (q : list Message) (s : State) : State :=
  {| instance := instance s; systemQueue := q;
     clockReads := clockReads s; exitSignalled := exitSignalled s |}.

Definition set_clockReads (n : nat) (s : State) : State :=
  {| instance := instance s; systemQueue := systemQueue s;
     clockReads := n; exitSignalled := exitSignalled s |}.

Definition store_instance (f : MessageManager -> MessageManager) : M unit :=
  mm <- deref_instance ;;
  fun s => (Ret tt, set_instance (Some (f mm)) s, []).

Definition set_currentLockingThreadId (t : ThreadID) (mm : MessageManager) :=
  {| messageThreadId := messageThreadId mm;
     currentLockingThreadId := t;
     messageDispatchLock := messageDispatchLock mm;
     messageListeners := messageListeners mm;
     broadcastListeners := broadcastListeners mm;
     quitMessagePosted := quitMessagePosted mm;
     quitMessageReceived := quitMessageReceived mm |}.

Definition set_messageDispatchLock (cs : CriticalSection) (mm : MessageManager) :=
  {| messageThreadId := messageThreadId mm;
     currentLockingThreadId := currentLockingThreadId mm;
     messageDispatchLock := cs;
     messageListeners := messageListeners mm;
     broadcastListeners := broadcastListeners mm;
     quitMessagePosted := quitMessagePosted mm;
     quitMessageReceived := quitMessageReceived mm |}.

Definition set_messageThreadId (t : ThreadID) (mm : MessageManager) :=
  {| messageThreadId := t;
     currentLockingThreadId := currentLockingThreadId mm;
     messageDispatchLock := messageDispatchLock mm;
     messageListeners := messageListeners mm;
     broadcastListeners := broadcastListeners mm;
     quitMessagePosted := quitMessagePosted mm;
     quitMessageReceived := quitMessageReceived mm |}.

Definition set_broadcastListeners (b : option ActionListenerList) (mm : MessageManager) :=
  {| messageThreadId := messageThreadId mm;
     currentLockingThreadId := currentLockingThreadId mm;
     messageDispatchLock := messageDispatchLock mm;
     messageListeners := messageListeners mm;
     broadcastListeners := b;
     quitMessagePosted := quitMessagePosted mm;
     quitMessageReceived := quitMessageReceived mm |}.

Definition set_quitMessagePosted (b : bool) (mm : MessageManager) :=
  {| messageThreadId := messageThreadId mm;
     currentLockingThreadId := currentLockingThreadId mm;
     messageDispatchLock := messageDispatchLock mm;
     messageListeners := messageListeners mm;
     broadcastListeners := broadcastListeners mm;
     quitMessagePosted := b;
     quitMessageReceived := quitMessageReceived mm |}.

Definition set_quitMessageReceived (b : bool) (mm : MessageManager) :=
  {| messageThreadId := messageThreadId mm;
     currentLockingThreadId := currentLockingThreadId mm;
     messageDispatchLock := messageDispatchLock mm;
     messageListeners := messageListeners mm;
     broadcastListeners := broadcastListeners mm;
     quitMessagePosted := quitMessagePosted mm;
     quitMessageReceived := b |}.

(** ** The mutex *)

(** Modelled from the spec: [messageDispatchLock.enter()].  A free mutex is
    taken; one held by another thread suspends the caller; re-entry by the
    holder is undefined. *)
Definition CriticalSection_enter (tid : ThreadID) : M unit :=
  mm <- deref_instance ;;
  match messageDispatchLock mm with
  | None => store_instance (set_messageDispatchLock (Some tid))
  | Some holder => if bool_decide (holder = tid) then stop Undef else stop Block
  end.

(** Modelled from the spec: [messageDispatchLock.tryEnter()], the
    non-blocking attempt: it answers whether the mutex was taken. *)
Definition CriticalSection_tryEnter (tid : ThreadID) : M bool :=
  mm <- deref_instance ;;
  match messageDispatchLock mm with
  | None => store_instance (set_messageDispatchLock (Some tid)) ;;; ret true
  | Some holder => if bool_decide (holder = tid) then stop Undef else ret false
  end.

(** Modelled from the spec: [messageDispatchLock.exit()] releases the
    mutex. *)
Definition CriticalSection_exit : M unit :=
  store_instance (set_messageDispatchLock None).

(** A non-blocking attempt by [tid] fails in [s]: the coordinator exists
    and another thread holds the mutex. *)
Definition heldByAnother (tid : ThreadID) (s : State) : bool :=
  match instance s with
  | Some mm =>
      match messageDispatchLock mm with
      | Some holder => negb (bool_decide (holder = tid))
      | None => false
      end
  | None => false
  end.

(** ** Thread identity *)

(** [MessageManager::isThisTheMessageThread] *)
Definition isThisTheMessageThread (tid : ThreadID) : M bool :=
  mm <- deref_instance ;;
  ret (bool_decide (tid = messageThreadId mm)).

(** [MessageManager::setCurrentMessageThread] *)
Definition setCurrentMessageThread (threadId : ThreadID) : M unit :=
  store_instance (set_messageThreadId threadId).

(** [MessageManager::currentThreadHasLockedMessageManager] *)
Definition currentThreadHasLockedMessageManager (tid : ThreadID) : M bool :=
  mm <- deref_instance ;;
  ret (bool_decide (tid = currentLockingThreadId mm)).

(** ** The scoped lock *)

(** [MessageManagerLock::MessageManagerLock()] *)
Definition MessageManagerLock_new (tid : ThreadID) : M MessageManagerLock :=
  s <- get_state ;;
  match instance s with
  | Some _ =>
      CriticalSection_enter tid ;;;
      mm <- deref_instance ;;
      let last := currentLockingThreadId mm in
      store_instance (set_currentLockingThreadId tid) ;;;
      ret {| lastLockingThreadId := last; locked := true |}
  | None => ret {| lastLockingThreadId := 0; locked := false |}
  end.

(** [MessageManagerLock::~MessageManagerLock()] *)
Definition MessageManagerLock_delete (lock : MessageManagerLock) : M unit :=
  s <- get_state ;;
  if locked lock && bool_decide (instance s <> None) then
    store_instance (set_currentLockingThreadId (lastLockingThreadId lock)) ;;;
    CriticalSection_exit
  else ret tt.

(** [MessageManagerLock::MessageManagerLock (Thread* )]

    The member [lastLockingThreadId] is not in the initialiser list of this
    constructor: until an acquisition succeeds it holds whatever the stack
    held, [garbage].  [jassert (thread != 0)] is a debug-build check and
    does not change the control flow modelled here.  [fuel] bounds the
    number of acquisition attempts of [for (;;)]. *)
Fixpoint MessageManagerLock_retry (fuel : nat) (tid : ThreadID)
    (thread : Pointer) (garbage : ThreadID) : M MessageManagerLock :=
  match fuel with
  | O => stop NoFuel
  | S fuel' =>
      got <- CriticalSection_tryEnter tid ;;
      if got then
        mm <- deref_instance ;;
        let last := currentLockingThreadId mm in
        store_instance (set_currentLockingThreadId tid) ;;;
        ret {| lastLockingThreadId := last; locked := true |}
      else
        shouldExit <- (if bool_decide (thread <> 0)
                       then Thread_threadShouldExit thread
                       else ret false) ;;
        if shouldExit then
          ret {| lastLockingThreadId := garbage; locked := false |}
        else
          Thread_sleep 1 ;;;
          MessageManagerLock_retry fuel' tid thread garbage
  end.

Definition MessageManagerLock_new_thread (fuel : nat) (tid : ThreadID)
    (thread : Pointer) (garbage : ThreadID) : M MessageManagerLock :=
  s <- get_state ;;
  match instance s with
  | Some _ => MessageManagerLock_retry fuel tid thread garbage
  | None => ret {| lastLockingThreadId := garbage; locked := false |}
  end.

(** ** Construction and destruction of the singleton *)

(** [MessageManager::MessageManager()] run by thread [tid]. *)
Definition new_MessageManager (tid : ThreadID) : MessageManager :=
  {| messageThreadId := tid;
     currentLockingThreadId := 0;
     messageDispatchLock := None;
     messageListeners := ∅;
     broadcastListeners := None;
     quitMessagePosted := false;
     quitMessageReceived := false |}.

(** [MessageManager::getInstance] *)
Definition getInstance (tid : ThreadID) : M MessageManager :=
  s <- get_state ;;
  (if bool_decide (instance s = None) then
     put_state (set_instance (Some (new_MessageManager tid)) s) ;;;
     external doPlatformSpecificInitialisation
   else ret tt) ;;;
  deref_instance.

(** [MessageManager::~MessageManager()] *)
Definition delete_MessageManager : M unit :=
  store_instance (set_broadcastListeners None) ;;;
  external doPlatformSpecificShutdown ;;;
  s <- get_state ;;
  put_state (set_instance None s).

(** ** Posting *)

Definition delete (m : Message) : M unit := emit (EvDelete m).

(** Modelled from the spec: the platform function
    [juce_postMessageToSystemQueue] is only declared in this file.  The
    spec: "enqueue; return true iff the OS accepted ownership".  Whether the
    operating system accepts is its own decision, [systemQueueAccepts]. *)
Definition juce_postMessageToSystemQueue (message : Message) : M bool :=
  emit (EvPostToSystemQueue message) ;;;
  s <- get_state ;;
  if systemQueueAccepts (systemQueue s) message then
    put_state (set_systemQueue (systemQueue s ++ [message]) s) ;;;
    ret true
  else ret false.

(** [MessageManager::postMessageToQueue].  [||] does not evaluate its right
    operand when the left one is true. *)
Definition postMessageToQueue (message : Message) : M unit :=
  mm <- deref_instance ;;
  cond <- (if quitMessagePosted mm then ret true
           else accepted <- juce_postMessageToSystemQueue message ;;
                ret (negb accepted)) ;;
  if cond then delete message else ret tt.

(** ** Delivery *)

Definition call_handleMessage (recipient : Pointer) (m : Message) : M unit :=
  fun s =>
    let '(o, s') := handleMessage recipient m s in
    (o, s', [EvHandleMessage recipient m]).

(** [MessageManager::deliverMessage].  The stack object [lock] lives until
    the end of the function body. *)
Definition deliverMessage (tid : ThreadID) (message : Message) : M unit :=
  lock <- MessageManagerLock_new tid ;;
  scope
    (let m := message in
     let recipient := messageRecipient m in
     mm <- deref_instance ;;
     (if bool_decide (recipient ∈ messageListeners mm) then
        JUCE_TRY_CATCH (call_handleMessage recipient m)
      else if bool_decide (recipient = 0)
              && bool_decide (intParameter1 m = quitMessageId) then
        store_instance (set_quitMessageReceived true)
      else ret tt) ;;;
     delete m)
    (MessageManagerLock_delete lock).

(** ** The dispatch loop *)

(** Modelled from the spec: the platform function
    [juce_dispatchNextMessageOnSystemQueue] is only declared in this file.
    The spec: "pop and dispatch one message via the coordinator's deliver.
    If the queue is empty and return_if_empty is true, return immediately;
    otherwise block until a message arrives."  The answer (unused by the
    callers) tells whether a message was dispatched. *)
Definition juce_dispatchNextMessageOnSystemQueue (tid : ThreadID)
    (returnIfNoPendingMessages : bool) : M bool :=
  emit (EvDispatchNextMessage returnIfNoPendingMessages) ;;;
  s <- get_state ;;
  match systemQueue s with
  | m :: rest =>
      put_state (set_systemQueue rest s) ;;;
      deliverMessage tid m ;;;
      ret true
  | [] => if returnIfNoPendingMessages then ret false else stop Block
  end.

(** [Time::currentTimeMillis()], of the class [Time] that is not in this
    file: the next reading of the clock, an [int64]. *)
Definition currentTimeMillis : M Z :=
  fun s =>
    (Ret (to_int64 (Time_currentTimeMillis (clockReads s))),
     set_clockReads (S (clockReads s)) s,
     []).

(** The condition of the [while] loop of [runDispatchLoopUntil],
    [(millisecondsToRunFor < 0 || endTime > Time::currentTimeMillis())
     && ! quitMessageReceived]: the clock is read only when
    [millisecondsToRunFor >= 0], the flag only when the left operand of [&&]
    is true. *)
Definition dispatchCondition (millisecondsToRunFor endTime : Z) : M bool :=
  shortcut_and
    (shortcut_or
       (ret (bool_decide (millisecondsToRunFor < 0)))
       (now <- currentTimeMillis ;; ret (bool_decide (endTime > now))))
    (mm <- deref_instance ;; ret (negb (quitMessageReceived mm))).

(** The body of that loop. *)
Definition dispatchBody (tid : ThreadID) (millisecondsToRunFor : Z) : M unit :=
  JUCE_TRY_CATCH
    (juce_dispatchNextMessageOnSystemQueue tid
       (bool_decide (millisecondsToRunFor >= 0)) ;;;
     ret tt).

(** [MessageManager::runDispatchLoopUntil].  [jassert
    (isThisTheMessageThread())] is a debug-build check.  The sum is formed
    in [int64].  [fuel] bounds the number of evaluations of the loop
    condition. *)
Definition runDispatchLoopUntil (fuel : nat) (tid : ThreadID)
    (millisecondsToRunFor : Z) : M bool :=
  now <- currentTimeMillis ;;
  let endTime := to_int64 (now + millisecondsToRunFor) in
  while_loop fuel
    (dispatchCondition millisecondsToRunFor endTime)
    (dispatchBody tid millisecondsToRunFor) ;;;
  mm <- deref_instance ;;
  ret (negb (quitMessageReceived mm)).

(** [MessageManager::runDispatchLoop] *)
Definition runDispatchLoop (fuel : nat) (tid : ThreadID) : M unit :=
  runDispatchLoopUntil fuel tid (-1) ;;; ret tt.

(** [MessageManager::stopDispatchLoop] *)
Definition stopDispatchLoop : M unit :=
  let m := set_messageRecipient 0 (new_Message quitMessageId 0 0 0) in
  postMessageToQueue m ;;;
  store_instance (set_quitMessagePosted true).

(** ** Broadcast *)

(** [MessageManager::deliverBroadcastMessage] *)
Definition deliverBroadcastMessage (value : string) : M unit :=
  mm <- deref_instance ;;
  match broadcastListeners mm with
  | Some l =>
      emit (EvSendActionMessage value) ;;;
      external (sendActionMessage l value)
  | None => ret tt
  end.

(** [MessageManager::registerBroadcastListener] *)
Definition registerBroadcastListener (listener : Pointer) : M unit :=
  mm <- deref_instance ;;
  (if bool_decide (broadcastListeners mm = None)
   then store_instance (set_broadcastListeners (Some new_ActionListenerList))
   else ret tt) ;;;
  mm' <- deref_instance ;;
  match broadcastListeners mm' with
  | Some l =>
      store_instance (set_broadcastListeners (Some (addActionListener listener l)))
  | None => stop Undef
  end.

(** [MessageManager::deregisterBroadcastListener] *)
Definition deregisterBroadcastListener (listener : Pointer) : M unit :=
  mm <- deref_instance ;;
  match broadcastListeners mm with
  | Some l =>
      store_instance (set_broadcastListeners (Some (removeActionListener listener l)))
  | None => ret tt
  end.

(** ** The operations of the coordinator

    The member functions of an existing [MessageManager] and the
    constructors and the destructor of [MessageManagerLock], as one type,
    to quantify over "every operation".  The destructor of the coordinator
    itself is left out: it ends the object whose flags are observed. *)
Inductive Operation : Type :=
| OpGetInstance
| OpPostMessageToQueue (message : Message)
| OpDeliverMessage (message : Message)
| OpRunDispatchLoop (fuel : nat)
| OpStopDispatchLoop
| OpRunDispatchLoopUntil (fuel : nat) (millisecondsToRunFor : Z)
| OpDeliverBroadcastMessage (value : string)
| OpRegisterBroadcastListener (listener : Pointer)
| OpDeregisterBroadcastListener (listener : Pointer)
| OpIsThisTheMessageThread
| OpSetCurrentMessageThread (threadId : ThreadID)
| OpCurrentThreadHasLockedMessageManager
| OpMessageManagerLock
| OpMessageManagerLockThread (fuel : nat) (thread : Pointer) (garbage : ThreadID)
| OpDeleteMessageManagerLock (lock : MessageManagerLock).

Definition perform (tid : ThreadID) (op : Operation) : M unit :=
  match op with
  | OpGetInstance => getInstance tid ;;; ret tt
  | OpPostMessageToQueue m => postMessageToQueue m
  | OpDeliverMessage m => deliverMessage tid m
  | OpRunDispatchLoop fuel => runDispatchLoop fuel tid
  | OpStopDispatchLoop => stopDispatchLoop
  | OpRunDispatchLoopUntil fuel ms => runDispatchLoopUntil fuel tid ms ;;; ret tt
  | OpDeliverBroadcastMessage v => deliverBroadcastMessage v
  | OpRegisterBroadcastListener l => registerBroadcastListener l
  | OpDeregisterBroadcastListener l => deregisterBroadcastListener l
  | OpIsThisTheMessageThread => isThisTheMessageThread tid ;;; ret tt
  | OpSetCurrentMessageThread t => setCurrentMessageThread t
  | OpCurrentThreadHasLockedMessageManager =>
      currentThreadHasLockedMessageManager tid ;;; ret tt
  | OpMessageManagerLock => MessageManagerLock_new tid ;;; ret tt
  | OpMessageManagerLockThread fuel thread garbage =>
      MessageManagerLock_new_thread fuel tid thread garbage ;;; ret tt
  | OpDeleteMessageManagerLock lock => MessageManagerLock_delete lock
  end.

(** The flag [quitMessageReceived] of the coordinator, false when there is
    none. *)
Definition quitReceived (s : State) : bool :=
  match instance s with
  | Some mm => quitMessageReceived mm
  | None => false
  end.

Definition quitSeen (s : State) : Prop := quitReceived s = true.

(** The events of a trace that are calls of
    [juce_dispatchNextMessageOnSystemQueue], with their argument. *)
Fixpoint dispatchCalls (tr : list Event) : list bool :=
  match tr with
  | [] => []
  | EvDispatchNextMessage b :: tr' => b :: dispatchCalls tr'
  | _ :: tr' => dispatchCalls tr'
  end.

(** A computation that never calls the platform's dispatch function. *)
Definition silent {A} (c : M A) : Prop :=
  forall s, dispatchCalls (trace (c s)) = [].

End Coordinator.

(** ** A concrete process

    Thread 1 created the coordinator; the listeners at addresses 100 and 200
    are registered.  Used to run the definitions on explicit inputs. *)
Module Sample.

Definition manager : MessageManager (ActionListenerList := list Pointer) :=
  {| messageThreadId := 1;
     currentLockingThreadId := 0;
     messageDispatchLock := None;
     messageListeners := {[ 100; 200 ]};
     broadcastListeners := None;
     quitMessagePosted := false;
     quitMessageReceived := false |}.

Definition process : State :=
  {| instance := Some manager; systemQueue := [];
     clockReads := 0%nat; exitSignalled := {[ 7 ]} |}.

(** The same process before the coordinator exists. *)
Definition bare : State (ActionListenerList := list Pointer) :=
  {| instance := None; systemQueue := [];
     clockReads := 0%nat; exitSignalled := {[ 7 ]} |}.

(** Worker thread 5 holds the dispatch lock. *)
Definition held : State :=
  set_instance
    (Some (set_messageDispatchLock (Some 5)
             (set_currentLockingThreadId 5 manager))) process.

(** The handler of listener 100 returns, that of every other listener
    throws; neither touches the process. *)
Definition handler (recipient : Pointer) (m : Message)
    (s : State (ActionListenerList := list Pointer)) : Outcome unit * State :=
  if bool_decide (recipient = 100) then (Ret tt, s) else (Throw, s).

(** An operating system that accepts a post while fewer than two messages
    are queued. *)
Definition accepts (q : list Message) (m : Message) : bool :=
  bool_decide (length q < 2)%nat.

(** A clock that advances by 10 ms between two readings. *)
Definition clock (n : nat) : Z := 1000 + 10 * Z.of_nat n.

(** The other threads leave the process alone. *)
Definition idle (ms : Z) (s : State (ActionListenerList := list Pointer)) : State := s.

(** While the caller sleeps, thread 9 is told to exit. *)
Definition signal9 (ms : Z) (s : State (ActionListenerList := list Pointer)) : State :=
  {| instance := instance s; systemQueue := systemQueue s;
     clockReads := clockReads s; exitSignalled := {[ 9 ]} ∪ exitSignalled s |}.

(** A fan-out that leaves the process alone. *)
Definition send (l : list Pointer) (v : string)
    (s : State (ActionListenerList := list Pointer)) : State := s.

Definition toListener (r : Pointer) : Message :=
  {| messageRecipient := r; intParameter1 := 1; intParameter2 := 2;
     intParameter3 := 3; pointerParameter := 0 |}.

Definition quitMessage : Message :=
  set_messageRecipient 0 (new_Message quitMessageId 0 0 0).

(** Two messages wait in the system queue: one for listener 100, one for
    the unregistered listener 300. *)
Definition queued : State :=
  set_systemQueue [toListener 100; toListener 300] process.

(** The coordinator has seen the quit message. *)
Definition stopped : State :=
  set_instance (Some (set_quitMessageReceived true manager)) queued.

End Sample.

(** ** Vocabulary for further properties *)

Section Vocabulary.

Context {ActionListenerList : Type}.

(** No exception leaves the computation. *)
Definition never_throws {A} (c : M (ActionListenerList := ActionListenerList) A) : Prop :=
  forall s, outcome (c s) <> Throw.

(** The message is one that makes [deliverMessage] set
    [quitMessageReceived]: its recipient is not registered and is null, and
    its first integer parameter is [quitMessageId]. *)
Definition isQuitMessage (mm : MessageManager (ActionListenerList := ActionListenerList))
    (m : Message) : bool :=
  negb (bool_decide (messageRecipient m ∈ messageListeners mm))
  && bool_decide (messageRecipient m = 0)
  && bool_decide (intParameter1 m = quitMessageId).

(** What one delivery of [m] is seen to do. *)
Definition deliveryTrace (mm : MessageManager (ActionListenerList := ActionListenerList))
    (m : Message) : list Event :=
  if bool_decide (messageRecipient m ∈ messageListeners mm)
  then [EvHandleMessage (messageRecipient m) m; EvDelete m]
  else [EvDelete m].

(** What the dispatch of the messages of [q], in order, is seen to do. *)
Fixpoint drainTrace (returnIfNoPendingMessages : bool)
    (mm : MessageManager (ActionListenerList := ActionListenerList))
    (q : list Message) : list Event :=
  match q with
  | [] => []
  | m :: q' =>
      EvDispatchNextMessage returnIfNoPendingMessages
        :: deliveryTrace mm m ++ drainTrace returnIfNoPendingMessages mm q'
  end.

(** A handler that returns or throws and leaves the state of the process
    as it found it. *)
Definition leavesProcessAlone
    (handleMessage : Pointer -> Message ->
                     State (ActionListenerList := ActionListenerList) ->
                     Outcome unit * State) : Prop :=
  forall r m s,
    (handleMessage r m s).2 = s /\
    ((handleMessage r m s).1 = Ret tt \/ (handleMessage r m s).1 = Throw).

(** The coordinator exists and its flag [quitMessagePosted] is set. *)
Definition quitPosted (s : State (ActionListenerList := ActionListenerList)) : Prop :=
  match instance s with
  | Some mm => quitMessagePosted mm = true
  | None => False
  end.

End Vocabulary.

(** ** Histories *)

Section Histories.

Context {ActionListenerList : Type}.
Variable new_ActionListenerList : ActionListenerList.
Variables addActionListener removeActionListener :
  Pointer -> ActionListenerList -> ActionListenerList.
Variable handleMessage :
  Pointer -> Message -> State (ActionListenerList := ActionListenerList) ->
  Outcome unit * State (ActionListenerList := ActionListenerList).
Variable systemQueueAccepts : list Message -> Message -> bool.
Variable Time_currentTimeMillis : nat -> Z.
Variable otherThreadsDuring :
  Z -> State (ActionListenerList := ActionListenerList) ->
  State (ActionListenerList := ActionListenerList).
Variable sendActionMessage :
  ActionListenerList -> string -> State (ActionListenerList := ActionListenerList) ->
  State (ActionListenerList := ActionListenerList).
Variable doPlatformSpecificInitialisation :
  State (ActionListenerList := ActionListenerList) ->
  State (ActionListenerList := ActionListenerList).

(** The state after a history: operations performed one after the other,
    each by its own thread, each from the state in which the one before
    ended (returned, blocked or otherwise). *)
Fixpoint performAll (history : list (ThreadID * Operation))
    (s : State (ActionListenerList := ActionListenerList)) : State :=
  match history with
  | [] => s
  | (tid, op) :: rest =>
      performAll rest
        (final
           (perform new_ActionListenerList addActionListener removeActionListener
              handleMessage systemQueueAccepts Time_currentTimeMillis
              otherThreadsDuring sendActionMessage
              doPlatformSpecificInitialisation tid op s))
  end.

End Histories.

(** ** More concrete inputs *)
Module Scenario.

(** A clock that stands at 1000 for its first four readings and then jumps
    to 2000. *)
Definition stepClock (n : nat) : Z := if (n <? 4)%nat then 1000 else 2000.

(** The sample process with a message for listener 100, one for listener
    200, the quit message, and one more message for listener 100 behind
    it. *)
Definition beforeQuit : State :=
  set_systemQueue
    [Sample.toListener 100; Sample.toListener 200; Sample.quitMessage;
     Sample.toListener 100]
    Sample.process.

(** The sample process with a broadcast list that holds listener 11. *)
Definition listening : State :=
  set_instance (Some (set_broadcastListeners (Some [11]) Sample.manager))
    Sample.process.

(** While the caller sleeps, thread 5 releases the lock it holds. *)
Definition release5 (ms : Z) (s : State (ActionListenerList := list Pointer)) : State :=
  match instance s with
  | Some mm =>
      set_instance
        (Some (set_messageDispatchLock None (set_currentLockingThreadId 0 mm))) s
  | None => s
  end.

End Scenario.

(** ** The loop, iteration by iteration *)

Section Iterations.

Context {ActionListenerList : Type}.
Variable handleMessage :
  Pointer -> Message -> State (ActionListenerList := ActionListenerList) ->
  Outcome unit * State (ActionListenerList := ActionListenerList).
Variable Time_currentTimeMillis : nat -> Z.

(** The deadline has elapsed at the next reading of the clock; with a
    negative argument there is no deadline. *)
Definition deadlineReached (millisecondsToRunFor endTime : Z)
    (s : State (ActionListenerList := ActionListenerList)) : bool :=
  bool_decide (millisecondsToRunFor >= 0)
  && bool_decide (endTime <= to_int64 (Time_currentTimeMillis (clockReads s))).

(** The state after one look at the deadline: one more reading of the
    clock has been taken, unless there is no deadline. *)
Definition afterCondition (millisecondsToRunFor : Z)
    (s : State (ActionListenerList := ActionListenerList)) : State :=
  if bool_decide (millisecondsToRunFor < 0) then s
  else set_clockReads (S (clockReads s)) s.

(** The loop as the spec words it, "loops until either the deadline elapses
    or quit_received becomes true": [n] iterations take place from [s] when,
    [n] times in a row, the coordinator is there, the deadline has not
    elapsed, [quitMessageReceived] is false and the dispatch behind its
    barrier returns.  The result is the state reached and what has been
    seen. *)
Fixpoint iterations (n : nat) (tid : ThreadID)
    (millisecondsToRunFor endTime : Z)
    (s : State (ActionListenerList := ActionListenerList))
    : option (State (ActionListenerList := ActionListenerList) * list Event) :=
  match n with
  | O => Some (s, [])
  | S n' =>
      if bool_decide (instance s = None)
         || deadlineReached millisecondsToRunFor endTime s
         || quitReceived s
      then None
      else
        match dispatchBody handleMessage tid millisecondsToRunFor
                (afterCondition millisecondsToRunFor s) with
        | (Ret _, s1, t1) =>
            match iterations n' tid millisecondsToRunFor endTime s1 with
            | Some (s2, t2) => Some (s2, t1 ++ t2)
            | None => None
            end
        | _ => None
        end
  end.

End Iterations.

(** ** The lock over any mutex *)

(** Lock scopes as a program writes them: nothing, or a
    [MessageManagerLock] constructed by thread [tid] that lives while the
    scopes [inner] run and is destroyed before the scopes [next] run. *)
Inductive Scopes : Type :=
| Done
| Scoped (tid : ThreadID) (inner next : Scopes).

Section AnyMutex.

(** The class of [messageDispatchLock] is not in this file: here it is a
    parameter.  [enter tid mutex] is the state of the mutex when
    [enter()] called by thread [tid] returns, [None] when it does not
    return; [exit tid mutex] is its state after [exit()] called by thread
    [tid]. *)
Variable Mutex : Type.
Variable enter : ThreadID -> Mutex -> option Mutex.
Variable exit : ThreadID -> Mutex -> Mutex.

(** What the lock reads and writes: nothing when
    [MessageManager::instance] is null, and else
    [instance->currentLockingThreadId] and
    [instance->messageDispatchLock]. *)
Definition LockView : Type := option (ThreadID * Mutex).

(** [MessageManagerLock::MessageManagerLock()] over the parameter. *)
Definition MessageManagerLock_new_over (tid : ThreadID) (v : LockView)
    : option (MessageManagerLock * LockView) :=
  match v with
  | Some (current, mutex) =>
      match enter tid mutex with
      | Some mutex' =>
          Some ({| lastLockingThreadId := current; locked := true |},
                Some (tid, mutex'))
      | None => None
      end
  | None => Some ({| lastLockingThreadId := 0; locked := false |}, None)
  end.

(** [MessageManagerLock::~MessageManagerLock()] over the parameter, run by
    the thread that constructed the lock. *)
Definition MessageManagerLock_delete_over (tid : ThreadID)
    (lock : MessageManagerLock) (v : LockView) : LockView :=
  if locked lock then
    match v with
    | Some (current, mutex) => Some (lastLockingThreadId lock, exit tid mutex)
    | None => v
    end
  else v.

(** Running lock scopes: [None] when a constructor does not return. *)
Fixpoint runScopes (p : Scopes) (v : LockView) : option LockView :=
  match p with
  | Done => Some v
  | Scoped tid inner next =>
      match MessageManagerLock_new_over tid v with
      | Some (lock, v1) =>
          match runScopes inner v1 with
          | Some v2 => runScopes next (MessageManagerLock_delete_over tid lock v2)
          | None => None
          end
      | None => None
      end
  end.

End AnyMutex.

(** The mutex of the embedding above, as an instance of the parameter: a
    free mutex is taken, any other [enter()] does not return. *)
Definition CriticalSection_enter_returns (tid : ThreadID) (mutex : CriticalSection)
    : option CriticalSection :=
  match mutex with
  | None => Some (Some tid)
  | Some _ => None
  end.

Definition CriticalSection_after_exit (tid : ThreadID) (mutex : CriticalSection)
    : CriticalSection := None.

(** What the lock reads and writes, in a state of the process. *)
Definition lockView {ActionListenerList : Type}
    (s : State (ActionListenerList := ActionListenerList))
    : LockView CriticalSection :=
  match instance s with
  | Some mm => Some (currentLockingThreadId mm, messageDispatchLock mm)
  | None => None
  end.

(** A re-entrant mutex, as another instance: its state is its holder and
    how many times the holder has entered it beyond the first. *)
Module Reentrant.

Definition Mutex : Type := option (ThreadID * nat).

Definition enter (tid : ThreadID) (mutex : Mutex) : option Mutex :=
  match mutex with
  | None => Some (Some (tid, O))
  | Some (holder, n) =>
      if bool_decide (holder = tid) then Some (Some (tid, S n)) else None
  end.

Definition exit (tid : ThreadID) (mutex : Mutex) : Mutex :=
  match mutex with
  | Some (holder, S n) => Some (holder, n)
  | _ => None
  end.

(** Thread 5 takes the lock, and inside that scope takes it twice more,
    one after the other, the first time with a further lock inside. *)
Definition nested : Scopes :=
  Scoped 5 (Scoped 5 (Scoped 5 Done Done) (Scoped 5 Done Done)) Done.

(** The sample process with 3 left in [currentLockingThreadId]. *)
Definition marked : State :=
  set_instance (Some (set_currentLockingThreadId 3 Sample.manager)) Sample.process.

End Reentrant.

(** * Properties *)

Section Properties.

Context {ActionListenerList : Type}.
Implicit Types (s : State (ActionListenerList := ActionListenerList))
  (mm : MessageManager (ActionListenerList := ActionListenerList))
  (tid : ThreadID) (lock : MessageManagerLock) (m : Message).

(** ** Running the monad *)

Lemma bind_Ret {A B} (c : M A) (f : A -> M B) s a s1 t1 :
  c s = (Ret a, s1, t1) ->
  bind c f s = (let '(o, s2, t2) := f a s1 in (o, s2, t1 ++ t2)).
Proof. unfold bind. intros ->. reflexivity. Qed.

Lemma bind_Ret_nil {A B} (c : M A) (f : A -> M B) s a s1 :
  c s = (Ret a, s1, []) ->
  bind c f s = f a s1.
Proof.
  intros H. rewrite (bind_Ret c f s a s1 []) by exact H.
  destruct (f a s1) as [[o s2] t2]. reflexivity.
Qed.

Lemma deref_instance_Some s mm :
  instance s = Some mm -> deref_instance s = (Ret mm, s, []).
Proof. unfold deref_instance. intros ->. reflexivity. Qed.

Lemma store_instance_Some (f : MessageManager -> MessageManager) s mm :
  instance s = Some mm ->
  store_instance f s = (Ret tt, set_instance (Some (f mm)) s, []).
Proof.
  intros H. unfold store_instance.
  rewrite (bind_Ret_nil _ _ s mm s) by (apply deref_instance_Some; exact H).
  reflexivity.
Qed.

Lemma CriticalSection_tryEnter_held tid s :
  heldByAnother tid s = true ->
  CriticalSection_tryEnter tid s = (Ret false, s, []).
Proof.
  unfold heldByAnother, CriticalSection_tryEnter.
  destruct (instance s) as [mm|] eqn:Hi; [|discriminate].
  destruct (messageDispatchLock mm) as [holder|] eqn:Hl; [|discriminate].
  intros Hh. apply negb_true_iff in Hh.
  rewrite (bind_Ret_nil _ _ s mm s) by (apply deref_instance_Some; exact Hi).
  rewrite Hl, Hh. reflexivity.
Qed.

(** ** Properties kept by every step *)

Section Keeps.
Variable I : State (ActionListenerList := ActionListenerList) -> Prop.

Lemma keeps_ret {A} (a : A) : keeps I (ret a).
Proof. intros s H. exact H. Qed.

Lemma keeps_stop {A} (o : Outcome A) : keeps I (stop o).
Proof. intros s H. exact H. Qed.

Lemma keeps_emit e : keeps I (emit e).
Proof. intros s H. exact H. Qed.

Lemma keeps_get_state : keeps I get_state.
Proof. intros s H. exact H. Qed.

Lemma keeps_deref_instance : keeps I deref_instance.
Proof. intros s H. unfold deref_instance. destruct (instance s); exact H. Qed.

Lemma keeps_bind {A B} (c : M A) (f : A -> M B) :
  keeps I c -> (forall a, keeps I (f a)) -> keeps I (bind c f).
Proof.
  intros Hc Hf s H. specialize (Hc s H). unfold bind.
  destruct (c s) as [[o s1] t1]. unfold final in Hc; simpl in Hc.
  destruct o; try exact Hc.
  specialize (Hf a s1 Hc). destruct (f a s1) as [[o2 s2] t2]. exact Hf.
Qed.

Lemma keeps_JUCE_TRY_CATCH body : keeps I body -> keeps I (JUCE_TRY_CATCH body).
Proof.
  intros Hb s H. specialize (Hb s H). unfold JUCE_TRY_CATCH.
  destruct (body s) as [[o s1] t1]. destruct o; exact Hb.
Qed.

Lemma keeps_scope {A} (body : M A) cleanup :
  keeps I body -> keeps I cleanup -> keeps I (scope body cleanup).
Proof.
  intros Hb Hc s H. specialize (Hb s H). unfold scope.
  destruct (body s) as [[o s1] t1]. unfold final in Hb; simpl in Hb.
  destruct o; try exact Hb;
    specialize (Hc s1 Hb); destruct (cleanup s1) as [[o2 s2] t2]; exact Hc.
Qed.

Lemma keeps_shortcut_or a b : keeps I a -> keeps I b -> keeps I (shortcut_or a b).
Proof.
  intros Ha Hb. apply keeps_bind; [exact Ha|].
  intros [|]; [apply keeps_ret|exact Hb].
Qed.

Lemma keeps_shortcut_and a b : keeps I a -> keeps I b -> keeps I (shortcut_and a b).
Proof.
  intros Ha Hb. apply keeps_bind; [exact Ha|].
  intros [|]; [exact Hb|apply keeps_ret].
Qed.

Lemma keeps_while_loop fuel cond body :
  keeps I cond -> keeps I body -> keeps I (while_loop fuel cond body).
Proof.
  intros Hc Hb. induction fuel as [|fuel IH]; [apply keeps_stop|].
  cbn [while_loop]. apply keeps_bind; [exact Hc|].
  intros [|]; [|apply keeps_ret].
  apply keeps_bind; [exact Hb|]. intros _. exact IH.
Qed.

Lemma keeps_external (f : State -> State) :
  (forall s, I s -> I (f s)) -> keeps I (external f).
Proof. intros Hf s H. exact (Hf s H). Qed.

End Keeps.

(** ** Computations that do not call the dispatch function *)

Lemma dispatchCalls_app t1 t2 :
  dispatchCalls (t1 ++ t2) = dispatchCalls t1 ++ dispatchCalls t2.
Proof.
  induction t1 as [|e t1 IH]; [reflexivity|].
  destruct e; simpl; rewrite IH; reflexivity.
Qed.

Lemma silent_ret {A} (a : A) : silent (ActionListenerList := ActionListenerList) (ret a).
Proof. intros s. reflexivity. Qed.

Lemma silent_stop {A} (o : Outcome A) :
  silent (ActionListenerList := ActionListenerList) (stop o).
Proof. intros s. reflexivity. Qed.

Lemma silent_deref_instance :
  silent (ActionListenerList := ActionListenerList) deref_instance.
Proof. intros s. unfold deref_instance. destruct (instance s); reflexivity. Qed.

Lemma silent_bind {A B} (c : M (ActionListenerList := ActionListenerList) A)
    (f : A -> M B) :
  silent c -> (forall a, silent (f a)) -> silent (bind c f).
Proof.
  intros Hc Hf s. specialize (Hc s). unfold bind.
  destruct (c s) as [[o s1] t1]. unfold trace in Hc; simpl in Hc.
  destruct o; try exact Hc.
  specialize (Hf a s1). destruct (f a s1) as [[o2 s2] t2].
  unfold trace in *; simpl in *. rewrite dispatchCalls_app, Hc, Hf. reflexivity.
Qed.

Lemma silent_JUCE_TRY_CATCH (body : M (ActionListenerList := ActionListenerList) unit) :
  silent body -> silent (JUCE_TRY_CATCH body).
Proof.
  intros Hb s. specialize (Hb s). unfold JUCE_TRY_CATCH.
  destruct (body s) as [[o s1] t1]. destruct o; exact Hb.
Qed.

Lemma silent_scope {A} (body : M (ActionListenerList := ActionListenerList) A) cleanup :
  silent body -> silent cleanup -> silent (scope body cleanup).
Proof.
  intros Hb Hc s. specialize (Hb s). unfold scope.
  destruct (body s) as [[o s1] t1]. unfold trace in Hb; simpl in Hb.
  destruct o; try exact Hb;
    specialize (Hc s1); destruct (cleanup s1) as [[o2 s2] t2];
    unfold trace in *; simpl in *; rewrite dispatchCalls_app, Hb, Hc; reflexivity.
Qed.

Lemma silent_store_instance (f : MessageManager -> MessageManager) :
  silent (ActionListenerList := ActionListenerList) (store_instance f).
Proof.
  apply silent_bind; [apply silent_deref_instance|]. intros mm s. reflexivity.
Qed.

Lemma silent_get_state : silent (ActionListenerList := ActionListenerList) get_state.
Proof. intros s. reflexivity. Qed.

Lemma silent_external (f : State (ActionListenerList := ActionListenerList) -> State) :
  silent (external f).
Proof. intros s. reflexivity. Qed.

Lemma silent_put_state (s' : State (ActionListenerList := ActionListenerList)) :
  silent (put_state s').
Proof. intros s. reflexivity. Qed.

Lemma silent_currentTimeMillis clock :
  silent (ActionListenerList := ActionListenerList) (currentTimeMillis clock).
Proof. intros s. reflexivity. Qed.

Lemma silent_call_handleMessage
    (handleMessage : Pointer -> Message -> State -> Outcome unit * State) r m :
  silent (ActionListenerList := ActionListenerList) (call_handleMessage handleMessage r m).
Proof.
  intros s. unfold call_handleMessage.
  destruct (handleMessage r m s) as [o s']. reflexivity.
Qed.

Lemma silent_delete m : silent (ActionListenerList := ActionListenerList) (delete m).
Proof. intros s. reflexivity. Qed.

(** Splits a goal [silent c] along the structure of [c]. *)
Ltac silent_step :=
  match goal with
  | |- forall _, _ => intro
  | |- silent (bind _ _) => apply silent_bind
  | |- silent (ret _) => apply silent_ret
  | |- silent (stop _) => apply silent_stop
  | |- silent deref_instance => apply silent_deref_instance
  | |- silent get_state => apply silent_get_state
  | |- silent (put_state _) => apply silent_put_state
  | |- silent (store_instance _) => apply silent_store_instance
  | |- silent (external _) => apply silent_external
  | |- silent (JUCE_TRY_CATCH _) => apply silent_JUCE_TRY_CATCH
  | |- silent (scope _ _) => apply silent_scope
  | |- silent (call_handleMessage _ _ _) => apply silent_call_handleMessage
  | |- silent (delete _) => apply silent_delete
  | |- silent (currentTimeMillis _) => apply silent_currentTimeMillis
  | |- silent (if ?b then _ else _) => destruct b
  | |- silent (match ?x with _ => _ end) => destruct x
  end.

Lemma silent_MessageManagerLock_new tid :
  silent (ActionListenerList := ActionListenerList) (MessageManagerLock_new tid).
Proof.
  unfold MessageManagerLock_new, CriticalSection_enter. repeat silent_step.
Qed.

Lemma silent_MessageManagerLock_delete lock :
  silent (ActionListenerList := ActionListenerList) (MessageManagerLock_delete lock).
Proof.
  unfold MessageManagerLock_delete, CriticalSection_exit. repeat silent_step.
Qed.

Lemma silent_deliverMessage handleMessage tid m :
  silent (ActionListenerList := ActionListenerList) (deliverMessage handleMessage tid m).
Proof.
  unfold deliverMessage.
  apply silent_bind; [apply silent_MessageManagerLock_new|]. intros lock.
  apply silent_scope; [|apply silent_MessageManagerLock_delete].
  repeat silent_step.
Qed.

Lemma silent_dispatchCondition clock millis endTime :
  silent (ActionListenerList := ActionListenerList)
    (dispatchCondition clock millis endTime).
Proof.
  unfold dispatchCondition, shortcut_and, shortcut_or. repeat silent_step.
Qed.

(** One run of the loop body calls the dispatch function once, with
    [returnIfNoPendingMessages = (millisecondsToRunFor >= 0)]. *)
Lemma dispatchBody_calls handleMessage tid millis s :
  dispatchCalls (trace (dispatchBody handleMessage tid millis s))
  = [bool_decide (millis >= 0)].
Proof.
  unfold dispatchBody, JUCE_TRY_CATCH, juce_dispatchNextMessageOnSystemQueue.
  set (flag := bool_decide (millis >= 0)).
  unfold bind at 1.
  rewrite (bind_Ret _ _ s tt s [EvDispatchNextMessage flag]) by reflexivity.
  rewrite (bind_Ret_nil _ _ s s s) by reflexivity.
  destruct (systemQueue s) as [|m rest].
  - destruct flag; reflexivity.
  - rewrite (bind_Ret_nil _ _ s tt (set_systemQueue rest s)) by reflexivity.
    pose proof (silent_deliverMessage handleMessage tid m (set_systemQueue rest s)) as Hd.
    unfold bind.
    destruct (deliverMessage handleMessage tid m (set_systemQueue rest s))
      as [[o s1] t1].
    unfold trace in Hd; simpl in Hd.
    destruct o; unfold trace; simpl; rewrite ?app_nil_r, Hd; reflexivity.
Qed.

(** The loop calls the dispatch function once per iteration, always with
    the same argument. *)
Lemma while_loop_calls fuel (cond : M (ActionListenerList := ActionListenerList) bool)
    body flag :
  silent cond ->
  (forall s, dispatchCalls (trace (body s)) = [flag]) ->
  forall s, exists k,
    dispatchCalls (trace (while_loop fuel cond body s)) = repeat flag k.
Proof.
  intros Hc Hb. induction fuel as [|fuel IH]; intros s.
  - exists 0%nat. reflexivity.
  - cbn [while_loop]. unfold bind at 1.
    specialize (Hc s). destruct (cond s) as [[o s1] t1].
    unfold trace in Hc; simpl in Hc.
    destruct o as [c| | | |]; try (exists 0%nat; exact Hc).
    destruct c.
    + unfold bind. specialize (Hb s1).
      destruct (body s1) as [[o2 s2] t2]. unfold trace in Hb; simpl in Hb.
      destruct o2 as [[]| | | |];
        try (exists 1%nat; unfold trace; simpl;
             rewrite dispatchCalls_app, Hc, Hb; reflexivity).
      destruct (IH s2) as [k Hk].
      destruct (while_loop fuel cond body s2) as [[o3 s3] t3].
      unfold trace in Hk; simpl in Hk.
      exists (S k). unfold trace; simpl.
      rewrite !dispatchCalls_app, Hc, Hb, Hk. reflexivity.
    + exists 0%nat. unfold trace; simpl. rewrite app_nil_r. exact Hc.
Qed.

(** When the loop returns, the last thing it did was to evaluate its
    condition to false. *)
Lemma while_loop_exit fuel (cond : M (ActionListenerList := ActionListenerList) bool)
    body :
  forall s s' tr,
  while_loop fuel cond body s = (Ret tt, s', tr) ->
  exists sc t, cond sc = (Ret false, s', t).
Proof.
  induction fuel as [|fuel IH]; intros s s' tr H; [discriminate|].
  cbn [while_loop] in H. unfold bind at 1 in H.
  destruct (cond s) as [[o s1] t1] eqn:Hc.
  destruct o as [c| | | |]; try discriminate.
  destruct c.
  - unfold bind in H. destruct (body s1) as [[o2 s2] t2].
    destruct o2 as [[]| | | |]; try discriminate.
    destruct (while_loop fuel cond body s2) as [[o3 s3] t3] eqn:Hw.
    destruct o3 as [[]| | | |]; try discriminate.
    inversion H; subst. exact (IH _ _ _ Hw).
  - inversion H; subst. eauto.
Qed.

(** A run of the loop that does not stop for lack of fuel is the same with
    more fuel. *)
Lemma while_loop_more_fuel (cond : M (ActionListenerList := ActionListenerList) bool)
    body fuel :
  forall fuel' s,
  (fuel <= fuel')%nat ->
  outcome (while_loop fuel cond body s) <> NoFuel ->
  while_loop fuel' cond body s = while_loop fuel cond body s.
Proof.
  induction fuel as [|fuel IH]; intros fuel' s Hle Hout.
  - exfalso. apply Hout. reflexivity.
  - destruct fuel' as [|fuel']; [lia|].
    cbn [while_loop] in *. unfold bind at 1 in Hout. unfold bind at 1 3.
    destruct (cond s) as [[o s1] t1]. destruct o as [c| | | |]; try reflexivity.
    destruct c; [|reflexivity].
    unfold bind in Hout |- *.
    destruct (body s1) as [[o2 s2] t2]. destruct o2 as [[]| | | |]; try reflexivity.
    rewrite (IH fuel' s2); [reflexivity|lia|].
    intros Hno. apply Hout.
    destruct (while_loop fuel cond body s2) as [[o3 s3] t3].
    unfold outcome in *; simpl in *. subst o3. reflexivity.
Qed.

(** ** Records *)

Lemma release_restores mm t :
  messageDispatchLock mm = None ->
  set_messageDispatchLock None
    (set_currentLockingThreadId (currentLockingThreadId mm)
       (set_currentLockingThreadId t (set_messageDispatchLock (Some t) mm))) = mm.
Proof. destruct mm; simpl; intros ->; reflexivity. Qed.

(** ** The scoped lock *)

(** What the blocking constructor does when the coordinator exists and the
    mutex is free. *)
Lemma MessageManagerLock_new_free tid s mm :
  instance s = Some mm -> messageDispatchLock mm = None ->
  MessageManagerLock_new tid s =
    (Ret {| lastLockingThreadId := currentLockingThreadId mm; locked := true |},
     set_instance
       (Some (set_currentLockingThreadId tid
                (set_messageDispatchLock (Some tid) mm))) s,
     []).
Proof.
  destruct s as [i q n e], mm as [a b c d f g h]; simpl.
  intros -> ->. reflexivity.
Qed.

(** It does not return while another thread holds the mutex. *)
Lemma MessageManagerLock_new_held tid s mm holder :
  instance s = Some mm -> messageDispatchLock mm = Some holder -> holder <> tid ->
  MessageManagerLock_new tid s = (Block, s, []).
Proof.
  destruct s as [i q n e], mm as [a b c d f g h]; simpl.
  intros -> -> Hne.
  unfold MessageManagerLock_new, CriticalSection_enter, bind, get_state,
    deref_instance; simpl.
  rewrite bool_decide_eq_false_2 by assumption. reflexivity.
Qed.

(** The destructor, case by case. *)
Lemma MessageManagerLock_delete_eq lock s :
  MessageManagerLock_delete lock s =
    if locked lock then
      match instance s with
      | Some mm =>
          (Ret tt,
           set_instance
             (Some (set_messageDispatchLock None
                      (set_currentLockingThreadId (lastLockingThreadId lock) mm))) s,
           [])
      | None => (Ret tt, s, [])
      end
    else (Ret tt, s, []).
Proof.
  unfold MessageManagerLock_delete, CriticalSection_exit, store_instance,
    deref_instance, bind, get_state, ret.
  destruct (locked lock); simpl; [|reflexivity].
  destruct s as [[mm|] q n e]; simpl; reflexivity.
Qed.

(** C1, as the code has it.  A worker whose thread id differs from
    [messageThreadId] and that has constructed a blocking
    [MessageManagerLock] (the coordinator exists, the mutex was free) is
    answered true by [currentThreadHasLockedMessageManager], and false by
    [isThisTheMessageThread]: that function compares with [messageThreadId]
    only, which the lock does not write. *)
Theorem worker_holding_lock_identity tid s mm :
  instance s = Some mm ->
  messageDispatchLock mm = None ->
  tid <> messageThreadId mm ->
  exists lock s1,
    MessageManagerLock_new tid s = (Ret lock, s1, []) /\
    locked lock = true /\
    currentThreadHasLockedMessageManager tid s1 = (Ret true, s1, []) /\
    isThisTheMessageThread tid s1 = (Ret false, s1, []).
Proof.
  intros Hi Hl Hne.
  eexists _, _. split; [apply MessageManagerLock_new_free; eassumption|].
  split; [reflexivity|].
  destruct s as [i q n e]; simpl in *.
  unfold currentThreadHasLockedMessageManager, isThisTheMessageThread,
    bind, deref_instance, ret; simpl.
  rewrite bool_decide_eq_true_2 by reflexivity.
  rewrite bool_decide_eq_false_2 by assumption.
  split; reflexivity.
Qed.

(** It does not return either when the caller itself holds the mutex of
    the embedding. *)
Lemma MessageManagerLock_new_reentered tid s mm :
  instance s = Some mm -> messageDispatchLock mm = Some tid ->
  MessageManagerLock_new tid s = (Undef, s, []).
Proof.
  destruct s as [i q n e], mm as [a b c d f g h]; simpl.
  intros -> ->.
  unfold MessageManagerLock_new, CriticalSection_enter, bind, get_state,
    deref_instance; simpl.
  rewrite bool_decide_eq_true_2 by reflexivity. reflexivity.
Qed.

(** Over any mutex whose [exit()] undoes the [enter()] that returned, the
    destructor undoes the constructor. *)
Lemma MessageManagerLock_over_round_trip (Mutex : Type)
    (enter : ThreadID -> Mutex -> option Mutex)
    (exit : ThreadID -> Mutex -> Mutex) :
  (forall t mutex mutex', enter t mutex = Some mutex' -> exit t mutex' = mutex) ->
  forall tid v lock v1,
  MessageManagerLock_new_over Mutex enter tid v = Some (lock, v1) ->
  MessageManagerLock_delete_over Mutex exit tid lock v1 = v.
Proof.
  intros Hlaw tid v lock v1.
  unfold MessageManagerLock_new_over, MessageManagerLock_delete_over.
  destruct v as [[current mutex]|].
  - destruct (enter tid mutex) as [mutex'|] eqn:He; [|discriminate].
    intros H. inversion H; subst. simpl. rewrite (Hlaw _ _ _ He). reflexivity.
  - intros H. inversion H; subst. reflexivity.
Qed.

Lemma runScopes_round_trip (Mutex : Type)
    (enter : ThreadID -> Mutex -> option Mutex)
    (exit : ThreadID -> Mutex -> Mutex) :
  (forall t mutex mutex', enter t mutex = Some mutex' -> exit t mutex' = mutex) ->
  forall p v v', runScopes Mutex enter exit p v = Some v' -> v' = v.
Proof.
  intros Hlaw p.
  induction p as [|tid inner IHinner next IHnext]; intros v v' H.
  - inversion H. reflexivity.
  - cbn [runScopes] in H.
    destruct (MessageManagerLock_new_over Mutex enter tid v) as [[lock v1]|] eqn:Hnew;
      [|discriminate].
    destruct (runScopes Mutex enter exit inner v1) as [v2|] eqn:Hin; [|discriminate].
    rewrite (IHinner _ _ Hin) in H.
    rewrite (MessageManagerLock_over_round_trip Mutex enter exit Hlaw _ _ _ _ Hnew) in H.
    exact (IHnext _ _ H).
Qed.

(** C6.  The blocking constructor saves [currentLockingThreadId] and the
    destructor writes it back and releases the mutex.
    - In the embedding above, with the coordinator existing and the mutex
      free, the constructor returns, having saved the previous id;
      destroying the lock at once gives back the very state of before; and
      in whatever state the lock is destroyed later, as long as the
      coordinator exists, the destructor writes the saved value back, frees
      the mutex and touches nothing else.
    - The constructor and the destructor of the embedding are, on what they
      read and write, the constructor and the destructor over a parameter
      mutex, taken at the mutex of the embedding.
    - Over any mutex whose [exit()] undoes the [enter()] that returned (a
      re-entrant one too), a lock constructed and destroyed leaves
      [currentLockingThreadId] and the mutex as they were, and so does
      every program of lock scopes, nested in each other and following each
      other to any depth, whose constructors return. *)
Theorem lock_round_trip (Mutex : Type)
    (enter : ThreadID -> Mutex -> option Mutex)
    (exit : ThreadID -> Mutex -> Mutex) :
  (forall tid s mm,
     instance s = Some mm ->
     messageDispatchLock mm = None ->
     exists lock s1,
       MessageManagerLock_new tid s = (Ret lock, s1, []) /\
       locked lock = true /\
       lastLockingThreadId lock = currentLockingThreadId mm /\
       MessageManagerLock_delete lock s1 = (Ret tt, s, []) /\
       forall s2 mm2, instance s2 = Some mm2 ->
         MessageManagerLock_delete lock s2 =
           (Ret tt,
            set_instance
              (Some (set_messageDispatchLock None
                       (set_currentLockingThreadId (currentLockingThreadId mm) mm2)))
              s2,
            [])) /\
  (forall tid s,
     match MessageManagerLock_new_over CriticalSection
             CriticalSection_enter_returns tid (lockView s) with
     | Some (lock, v1) =>
         exists s1, MessageManagerLock_new tid s = (Ret lock, s1, []) /\
                    lockView s1 = v1
     | None => forall lock, outcome (MessageManagerLock_new tid s) <> Ret lock
     end) /\
  (forall tid lock s,
     lockView (final (MessageManagerLock_delete lock s)) =
     MessageManagerLock_delete_over CriticalSection CriticalSection_after_exit
       tid lock (lockView s)) /\
  ((forall t mutex mutex', enter t mutex = Some mutex' -> exit t mutex' = mutex) ->
   (forall tid v lock v1,
      MessageManagerLock_new_over Mutex enter tid v = Some (lock, v1) ->
      MessageManagerLock_delete_over Mutex exit tid lock v1 = v) /\
   (forall p v v', runScopes Mutex enter exit p v = Some v' -> v' = v)).
Proof.
  split; [|split; [|split]].
  - intros tid s mm Hi Hl.
    eexists _, _. split; [apply MessageManagerLock_new_free; eassumption|].
    split; [reflexivity|]. split; [reflexivity|]. split.
    + rewrite MessageManagerLock_delete_eq. simpl.
      rewrite release_restores by assumption.
      destruct s; simpl in *. subst. reflexivity.
    + intros s2 mm2 H2. rewrite MessageManagerLock_delete_eq. simpl.
      rewrite H2. reflexivity.
  - intros tid s. unfold lockView.
    destruct (instance s) as [mm|] eqn:Hi.
    + cbn [MessageManagerLock_new_over].
      destruct (messageDispatchLock mm) as [holder|] eqn:Hl;
        cbn [CriticalSection_enter_returns].
      * intros lock.
        destruct (decide (holder = tid)) as [->|Hne].
        -- rewrite (MessageManagerLock_new_reentered tid s mm Hi Hl). discriminate.
        -- rewrite (MessageManagerLock_new_held tid s mm holder Hi Hl Hne).
           discriminate.
      * eexists. split; [apply MessageManagerLock_new_free; eassumption|].
        reflexivity.
    + exists s. split; [|rewrite Hi; reflexivity].
      unfold MessageManagerLock_new.
      rewrite (bind_Ret_nil _ _ s s s) by reflexivity. rewrite Hi. reflexivity.
  - intros tid lock s. rewrite MessageManagerLock_delete_eq.
    unfold MessageManagerLock_delete_over, lockView, final.
    destruct (locked lock); [|reflexivity].
    destruct (instance s) as [mm|] eqn:Hi; simpl; rewrite ?Hi; reflexivity.
  - intros Hlaw. split.
    + exact (MessageManagerLock_over_round_trip Mutex enter exit Hlaw).
    + exact (runScopes_round_trip Mutex enter exit Hlaw).
Qed.

(** One failed attempt of the cancellable constructor: either the thread
    has been told to exit and the constructor gives up, or it sleeps and
    tries again. *)
Lemma MessageManagerLock_retry_failed otherThreadsDuring fuel tid thread garbage s :
  heldByAnother tid s = true ->
  MessageManagerLock_retry otherThreadsDuring (S fuel) tid thread garbage s =
    if bool_decide (thread <> 0) && bool_decide (thread ∈ exitSignalled s) then
      (Ret {| lastLockingThreadId := garbage; locked := false |}, s, [])
    else
      let '(o, s2, t2) :=
        MessageManagerLock_retry otherThreadsDuring fuel tid thread garbage
          (otherThreadsDuring 1 s) in
      (o, s2, EvSleep 1 :: t2).
Proof.
  intros Hh. cbn [MessageManagerLock_retry].
  rewrite (bind_Ret_nil _ _ s false s) by (apply CriticalSection_tryEnter_held; exact Hh).
  destruct (bool_decide (thread <> 0)); cbn [andb].
  - rewrite (bind_Ret_nil _ _ s (bool_decide (thread ∈ exitSignalled s)) s) by reflexivity.
    destruct (bool_decide (thread ∈ exitSignalled s)); [reflexivity|].
    rewrite (bind_Ret _ _ s tt (otherThreadsDuring 1 s) [EvSleep 1]) by reflexivity.
    reflexivity.
  - rewrite (bind_Ret_nil _ _ s false s) by reflexivity.
    rewrite (bind_Ret _ _ s tt (otherThreadsDuring 1 s) [EvSleep 1]) by reflexivity.
    reflexivity.
Qed.

Lemma MessageManagerLock_retry_abandons otherThreadsDuring k :
  forall fuel tid thread garbage s,
  thread <> 0 ->
  (forall j, (j < k)%nat ->
     heldByAnother tid (Nat.iter j (otherThreadsDuring 1) s) = true /\
     thread ∉ exitSignalled (Nat.iter j (otherThreadsDuring 1) s)) ->
  heldByAnother tid (Nat.iter k (otherThreadsDuring 1) s) = true ->
  thread ∈ exitSignalled (Nat.iter k (otherThreadsDuring 1) s) ->
  (k < fuel)%nat ->
  MessageManagerLock_retry otherThreadsDuring fuel tid thread garbage s =
    (Ret {| lastLockingThreadId := garbage; locked := false |},
     Nat.iter k (otherThreadsDuring 1) s,
     repeat (EvSleep 1) k).
Proof.
  induction k as [|k IH]; intros fuel tid thread garbage s Hth Hbefore Hheld Hexit Hfuel.
  - destruct fuel as [|fuel]; [lia|].
    simpl in Hheld, Hexit.
    rewrite MessageManagerLock_retry_failed by assumption.
    rewrite !bool_decide_eq_true_2 by assumption. reflexivity.
  - destruct fuel as [|fuel]; [lia|].
    destruct (Hbefore 0%nat ltac:(lia)) as [Hh0 He0]. simpl in Hh0, He0.
    rewrite MessageManagerLock_retry_failed by assumption.
    rewrite (bool_decide_eq_false_2 (thread ∈ exitSignalled s)) by assumption.
    rewrite andb_false_r.
    rewrite Nat.iter_succ_r in Hheld, Hexit.
    rewrite (IH fuel tid thread garbage (otherThreadsDuring 1 s)); try assumption; try lia.
    + rewrite Nat.iter_succ_r. reflexivity.
    + intros j Hj. specialize (Hbefore (S j) ltac:(lia)).
      rewrite Nat.iter_succ_r in Hbefore. exact Hbefore.
Qed.

(** C7.  In the cancellable constructor, let the first [k] attempts fail
    with the thread not yet told to exit, and let the next attempt fail
    with [threadShouldExit()] true.  Then the constructor returns with
    [locked = false]; the state it returns in is the one the other threads
    produced during the [k] sleeps (for [k = 0], the initial state): the
    constructor wrote neither [currentLockingThreadId] nor the mutex.  The
    destructor of that lock changes nothing, in any state. *)
Theorem cancellable_lock_abandons otherThreadsDuring k fuel tid thread garbage s :
  thread <> 0 ->
  (forall j, (j < k)%nat ->
     heldByAnother tid (Nat.iter j (otherThreadsDuring 1) s) = true /\
     thread ∉ exitSignalled (Nat.iter j (otherThreadsDuring 1) s)) ->
  heldByAnother tid (Nat.iter k (otherThreadsDuring 1) s) = true ->
  thread ∈ exitSignalled (Nat.iter k (otherThreadsDuring 1) s) ->
  (k < fuel)%nat ->
  exists lock,
    MessageManagerLock_new_thread otherThreadsDuring fuel tid thread garbage s =
      (Ret lock, Nat.iter k (otherThreadsDuring 1) s, repeat (EvSleep 1) k) /\
    locked lock = false /\
    forall s', MessageManagerLock_delete lock s' = (Ret tt, s', []).
Proof.
  intros Hth Hbefore Hheld Hexit Hfuel.
  exists {| lastLockingThreadId := garbage; locked := false |}.
  split; [|split]; [|reflexivity|intros s'; rewrite MessageManagerLock_delete_eq; reflexivity].
  assert (Hi : exists mm, instance s = Some mm).
  { assert (H0 : heldByAnother tid s = true).
    { destruct k; [exact Hheld|]. apply (Hbefore 0%nat). lia. }
    unfold heldByAnother in H0. destruct (instance s); [eauto|discriminate]. }
  destruct Hi as [mm Hi].
  unfold MessageManagerLock_new_thread, bind, get_state. simpl. rewrite Hi.
  rewrite (MessageManagerLock_retry_abandons otherThreadsDuring k) by assumption.
  reflexivity.
Qed.

(** C9.  While [MessageManager::instance] is null, either constructor
    returns at once with [locked = false] (the cancellable one without an
    attempt, a sleep or a look at the thread), in the unchanged state; and
    the destructor of such a lock changes nothing, in any state. *)
Theorem lock_without_singleton otherThreadsDuring fuel tid thread garbage s :
  instance s = None ->
  (exists lock, MessageManagerLock_new tid s = (Ret lock, s, []) /\
     locked lock = false /\
     forall s', MessageManagerLock_delete lock s' = (Ret tt, s', [])) /\
  (exists lock,
     MessageManagerLock_new_thread otherThreadsDuring fuel tid thread garbage s
       = (Ret lock, s, []) /\
     locked lock = false /\
     forall s', MessageManagerLock_delete lock s' = (Ret tt, s', [])).
Proof.
  intros Hi. split.
  - exists {| lastLockingThreadId := 0; locked := false |}.
    split; [|split]; [|reflexivity|intros s'; rewrite MessageManagerLock_delete_eq; reflexivity].
    unfold MessageManagerLock_new, bind, get_state; simpl. rewrite Hi. reflexivity.
  - exists {| lastLockingThreadId := garbage; locked := false |}.
    split; [|split]; [|reflexivity|intros s'; rewrite MessageManagerLock_delete_eq; reflexivity].
    unfold MessageManagerLock_new_thread, bind, get_state; simpl. rewrite Hi. reflexivity.
Qed.

(** C10.  The destructor writes [lastLockingThreadId] back and releases
    the mutex exactly when [locked] is true and [MessageManager::instance]
    is non-null at that moment; when [locked] is true but the instance
    pointer is null, it returns without any effect. *)
Theorem destructor_needs_live_singleton lock s :
  (forall mm, locked lock = true -> instance s = Some mm ->
     MessageManagerLock_delete lock s =
       (Ret tt,
        set_instance
          (Some (set_messageDispatchLock None
                   (set_currentLockingThreadId (lastLockingThreadId lock) mm))) s,
        [])) /\
  (locked lock = false \/ instance s = None ->
     MessageManagerLock_delete lock s = (Ret tt, s, [])).
Proof.
  rewrite MessageManagerLock_delete_eq. split.
  - intros mm -> ->. reflexivity.
  - intros [-> | ->]; [reflexivity|]. destruct (locked lock); reflexivity.
Qed.

(** ** Posting *)

Lemma juce_postMessageToSystemQueue_eq systemQueueAccepts m s :
  juce_postMessageToSystemQueue systemQueueAccepts m s =
    if systemQueueAccepts (systemQueue s) m
    then (Ret true, set_systemQueue (systemQueue s ++ [m]) s, [EvPostToSystemQueue m])
    else (Ret false, s, [EvPostToSystemQueue m]).
Proof.
  unfold juce_postMessageToSystemQueue.
  rewrite (bind_Ret _ _ s tt s [EvPostToSystemQueue m]) by reflexivity.
  rewrite (bind_Ret_nil _ _ s s s) by reflexivity.
  destruct (systemQueueAccepts (systemQueue s) m); reflexivity.
Qed.

Lemma postMessageToQueue_eq systemQueueAccepts m s mm :
  instance s = Some mm ->
  postMessageToQueue systemQueueAccepts m s =
    if quitMessagePosted mm then (Ret tt, s, [EvDelete m])
    else if systemQueueAccepts (systemQueue s) m
    then (Ret tt, set_systemQueue (systemQueue s ++ [m]) s, [EvPostToSystemQueue m])
    else (Ret tt, s, [EvPostToSystemQueue m; EvDelete m]).
Proof.
  intros Hi. unfold postMessageToQueue.
  rewrite (bind_Ret_nil _ _ s mm s) by (apply deref_instance_Some; exact Hi).
  destruct (quitMessagePosted mm).
  - rewrite (bind_Ret_nil _ _ s true s) by reflexivity. reflexivity.
  - unfold bind at 1. unfold bind at 1.
    rewrite juce_postMessageToSystemQueue_eq.
    destruct (systemQueueAccepts (systemQueue s) m); reflexivity.
Qed.

(** C5.  A post returns, without a value and without an exception.  With
    [quitMessagePosted] set the message is deleted and the platform function
    is not called; with the flag clear the platform function is called once,
    and the message is deleted if the answer is false, and otherwise is in
    the system queue and not deleted. *)
Theorem post_deletes_or_hands_over systemQueueAccepts m s mm :
  instance s = Some mm ->
  exists s' tr,
    postMessageToQueue systemQueueAccepts m s = (Ret tt, s', tr) /\
    (quitMessagePosted mm = true -> s' = s /\ tr = [EvDelete m]) /\
    (quitMessagePosted mm = false ->
     systemQueueAccepts (systemQueue s) m = false ->
     s' = s /\ tr = [EvPostToSystemQueue m; EvDelete m]) /\
    (quitMessagePosted mm = false ->
     systemQueueAccepts (systemQueue s) m = true ->
     s' = set_systemQueue (systemQueue s ++ [m]) s /\
     tr = [EvPostToSystemQueue m]).
Proof.
  intros Hi. rewrite (postMessageToQueue_eq _ _ _ _ Hi).
  destruct (quitMessagePosted mm).
  - eexists _, _. split; [reflexivity|]. repeat split; discriminate.
  - destruct (systemQueueAccepts (systemQueue s) m);
      (eexists _, _; split; [reflexivity|]); repeat split; discriminate.
Qed.

(** The quit message, as [stopDispatchLoop] builds it. *)
Lemma sentinel_eq :
  set_messageRecipient 0 (new_Message quitMessageId 0 0 0)
  = mkMessage 0 quitMessageId 0 0 0.
Proof. reflexivity. Qed.

(** The 32-bit pattern of [quitMessageId] is [0xfffff321]; as an [int] it
    is negative. *)
Lemma quitMessageId_value :
  quitMessageId = -3295 /\ quitMessageId mod 2 ^ 32 = 0xfffff321.
Proof. split; reflexivity. Qed.

(** C4.  [stopDispatchLoop] posts the message with null recipient and
    first integer parameter [quitMessageId] through [postMessageToQueue],
    and sets [quitMessagePosted] after the post.  So, with the flag clear on
    entry, the first thing it does is to offer that message to the platform
    function; with the flag already set, the message is deleted without
    being offered. *)
Theorem stopDispatchLoop_posts_then_flags systemQueueAccepts s mm :
  instance s = Some mm ->
  let sentinel := mkMessage 0 quitMessageId 0 0 0 in
  let flagged s' := set_instance (Some (set_quitMessagePosted true mm)) s' in
  stopDispatchLoop systemQueueAccepts s =
    (if quitMessagePosted mm then
       (Ret tt, flagged s, [EvDelete sentinel])
     else if systemQueueAccepts (systemQueue s) sentinel then
       (Ret tt, flagged (set_systemQueue (systemQueue s ++ [sentinel]) s),
        [EvPostToSystemQueue sentinel])
     else
       (Ret tt, flagged s, [EvPostToSystemQueue sentinel; EvDelete sentinel])).
Proof.
  intros Hi sentinel flagged. unfold stopDispatchLoop.
  rewrite sentinel_eq. fold sentinel.
  unfold bind at 1. rewrite (postMessageToQueue_eq _ _ _ _ Hi).
  destruct (quitMessagePosted mm).
  - rewrite (store_instance_Some _ _ _ Hi). reflexivity.
  - destruct (systemQueueAccepts (systemQueue s) sentinel).
    + rewrite (store_instance_Some _ _ mm) by exact Hi. reflexivity.
    + rewrite (store_instance_Some _ _ _ Hi). reflexivity.
Qed.

(** ** Delivery *)

Lemma unlock_after_quit mm tid :
  messageDispatchLock mm = None ->
  set_messageDispatchLock None
    (set_currentLockingThreadId (currentLockingThreadId mm)
       (set_quitMessageReceived true
          (set_currentLockingThreadId tid
             (set_messageDispatchLock (Some tid) mm))))
  = set_quitMessageReceived true mm.
Proof. destruct mm; simpl; intros ->; reflexivity. Qed.

(** C2.  Delivery by a thread that can take the dispatch lock.  [s1] is
    the state in which the body runs, with the lock taken.
    - The recipient is registered: its handler is called once; whether it
      returns or throws, [deliverMessage] goes on, deletes the message and
      returns.
    - Otherwise, the recipient is null and the first integer parameter is
      [quitMessageId]: [quitMessageReceived] is set, nothing else changes.
    - Otherwise nothing changes.
    In each case the trace holds exactly one deletion, that of the
    message, as the last action before the lock is released. *)
Theorem deliverMessage_cases handleMessage tid m s mm :
  instance s = Some mm ->
  messageDispatchLock mm = None ->
  let recipient := messageRecipient m in
  let lock := {| lastLockingThreadId := currentLockingThreadId mm; locked := true |} in
  let s1 := set_instance
              (Some (set_currentLockingThreadId tid
                       (set_messageDispatchLock (Some tid) mm))) s in
  (recipient ∈ messageListeners mm ->
   forall o s2, handleMessage recipient m s1 = (o, s2) ->
     o = Ret tt \/ o = Throw ->
     deliverMessage handleMessage tid m s =
       (Ret tt, final (MessageManagerLock_delete lock s2),
        [EvHandleMessage recipient m; EvDelete m])) /\
  (recipient ∉ messageListeners mm ->
   recipient = 0 -> intParameter1 m = quitMessageId ->
     deliverMessage handleMessage tid m s =
       (Ret tt, set_instance (Some (set_quitMessageReceived true mm)) s,
        [EvDelete m])) /\
  (recipient ∉ messageListeners mm ->
   ~ (recipient = 0 /\ intParameter1 m = quitMessageId) ->
     deliverMessage handleMessage tid m s = (Ret tt, s, [EvDelete m])).
Proof.
  intros Hi Hl recipient lock s1.
  assert (Hnew : MessageManagerLock_new tid s = (Ret lock, s1, []))
    by (apply MessageManagerLock_new_free; assumption).
  assert (Hi1 : instance s1 = Some (set_currentLockingThreadId tid
                       (set_messageDispatchLock (Some tid) mm))) by reflexivity.
  unfold deliverMessage.
  rewrite (bind_Ret_nil _ _ s lock s1) by exact Hnew.
  unfold scope. fold recipient.
  rewrite (bind_Ret_nil _ _ s1 _ s1) by (apply deref_instance_Some; exact Hi1).
  cbn [messageListeners set_currentLockingThreadId set_messageDispatchLock].
  split; [|split].
  - intros Hin o s2 Hh Ho.
    rewrite bool_decide_eq_true_2 by exact Hin.
    unfold bind at 1, JUCE_TRY_CATCH, call_handleMessage. rewrite Hh.
    pose proof (MessageManagerLock_delete_eq lock s2) as Hd.
    cbn [locked lock] in Hd.
    destruct Ho as [-> | ->]; cbn [delete emit];
      destruct (instance s2); rewrite Hd; reflexivity.
  - intros Hnin Hr Hq.
    rewrite bool_decide_eq_false_2 by exact Hnin.
    rewrite !bool_decide_eq_true_2 by assumption. cbn [andb].
    unfold bind at 1. rewrite (store_instance_Some _ _ _ Hi1).
    cbn [delete emit app]. rewrite MessageManagerLock_delete_eq.
    cbn [locked lock lastLockingThreadId instance set_instance].
    rewrite unlock_after_quit by exact Hl.
    destruct s; reflexivity.
  - intros Hnin Hnq.
    rewrite bool_decide_eq_false_2 by exact Hnin.
    assert (Hc : bool_decide (recipient = 0)
                 && bool_decide (intParameter1 m = quitMessageId) = false).
    { apply andb_false_iff.
      destruct (decide (recipient = 0)) as [Hr|Hr].
      - right. apply bool_decide_eq_false_2. intros Hq. apply Hnq. split; assumption.
      - left. apply bool_decide_eq_false_2. exact Hr. }
    rewrite Hc. unfold bind at 1. cbn [ret delete emit app].
    rewrite MessageManagerLock_delete_eq.
    cbn [locked lock lastLockingThreadId instance set_instance s1].
    rewrite release_restores by exact Hl.
    destruct s; simpl in *; subst; reflexivity.
Qed.

(** ** The dispatch loop *)

Lemma quitReceived_Some s mm :
  instance s = Some mm -> quitReceived s = quitMessageReceived mm.
Proof. unfold quitReceived. intros ->. reflexivity. Qed.

(** The loop condition, evaluated. *)
Lemma dispatchCondition_eq clock millis endTime s :
  dispatchCondition clock millis endTime s =
    if bool_decide (millis < 0) then
      match instance s with
      | Some mm => (Ret (negb (quitMessageReceived mm)), s, [])
      | None => (Undef, s, [])
      end
    else if bool_decide (endTime > to_int64 (clock (clockReads s))) then
      match instance s with
      | Some mm =>
          (Ret (negb (quitMessageReceived mm)), set_clockReads (S (clockReads s)) s, [])
      | None => (Undef, set_clockReads (S (clockReads s)) s, [])
      end
    else (Ret false, set_clockReads (S (clockReads s)) s, []).
Proof.
  unfold dispatchCondition, shortcut_and, shortcut_or, currentTimeMillis,
    deref_instance, bind, ret.
  destruct (bool_decide (millis < 0)).
  - destruct (instance s); reflexivity.
  - destruct (bool_decide (endTime > to_int64 (clock (clockReads s)))); simpl.
    + destruct (instance s); reflexivity.
    + reflexivity.
Qed.

(** The condition is false for one of two reasons. *)
Lemma dispatchCondition_false clock millis endTime sc s' t :
  dispatchCondition clock millis endTime sc = (Ret false, s', t) ->
  quitReceived s' = true \/
  (millis >= 0 /\ s' = set_clockReads (S (clockReads sc)) sc /\
   endTime <= to_int64 (clock (clockReads sc))).
Proof.
  rewrite dispatchCondition_eq.
  destruct (bool_decide (millis < 0)) eqn:Hneg.
  - destruct (instance sc) as [mm|] eqn:Hi; [|discriminate].
    intros H. inversion H; subst. left.
    rewrite (quitReceived_Some _ _ Hi). destruct (quitMessageReceived mm); [reflexivity|discriminate].
  - apply bool_decide_eq_false in Hneg.
    destruct (bool_decide (endTime > to_int64 (clock (clockReads sc)))) eqn:Hlate.
    + destruct (instance sc) as [mm|] eqn:Hi; [|discriminate].
      intros H. inversion H; subst. left.
      unfold quitReceived. simpl. rewrite Hi.
      destruct (quitMessageReceived mm); [reflexivity|discriminate].
    + apply bool_decide_eq_false in Hlate.
      intros H. inversion H; subst. right. repeat split; lia.
Qed.

(** With [quitMessageReceived] set the condition is false, whatever the
    clock says. *)
Lemma dispatchCondition_quit clock millis endTime s :
  quitReceived s = true ->
  exists s', dispatchCondition clock millis endTime s = (Ret false, s', []) /\
             instance s' = instance s.
Proof.
  intros Hq. rewrite dispatchCondition_eq. unfold quitReceived in Hq.
  destruct (instance s) as [mm|] eqn:Hi; [|discriminate]. rewrite Hq.
  destruct (bool_decide (millis < 0));
    [eexists; split; [reflexivity|simpl; congruence]|].
  destruct (bool_decide (endTime > to_int64 (clock (clockReads s))));
    eexists; (split; [reflexivity|simpl; congruence]).
Qed.

Lemma runDispatchLoopUntil_eq handleMessage clock fuel tid millis s :
  runDispatchLoopUntil handleMessage clock fuel tid millis s =
    let endTime := to_int64 (to_int64 (clock (clockReads s)) + millis) in
    let '(o, s2, t2) :=
      while_loop fuel (dispatchCondition clock millis endTime)
        (dispatchBody handleMessage tid millis)
        (set_clockReads (S (clockReads s)) s) in
    match o with
    | Ret _ =>
        match instance s2 with
        | Some mm => (Ret (negb (quitMessageReceived mm)), s2, t2)
        | None => (Undef, s2, t2)
        end
    | Throw => (Throw, s2, t2)
    | Block => (Block, s2, t2)
    | Undef => (Undef, s2, t2)
    | NoFuel => (NoFuel, s2, t2)
    end.
Proof.
  unfold runDispatchLoopUntil.
  rewrite (bind_Ret_nil _ _ s (to_int64 (clock (clockReads s)))
             (set_clockReads (S (clockReads s)) s)) by reflexivity.
  cbv zeta. unfold bind at 1.
  destruct (while_loop _ _ _ _) as [[o s2] t2].
  destruct o; try reflexivity.
  unfold bind, deref_instance, ret. destruct (instance s2); simpl; rewrite ?app_nil_r; reflexivity.
Qed.

(** The condition is true when the coordinator is there, the deadline has
    not elapsed and the quit message has not been received. *)
Lemma dispatchCondition_goes_on clock millis endTime s :
  bool_decide (instance s = None) || deadlineReached clock millis endTime s
    || quitReceived s = false ->
  dispatchCondition clock millis endTime s
  = (Ret true, afterCondition millis s, []).
Proof.
  intros H. apply orb_false_iff in H as [H Hq].
  apply orb_false_iff in H as [Hi Hd].
  apply bool_decide_eq_false in Hi.
  unfold quitReceived in Hq. destruct (instance s) as [mm|] eqn:Hmm; [|congruence].
  rewrite dispatchCondition_eq, Hmm, Hq. unfold afterCondition, deadlineReached in *.
  destruct (bool_decide (millis < 0)) eqn:Hneg; [reflexivity|].
  apply bool_decide_eq_false in Hneg.
  rewrite (bool_decide_eq_true_2 (millis >= 0)) in Hd by lia.
  cbn [andb] in Hd. apply bool_decide_eq_false in Hd.
  rewrite bool_decide_eq_true_2 by lia. reflexivity.
Qed.

(** The condition is false when the quit message has been received or the
    deadline has elapsed. *)
Lemma dispatchCondition_stops clock millis endTime s :
  instance s <> None ->
  quitReceived s = true \/ deadlineReached clock millis endTime s = true ->
  dispatchCondition clock millis endTime s
  = (Ret false, afterCondition millis s, []).
Proof.
  intros Hi H. rewrite dispatchCondition_eq.
  unfold afterCondition, deadlineReached, quitReceived in *.
  destruct (instance s) as [mm|]; [|congruence].
  destruct (bool_decide (millis < 0)) eqn:Hneg.
  - apply bool_decide_eq_true in Hneg. destruct H as [-> | H]; [reflexivity|].
    rewrite (bool_decide_eq_false_2 (millis >= 0)) in H by lia. discriminate H.
  - destruct (bool_decide (endTime > to_int64 (clock (clockReads s)))) eqn:Hlate;
      [|reflexivity].
    destruct H as [-> | H]; [reflexivity|].
    apply andb_true_iff in H as [_ H].
    apply bool_decide_eq_true in H, Hlate. lia.
Qed.

(** The loop runs its iterations and ends at the first evaluation of a
    false condition, given fuel for that many evaluations. *)
Lemma while_loop_iterations handleMessage clock tid millis endTime n :
  forall fuel s sn tn s',
  iterations handleMessage clock n tid millis endTime s = Some (sn, tn) ->
  dispatchCondition clock millis endTime sn = (Ret false, s', []) ->
  (n < fuel)%nat ->
  while_loop fuel (dispatchCondition clock millis endTime)
    (dispatchBody handleMessage tid millis) s = (Ret tt, s', tn) /\
  dispatchCalls tn = repeat (bool_decide (millis >= 0)) n.
Proof.
  induction n as [|n IH]; intros fuel s sn tn s' Hit Hstop Hfuel.
  - destruct fuel as [|fuel]; [lia|]. cbn [iterations] in Hit.
    inversion Hit; subst sn tn. cbn [while_loop].
    rewrite (bind_Ret_nil _ _ s false s') by exact Hstop.
    split; reflexivity.
  - destruct fuel as [|fuel]; [lia|]. cbn [iterations] in Hit.
    destruct (bool_decide (instance s = None)
              || deadlineReached clock millis endTime s || quitReceived s) eqn:Hgo;
      [discriminate|].
    pose proof (dispatchBody_calls handleMessage tid millis
                  (afterCondition millis s)) as Hcalls.
    destruct (dispatchBody handleMessage tid millis (afterCondition millis s))
      as [[o s1] t1] eqn:Hbody.
    unfold trace in Hcalls; simpl in Hcalls.
    destruct o as [[]| | | |]; try discriminate.
    destruct (iterations handleMessage clock n tid millis endTime s1)
      as [[s2 t2]|] eqn:Hrest; [|discriminate].
    inversion Hit; subst sn tn.
    destruct (IH fuel s1 s2 t2 s' Hrest Hstop ltac:(lia)) as [Hw Hc].
    cbn [while_loop].
    rewrite (bind_Ret_nil _ _ s true (afterCondition millis s))
      by (apply dispatchCondition_goes_on; exact Hgo).
    rewrite (bind_Ret _ _ (afterCondition millis s) tt s1 t1) by exact Hbody.
    rewrite Hw. split; [reflexivity|].
    rewrite dispatchCalls_app, Hcalls, Hc. reflexivity.
Qed.

(** [runDispatchLoopUntil] runs the iterations that take place and returns
    at the first evaluation of its condition with the quit message
    received or the deadline elapsed, given fuel for that many
    evaluations. *)
Lemma runDispatchLoopUntil_iterates handleMessage clock n fuel tid millis s sn tn :
  iterations handleMessage clock n tid millis
    (to_int64 (to_int64 (clock (clockReads s)) + millis))
    (set_clockReads (S (clockReads s)) s) = Some (sn, tn) ->
  instance sn <> None ->
  quitReceived sn = true \/
    deadlineReached clock millis
      (to_int64 (to_int64 (clock (clockReads s)) + millis)) sn = true ->
  (n < fuel)%nat ->
  runDispatchLoopUntil handleMessage clock fuel tid millis s =
    (Ret (negb (quitReceived sn)), afterCondition millis sn, tn) /\
  dispatchCalls tn = repeat (bool_decide (millis >= 0)) n.
Proof.
  intros Hit Hi Hstop Hfuel.
  pose proof (dispatchCondition_stops clock millis _ sn Hi Hstop) as Hc.
  destruct (while_loop_iterations handleMessage clock tid millis _ n fuel _ sn tn
              _ Hit Hc Hfuel) as [Hw Hcalls].
  split; [|exact Hcalls].
  rewrite runDispatchLoopUntil_eq. cbv zeta. rewrite Hw.
  assert (Hi' : instance (afterCondition millis sn) = instance sn)
    by (unfold afterCondition; destruct (bool_decide (millis < 0)); reflexivity).
  rewrite Hi'. unfold quitReceived.
  destruct (instance sn); [reflexivity|congruence].
Qed.

(** C3.  [runDispatchLoopUntil], run from [s] with deadline [endTime].
    - Every call of the platform's dispatch function passes
      [returnIfNoPendingMessages = (millisecondsToRunFor >= 0)], that is, the
      call may block exactly when [millisecondsToRunFor] is negative.
    - When it returns, the value is the negation of [quitMessageReceived];
      and if that value is true then [millisecondsToRunFor] is not
      negative and the last reading of the clock was not before [endTime]:
      with a negative argument only the flag ends the loop.
    - Entered with the flag set, or with the deadline reached at the first
      evaluation of the condition, the loop ends without a call of the
      dispatch function; otherwise a call is made.
    - A run that does not stop for lack of fuel is the same run with any
      larger bound.
    - It iterates until the deadline elapses or the quit message has been
      received, and then returns: if [n] iterations take place (at each
      evaluation of the condition the deadline has not elapsed and the flag
      is false, and the dispatch returns) and at the next evaluation the
      flag is set or the deadline has elapsed, then with any bound above
      [n] the function returns the negation of the flag, having called the
      dispatch function exactly [n] times. *)
Theorem runDispatchLoopUntil_spec handleMessage clock fuel tid millis s :
  let r := runDispatchLoopUntil handleMessage clock fuel tid millis s in
  let endTime := to_int64 (to_int64 (clock (clockReads s)) + millis) in
  let flag := bool_decide (millis >= 0) in
  (exists k, dispatchCalls (trace r) = repeat flag k) /\
  (forall b, outcome r = Ret b ->
     instance (final r) <> None /\
     b = negb (quitReceived (final r)) /\
     (b = true ->
      millis >= 0 /\
      exists n, clockReads (final r) = S n /\ endTime <= to_int64 (clock n))) /\
  (quitReceived s = true -> (0 < fuel)%nat ->
     outcome r = Ret false /\ trace r = []) /\
  (instance s <> None -> millis >= 0 ->
   endTime <= to_int64 (clock (S (clockReads s))) -> (0 < fuel)%nat ->
     outcome r = Ret (negb (quitReceived s)) /\ trace r = []) /\
  (instance s <> None -> quitReceived s = false ->
   millis < 0 \/ endTime > to_int64 (clock (S (clockReads s))) -> (0 < fuel)%nat ->
     exists tr, trace r = EvDispatchNextMessage flag :: tr) /\
  (forall fuel', (fuel <= fuel')%nat -> outcome r <> NoFuel ->
     runDispatchLoopUntil handleMessage clock fuel' tid millis s = r) /\
  (forall n sn tn,
     iterations handleMessage clock n tid millis endTime
       (set_clockReads (S (clockReads s)) s) = Some (sn, tn) ->
     instance sn <> None ->
     quitReceived sn = true \/ deadlineReached clock millis endTime sn = true ->
     (n < fuel)%nat ->
     r = (Ret (negb (quitReceived sn)), afterCondition millis sn, tn) /\
     dispatchCalls tn = repeat flag n).
Proof.
  intros r endTime flag. subst r.
  assert (Hiter : forall n sn tn,
     iterations handleMessage clock n tid millis endTime
       (set_clockReads (S (clockReads s)) s) = Some (sn, tn) ->
     instance sn <> None ->
     quitReceived sn = true \/ deadlineReached clock millis endTime sn = true ->
     (n < fuel)%nat ->
     runDispatchLoopUntil handleMessage clock fuel tid millis s
       = (Ret (negb (quitReceived sn)), afterCondition millis sn, tn) /\
     dispatchCalls tn = repeat flag n).
  { intros n sn tn Hit Hi Hstop Hn.
    exact (runDispatchLoopUntil_iterates handleMessage clock n fuel tid millis s
             sn tn Hit Hi Hstop Hn). }
  assert (Hfuel : forall fuel', (fuel <= fuel')%nat ->
            outcome (runDispatchLoopUntil handleMessage clock fuel tid millis s)
              <> NoFuel ->
            runDispatchLoopUntil handleMessage clock fuel' tid millis s
            = runDispatchLoopUntil handleMessage clock fuel tid millis s).
  { intros fuel' Hle. rewrite !runDispatchLoopUntil_eq. cbv zeta. intros Hout.
    rewrite (while_loop_more_fuel _ _ fuel fuel') by
      (try exact Hle;
       intros Hno; apply Hout;
       destruct (while_loop fuel _ _ _) as [[o s2] t2];
       unfold outcome in *; simpl in *; subst o; reflexivity).
    reflexivity. }
  split; [|split; [|split; [|split; [|split; [|split]]]]];
    [| | | | |exact Hfuel|exact Hiter].
  all: clear Hfuel Hiter.
  all: rewrite runDispatchLoopUntil_eq; cbv zeta; fold endTime.
  all: set (s0 := set_clockReads (S (clockReads s)) s).
  all: set (cond := dispatchCondition clock millis endTime).
  all: set (body := dispatchBody handleMessage tid millis).
  - destruct (while_loop_calls fuel cond body flag
                (silent_dispatchCondition clock millis endTime)
                (dispatchBody_calls handleMessage tid millis) s0) as [k Hk].
    exists k. destruct (while_loop fuel cond body s0) as [[o s2] t2].
    unfold trace in *; simpl in *.
    destruct o; try exact Hk. destruct (instance s2); exact Hk.
  - intros b Hb.
    destruct (while_loop fuel cond body s0) as [[o s2] t2] eqn:Hw.
    destruct o as [[]| | | |]; try discriminate.
    destruct (instance s2) as [mm2|] eqn:Hi2; [|discriminate].
    unfold outcome, final in *; simpl in *. inversion Hb; subst b.
    split; [congruence|]. split; [rewrite (quitReceived_Some _ _ Hi2); reflexivity|].
    intros Hq. apply negb_true_iff in Hq.
    destruct (while_loop_exit _ _ _ _ _ _ Hw) as (sc & t & Hc).
    destruct (dispatchCondition_false _ _ _ _ _ _ Hc) as [Hquit | (Hms & Hs2 & Hlate)].
    + rewrite (quitReceived_Some _ _ Hi2) in Hquit. congruence.
    + split; [exact Hms|]. exists (clockReads sc). subst s2. split; [reflexivity|exact Hlate].
  - intros Hq Hfuel. destruct fuel as [|fuel]; [lia|].
    assert (Hq0 : quitReceived s0 = true) by exact Hq.
    destruct (dispatchCondition_quit clock millis endTime s0 Hq0) as (s' & Hc & Hi').
    cbn [while_loop]. fold cond in Hc.
    rewrite (bind_Ret_nil _ _ s0 false s') by exact Hc.
    unfold ret. cbv beta iota.
    assert (Hq' : quitReceived s' = true) by (unfold quitReceived; rewrite Hi'; exact Hq).
    unfold quitReceived in Hq'. destruct (instance s'); [|discriminate].
    rewrite Hq'. split; reflexivity.
  - intros Hi Hms Hlate Hfuel. destruct fuel as [|fuel]; [lia|].
    cbn [while_loop].
    assert (Hc : cond s0 = (Ret false, set_clockReads (S (clockReads s0)) s0, [])).
    { unfold cond. rewrite dispatchCondition_eq.
      rewrite bool_decide_eq_false_2 by lia.
      rewrite bool_decide_eq_false_2 by (simpl; lia). reflexivity. }
    rewrite (bind_Ret_nil _ _ s0 false _) by exact Hc.
    unfold ret. cbv beta iota. cbn [instance set_clockReads s0].
    unfold quitReceived. destruct (instance s); [|congruence]. split; reflexivity.
  - intros Hi Hq Hgo Hfuel. destruct fuel as [|fuel]; [lia|].
    cbn [while_loop].
    unfold quitReceived in Hq. destruct (instance s) as [mm|] eqn:Hmm; [|congruence].
    assert (Hc : exists s1, cond s0 = (Ret true, s1, [])).
    { unfold cond. rewrite dispatchCondition_eq. cbn [instance set_clockReads s0 clockReads].
      rewrite Hmm, Hq.
      destruct (bool_decide (millis < 0)) eqn:Hneg; [eauto|].
      apply bool_decide_eq_false in Hneg.
      rewrite bool_decide_eq_true_2 by lia. eauto. }
    destruct Hc as [s1 Hc].
    rewrite (bind_Ret_nil _ _ s0 true s1) by exact Hc.
    unfold bind at 1.
    pose proof (dispatchBody_calls handleMessage tid millis s1) as Hcalls.
    fold body flag in Hcalls.
    destruct (body s1) as [[o1 s2] t1] eqn:Hbody.
    assert (Hhead : exists tr, t1 = EvDispatchNextMessage flag :: tr).
    { revert Hbody. unfold body, dispatchBody, JUCE_TRY_CATCH,
        juce_dispatchNextMessageOnSystemQueue. fold flag.
      unfold bind at 1.
      rewrite (bind_Ret _ _ s1 tt s1 [EvDispatchNextMessage flag]) by reflexivity.
      destruct (bind get_state _ s1) as [[o' s'] t']. cbn [app].
      destruct o'; intros H; inversion H; eauto. }
    destruct Hhead as [tr ->].
    destruct o1 as [[]| | | |]; unfold trace; simpl; eauto.
    destruct (while_loop fuel cond body s2) as [[o3 s3] t3]. simpl.
    destruct o3; simpl; eauto; destruct (instance s3); simpl; eauto.
Qed.

(** ** The quit flag *)

Section QuitFlag.

Local Abbreviation St := (State (ActionListenerList := ActionListenerList)).
Local Abbreviation quit := (quitSeen (ActionListenerList := ActionListenerList)).

Variable new_ActionListenerList : ActionListenerList.
Variables addActionListener removeActionListener :
  Pointer -> ActionListenerList -> ActionListenerList.
Variable handleMessage : Pointer -> Message -> St -> Outcome unit * St.
Variable systemQueueAccepts : list Message -> Message -> bool.
Variable clock : nat -> Z.
Variable otherThreadsDuring : Z -> St -> St.
Variable sendActionMessage : ActionListenerList -> string -> St -> St.
Variable doPlatformSpecificInitialisation : St -> St.

(** Code outside the coordinator cannot write its private flag. *)
Hypothesis handler_keeps_quit :
  forall r m s, quitReceived s = true -> quitReceived (handleMessage r m s).2 = true.
Hypothesis others_keep_quit :
  forall ms s, quitReceived s = true -> quitReceived (otherThreadsDuring ms s) = true.
Hypothesis send_keeps_quit :
  forall l v s, quitReceived s = true -> quitReceived (sendActionMessage l v s) = true.

Lemma keeps_quit_store_instance (f : MessageManager -> MessageManager) :
  (forall mm, quitMessageReceived mm = true -> quitMessageReceived (f mm) = true) ->
  keeps quit (store_instance f).
Proof.
  intros Hf s Hq. unfold quitSeen, quitReceived in Hq.
  destruct (instance s) as [mm|] eqn:Hi; [|discriminate].
  rewrite (store_instance_Some f s mm Hi).
  unfold quitSeen, quitReceived, final. simpl. apply Hf. exact Hq.
Qed.

Lemma keeps_quit_call_handleMessage r m :
  keeps quit (call_handleMessage handleMessage r m).
Proof.
  intros s Hq. unfold call_handleMessage.
  pose proof (handler_keeps_quit r m s Hq) as H.
  destruct (handleMessage r m s) as [o s']. exact H.
Qed.

Lemma keeps_quit_currentTimeMillis : keeps quit (currentTimeMillis clock).
Proof. intros s Hq. exact Hq. Qed.

(** Splits a goal [keeps quit c] along the structure of [c]. *)
Ltac keeps_step :=
  match goal with
  | |- forall _, _ => intro
  | |- keeps _ (bind _ _) => apply keeps_bind
  | |- keeps _ (ret _) => apply keeps_ret
  | |- keeps _ (stop _) => apply keeps_stop
  | |- keeps _ (emit _) => apply keeps_emit
  | |- keeps _ (delete _) => apply keeps_emit
  | |- keeps _ deref_instance => apply keeps_deref_instance
  | |- keeps _ get_state => apply keeps_get_state
  | |- keeps _ (store_instance _) =>
      apply keeps_quit_store_instance; intros ? H; first [exact H | reflexivity]
  | |- keeps _ (external (otherThreadsDuring _)) =>
      apply keeps_external; apply others_keep_quit
  | |- keeps _ (external (sendActionMessage _ _)) =>
      apply keeps_external; apply send_keeps_quit
  | |- keeps _ (JUCE_TRY_CATCH _) => apply keeps_JUCE_TRY_CATCH
  | |- keeps _ (scope _ _) => apply keeps_scope
  | |- keeps _ (shortcut_or _ _) => apply keeps_shortcut_or
  | |- keeps _ (shortcut_and _ _) => apply keeps_shortcut_and
  | |- keeps _ (while_loop _ _ _) => apply keeps_while_loop
  | |- keeps _ (call_handleMessage _ _ _) => apply keeps_quit_call_handleMessage
  | |- keeps _ (currentTimeMillis _) => apply keeps_quit_currentTimeMillis
  | |- keeps _ (if ?b then _ else _) => destruct b
  | |- keeps _ (match ?x with _ => _ end) => destruct x
  end.

Lemma keeps_quit_MessageManagerLock_new tid : keeps quit (MessageManagerLock_new tid).
Proof. unfold MessageManagerLock_new, CriticalSection_enter. repeat keeps_step. Qed.

Lemma keeps_quit_MessageManagerLock_delete lock :
  keeps quit (MessageManagerLock_delete lock).
Proof. unfold MessageManagerLock_delete, CriticalSection_exit. repeat keeps_step. Qed.

Lemma keeps_quit_MessageManagerLock_retry fuel tid thread garbage :
  keeps quit (MessageManagerLock_retry otherThreadsDuring fuel tid thread garbage).
Proof.
  induction fuel as [|fuel IH]; [apply keeps_stop|].
  cbn [MessageManagerLock_retry].
  apply keeps_bind; [unfold CriticalSection_tryEnter; repeat keeps_step|].
  intros [|]; [repeat keeps_step|].
  apply keeps_bind;
    [unfold Thread_threadShouldExit; repeat keeps_step|].
  intros [|]; [apply keeps_ret|].
  apply keeps_bind; [unfold Thread_sleep; repeat keeps_step|].
  intros _. exact IH.
Qed.

Lemma keeps_quit_deliverMessage tid m :
  keeps quit (deliverMessage handleMessage tid m).
Proof.
  unfold deliverMessage.
  apply keeps_bind; [apply keeps_quit_MessageManagerLock_new|]. intros lock.
  apply keeps_scope; [|apply keeps_quit_MessageManagerLock_delete].
  repeat keeps_step.
Qed.

Lemma keeps_quit_postMessageToQueue m :
  keeps quit (postMessageToQueue systemQueueAccepts m).
Proof.
  intros s Hq. unfold quitSeen, quitReceived in Hq.
  destruct (instance s) as [mm|] eqn:Hi; [|discriminate].
  rewrite (postMessageToQueue_eq _ _ _ _ Hi).
  destruct (quitMessagePosted mm);
    [unfold quitSeen, quitReceived, final; simpl; rewrite Hi; exact Hq|].
  destruct (systemQueueAccepts (systemQueue s) m);
    unfold quitSeen, quitReceived, final; simpl; rewrite Hi; exact Hq.
Qed.

Lemma keeps_quit_dispatch tid flag :
  keeps quit (juce_dispatchNextMessageOnSystemQueue handleMessage tid flag).
Proof.
  intros s Hq. unfold juce_dispatchNextMessageOnSystemQueue.
  rewrite (bind_Ret _ _ s tt s [EvDispatchNextMessage flag]) by reflexivity.
  rewrite (bind_Ret_nil _ _ s s s) by reflexivity.
  destruct (systemQueue s) as [|m rest].
  - destruct flag; exact Hq.
  - rewrite (bind_Ret_nil _ _ s tt (set_systemQueue rest s)) by reflexivity.
    assert (H : keeps quit (bind (deliverMessage handleMessage tid m)
                                 (fun _ => ret true))).
    { apply keeps_bind; [apply keeps_quit_deliverMessage|]. intros _. apply keeps_ret. }
    specialize (H (set_systemQueue rest s) Hq).
    destruct (bind _ _ (set_systemQueue rest s)) as [[o s2] t2]. exact H.
Qed.

Lemma keeps_quit_dispatchBody tid millis :
  keeps quit (dispatchBody handleMessage tid millis).
Proof.
  unfold dispatchBody. apply keeps_JUCE_TRY_CATCH.
  apply keeps_bind; [apply keeps_quit_dispatch|]. intros _. apply keeps_ret.
Qed.

Lemma keeps_quit_runDispatchLoopUntil fuel tid millis :
  keeps quit (runDispatchLoopUntil handleMessage clock fuel tid millis).
Proof.
  unfold runDispatchLoopUntil.
  apply keeps_bind; [apply keeps_quit_currentTimeMillis|]. intros now.
  apply keeps_bind.
  - apply keeps_while_loop; [|apply keeps_quit_dispatchBody].
    unfold dispatchCondition. repeat keeps_step.
  - repeat keeps_step.
Qed.

Lemma keeps_quit_getInstance tid :
  keeps quit (getInstance doPlatformSpecificInitialisation tid).
Proof.
  intros s Hq. unfold getInstance.
  rewrite (bind_Ret_nil _ _ s s s) by reflexivity.
  unfold quitSeen, quitReceived in Hq.
  destruct (instance s) as [mm|] eqn:Hi; [|discriminate].
  rewrite bool_decide_eq_false_2 by discriminate.
  rewrite (bind_Ret_nil _ _ s tt s) by reflexivity.
  rewrite (deref_instance_Some _ _ Hi).
  unfold quitSeen, quitReceived, final. simpl. rewrite Hi. exact Hq.
Qed.

Lemma keeps_quit_perform tid op :
  keeps quit
    (perform new_ActionListenerList addActionListener removeActionListener
       handleMessage systemQueueAccepts clock otherThreadsDuring
       sendActionMessage doPlatformSpecificInitialisation tid op).
Proof.
  destruct op; cbn [perform].
  - apply keeps_bind; [apply keeps_quit_getInstance|]. intros _. apply keeps_ret.
  - apply keeps_quit_postMessageToQueue.
  - apply keeps_quit_deliverMessage.
  - unfold runDispatchLoop.
    apply keeps_bind; [apply keeps_quit_runDispatchLoopUntil|]. intros _. apply keeps_ret.
  - unfold stopDispatchLoop.
    apply keeps_bind; [apply keeps_quit_postMessageToQueue|]. repeat keeps_step.
  - apply keeps_bind; [apply keeps_quit_runDispatchLoopUntil|]. intros _. apply keeps_ret.
  - unfold deliverBroadcastMessage. repeat keeps_step.
  - unfold registerBroadcastListener. repeat keeps_step.
  - unfold deregisterBroadcastListener. repeat keeps_step.
  - unfold isThisTheMessageThread. repeat keeps_step.
  - unfold setCurrentMessageThread. repeat keeps_step.
  - unfold currentThreadHasLockedMessageManager. repeat keeps_step.
  - apply keeps_bind; [apply keeps_quit_MessageManagerLock_new|]. intros _. apply keeps_ret.
  - unfold MessageManagerLock_new_thread.
    apply keeps_bind; [|intros _; apply keeps_ret].
    apply keeps_bind; [apply keeps_get_state|]. intros s0.
    destruct (instance s0); [apply keeps_quit_MessageManagerLock_retry|apply keeps_ret].
  - apply keeps_quit_MessageManagerLock_delete.
Qed.

(** C8.  Provided the code outside the coordinator does not clear
    [quitMessageReceived] (it has no access to the private member):
    - once the flag is set it is still set after any operation, however the
      operation ends;
    - wherever the loop of [runDispatchLoopUntil] evaluates its condition
      with the flag set, it ends there, without a call of the dispatch
      function;
    - so [runDispatchLoopUntil] entered with the flag set returns false
      without dispatching;
    - and when the flag is found set after [n] iterations of a run, the run
      ends there: it returns false, and has called the dispatch function
      exactly [n] times, whatever is left in the queue and whatever the
      clock says. *)
Theorem quit_received_is_final :
  (forall tid op s,
     quitReceived s = true ->
     quitReceived
       (final
          (perform new_ActionListenerList addActionListener removeActionListener
             handleMessage systemQueueAccepts clock otherThreadsDuring
             sendActionMessage doPlatformSpecificInitialisation tid op s)) = true) /\
  (forall fuel tid millis endTime s,
     quitReceived s = true ->
     exists s',
       while_loop (S fuel) (dispatchCondition clock millis endTime)
         (dispatchBody handleMessage tid millis) s = (Ret tt, s', []) /\
       quitReceived s' = true) /\
  (forall fuel tid millis s,
     quitReceived s = true ->
     exists s',
       runDispatchLoopUntil handleMessage clock (S fuel) tid millis s
         = (Ret false, s', []) /\
       quitReceived s' = true) /\
  (forall n fuel tid millis s sn tn,
     iterations handleMessage clock n tid millis
       (to_int64 (to_int64 (clock (clockReads s)) + millis))
       (set_clockReads (S (clockReads s)) s) = Some (sn, tn) ->
     quitReceived sn = true ->
     (n < fuel)%nat ->
     runDispatchLoopUntil handleMessage clock fuel tid millis s
       = (Ret false, afterCondition millis sn, tn) /\
     dispatchCalls tn = repeat (bool_decide (millis >= 0)) n).
Proof.
  split; [|split; [|split]]; [| | |
    intros n fuel tid millis s sn tn Hit Hq Hn;
    assert (Hi : instance sn <> None)
      by (unfold quitReceived in Hq; destruct (instance sn); [discriminate|discriminate]);
    destruct (runDispatchLoopUntil_iterates handleMessage clock n fuel tid millis s
                sn tn Hit Hi (or_introl Hq) Hn) as [Hrun Hcalls];
    rewrite Hq in Hrun; split; [exact Hrun|exact Hcalls]].
  - intros tid op s Hq. exact (keeps_quit_perform tid op s Hq).
  - intros fuel tid millis endTime s Hq.
    destruct (dispatchCondition_quit clock millis endTime s Hq) as (s' & Hc & Hi').
    exists s'. cbn [while_loop].
    rewrite (bind_Ret_nil _ _ s false s') by exact Hc.
    split; [reflexivity|]. unfold quitReceived in *. rewrite Hi'. exact Hq.
  - intros fuel tid millis s Hq.
    rewrite runDispatchLoopUntil_eq. cbv zeta.
    set (s0 := set_clockReads (S (clockReads s)) s).
    assert (Hq0 : quitReceived s0 = true) by exact Hq.
    destruct (dispatchCondition_quit clock millis
                (to_int64 (to_int64 (clock (clockReads s)) + millis)) s0 Hq0)
      as (s' & Hc & Hi').
    exists s'. cbn [while_loop].
    rewrite (bind_Ret_nil _ _ s0 false s') by exact Hc.
    unfold ret. cbv beta iota.
    assert (Hq' : quitReceived s' = true)
      by (unfold quitReceived in *; rewrite Hi'; exact Hq0).
    split; [|exact Hq'].
    unfold quitReceived in Hq'. destruct (instance s'); [|discriminate].
    rewrite Hq'. reflexivity.
Qed.

End QuitFlag.

End Properties.

(** * The theorems on the concrete process *)

(** Thread 2, a worker of the sample process (whose message thread is
    thread 1), takes the lock. *)
Lemma worker_holding_lock_identity_witness :
  exists lock s1,
    MessageManagerLock_new 2 Sample.process = (Ret lock, s1, []) /\
    locked lock = true /\
    currentThreadHasLockedMessageManager 2 s1 = (Ret true, s1, []) /\
    isThisTheMessageThread 2 s1 = (Ret false, s1, []).
Proof.
  apply (worker_holding_lock_identity 2 Sample.process Sample.manager);
    [reflexivity | reflexivity | discriminate].
Defined.

(** C1 as it is stated fails there: the worker holds the lock, its id is
    not [messageThreadId], and [isThisTheMessageThread] answers false. *)
Lemma worker_is_message_thread_counterexample :
  instance Sample.process = Some Sample.manager /\
  2 <> messageThreadId Sample.manager /\
  exists lock s1,
    MessageManagerLock_new 2 Sample.process = (Ret lock, s1, []) /\
    locked lock = true /\
    outcome (isThisTheMessageThread 2 s1) = Ret false /\
    ~ (outcome (currentThreadHasLockedMessageManager 2 s1) = Ret true /\
       outcome (isThisTheMessageThread 2 s1) = Ret true).
Proof.
  split; [reflexivity|]. split; [discriminate|].
  eexists _, _. split; [reflexivity|]. split; [reflexivity|].
  split; [reflexivity|]. intros [_ H]. vm_compute in H. discriminate H.
Qed.

(** Thread 5 takes and gives back the free lock of a process whose
    [currentLockingThreadId] is 3; and over a re-entrant mutex thread 5
    runs nested scopes from that same situation: the innermost constructor
    saves 5, and at the end 3 and the free mutex are back. *)
Lemma lock_round_trip_witness :
  (exists lock s1,
     MessageManagerLock_new 5 Reentrant.marked = (Ret lock, s1, []) /\
     locked lock = true /\
     lastLockingThreadId lock = 3 /\
     MessageManagerLock_delete lock s1 = (Ret tt, Reentrant.marked, [])) /\
  MessageManagerLock_new_over Reentrant.Mutex Reentrant.enter 5
    (Some (5, Some (5, 1%nat)))
    = Some ({| lastLockingThreadId := 5; locked := true |},
            Some (5, Some (5, 2%nat))) /\
  runScopes Reentrant.Mutex Reentrant.enter Reentrant.exit Reentrant.nested
    (Some (3, None)) = Some (Some (3, None)) /\
  forall v', runScopes Reentrant.Mutex Reentrant.enter Reentrant.exit
               Reentrant.nested (Some (3, None)) = Some v' ->
             v' = Some (3, None).
Proof.
  assert (Hlaw : forall t mutex mutex',
            Reentrant.enter t mutex = Some mutex' -> Reentrant.exit t mutex' = mutex).
  { intros t [[holder n]|] mutex'; unfold Reentrant.enter, Reentrant.exit.
    - destruct (bool_decide (holder = t)) eqn:Hh; [|discriminate].
      apply bool_decide_eq_true in Hh. subst holder.
      intros H. inversion H. reflexivity.
    - intros H. inversion H. reflexivity. }
  destruct (lock_round_trip (ActionListenerList := list Pointer)
              Reentrant.Mutex Reentrant.enter Reentrant.exit)
    as (Hfree & _ & _ & Hover).
  split; [|split; [reflexivity|split; [reflexivity|]]].
  - destruct (Hfree 5 Reentrant.marked
                (set_currentLockingThreadId 3 Sample.manager) eq_refl eq_refl)
      as (lock & s1 & Hnew & Hlocked & Hlast & Hdel & _).
    exists lock, s1. repeat split; assumption.
  - intros v' H. exact (proj2 (Hover Hlaw) Reentrant.nested _ _ H).
Defined.

(** Thread 6 wants the lock that thread 5 holds; its [Thread] object, at
    address 9, is told to exit during the first sleep. *)
Lemma cancellable_lock_abandons_witness :
  exists lock,
    MessageManagerLock_new_thread Sample.signal9 3 6 9 42 Sample.held =
      (Ret lock, Sample.signal9 1 Sample.held, [EvSleep 1]) /\
    locked lock = false /\
    forall s' : State (ActionListenerList := list Pointer),
      MessageManagerLock_delete lock s' = (Ret tt, s', []).
Proof.
  apply (cancellable_lock_abandons Sample.signal9 1 3 6 9 42 Sample.held).
  - discriminate.
  - intros j Hj. assert (j = 0%nat) as -> by lia.
    split; [reflexivity|]. apply (bool_decide_unpack _); vm_compute; exact I.
  - reflexivity.
  - apply (bool_decide_unpack _); vm_compute; exact I.
  - lia.
Defined.

Lemma lock_without_singleton_witness :
  (exists lock, MessageManagerLock_new 6 Sample.bare = (Ret lock, Sample.bare, []) /\
     locked lock = false /\
     forall s' : State (ActionListenerList := list Pointer),
      MessageManagerLock_delete lock s' = (Ret tt, s', [])) /\
  (exists lock,
     MessageManagerLock_new_thread Sample.idle 3 6 9 42 Sample.bare
       = (Ret lock, Sample.bare, []) /\
     locked lock = false /\
     forall s' : State (ActionListenerList := list Pointer),
      MessageManagerLock_delete lock s' = (Ret tt, s', [])).
Proof.
  apply (lock_without_singleton Sample.idle 3 6 9 42 Sample.bare). reflexivity.
Defined.

(** A lock taken by thread 5 is destroyed while the coordinator exists,
    and after the coordinator has gone. *)
Lemma destructor_needs_live_singleton_witness :
  let lock := {| lastLockingThreadId := 0; locked := true |} in
  MessageManagerLock_delete lock Sample.held = (Ret tt, Sample.process, []) /\
  MessageManagerLock_delete lock Sample.bare = (Ret tt, Sample.bare, []).
Proof.
  intros lock. split.
  - apply (proj1 (destructor_needs_live_singleton lock Sample.held)
             (set_messageDispatchLock (Some 5)
                (set_currentLockingThreadId 5 Sample.manager)));
      reflexivity.
  - apply (proj2 (destructor_needs_live_singleton lock Sample.bare)).
    right. reflexivity.
Defined.

(** The sample operating system takes the post and queues the message. *)
Lemma post_deletes_or_hands_over_witness :
  exists s' tr,
    postMessageToQueue Sample.accepts (Sample.toListener 100) Sample.process
      = (Ret tt, s', tr) /\
    s' = set_systemQueue [Sample.toListener 100] Sample.process /\
    tr = [EvPostToSystemQueue (Sample.toListener 100)].
Proof.
  destruct (post_deletes_or_hands_over Sample.accepts (Sample.toListener 100)
              Sample.process Sample.manager eq_refl)
    as (s' & tr & Hrun & _ & _ & Hok).
  exists s', tr. split; [exact Hrun|]. apply Hok; reflexivity.
Defined.

(** With two messages queued the sample operating system refuses the quit
    message: it has been offered, and is deleted. *)
Lemma stopDispatchLoop_posts_then_flags_witness :
  stopDispatchLoop Sample.accepts Sample.process =
    (Ret tt,
     set_instance (Some (set_quitMessagePosted true Sample.manager))
       (set_systemQueue [Sample.quitMessage] Sample.process),
     [EvPostToSystemQueue Sample.quitMessage]) /\
  stopDispatchLoop Sample.accepts Sample.queued =
    (Ret tt,
     set_instance (Some (set_quitMessagePosted true Sample.manager)) Sample.queued,
     [EvPostToSystemQueue Sample.quitMessage; EvDelete Sample.quitMessage]).
Proof.
  split.
  - exact (stopDispatchLoop_posts_then_flags Sample.accepts Sample.process
             Sample.manager eq_refl).
  - exact (stopDispatchLoop_posts_then_flags Sample.accepts Sample.queued
             Sample.manager eq_refl).
Defined.

(** Thread 1 delivers: to listener 100, whose handler returns; to listener
    200, whose handler throws; the quit message; a message for the
    unregistered listener 300. *)
Lemma deliverMessage_cases_witness :
  deliverMessage Sample.handler 1 (Sample.toListener 100) Sample.process =
    (Ret tt, Sample.process,
     [EvHandleMessage 100 (Sample.toListener 100); EvDelete (Sample.toListener 100)]) /\
  deliverMessage Sample.handler 1 (Sample.toListener 200) Sample.process =
    (Ret tt, Sample.process,
     [EvHandleMessage 200 (Sample.toListener 200); EvDelete (Sample.toListener 200)]) /\
  deliverMessage Sample.handler 1 Sample.quitMessage Sample.process =
    (Ret tt, set_instance (Some (set_quitMessageReceived true Sample.manager)) Sample.process,
     [EvDelete Sample.quitMessage]) /\
  deliverMessage Sample.handler 1 (Sample.toListener 300) Sample.process =
    (Ret tt, Sample.process, [EvDelete (Sample.toListener 300)]).
Proof.
  pose (s1 := set_instance
                (Some (set_currentLockingThreadId 1
                         (set_messageDispatchLock (Some 1) Sample.manager)))
                Sample.process).
  split; [|split; [|split]].
  - apply (proj1 (deliverMessage_cases Sample.handler 1 (Sample.toListener 100)
                    Sample.process Sample.manager eq_refl eq_refl)
             ltac:(apply (bool_decide_unpack _); vm_compute; exact I) (Ret tt) s1 eq_refl).
    left. reflexivity.
  - apply (proj1 (deliverMessage_cases Sample.handler 1 (Sample.toListener 200)
                    Sample.process Sample.manager eq_refl eq_refl)
             ltac:(apply (bool_decide_unpack _); vm_compute; exact I) Throw s1 eq_refl).
    right. reflexivity.
  - apply (proj1 (proj2 (deliverMessage_cases Sample.handler 1 Sample.quitMessage
                    Sample.process Sample.manager eq_refl eq_refl)));
      [apply (bool_decide_unpack _); vm_compute; exact I | reflexivity | reflexivity].
  - apply (proj2 (proj2 (deliverMessage_cases Sample.handler 1 (Sample.toListener 300)
                    Sample.process Sample.manager eq_refl eq_refl)));
      [apply (bool_decide_unpack _); vm_compute; exact I | simpl; intros [H _]; discriminate H].
Defined.

(** Thread 1 runs the loop for 25 ms over the two queued messages: the
    clock reads 1000 on entry, then 1010, 1020 and 1030 at the three
    evaluations of the condition.  Then it runs the loop without a deadline
    over a queue that holds the quit message. *)
Lemma runDispatchLoopUntil_spec_witness :
  let r := runDispatchLoopUntil Sample.handler Sample.clock 5 1 25 Sample.queued in
  let r' := runDispatchLoopUntil Sample.handler Sample.clock 5 1 (-1)
              (set_systemQueue [Sample.toListener 100; Sample.quitMessage]
                 Sample.process) in
  (outcome r = Ret true /\
   dispatchCalls (trace r) = [true; true] /\
   25 >= 0 /\
   exists n, clockReads (final r) = S n /\ 1025 <= to_int64 (Sample.clock n)) /\
  (outcome r' = Ret false /\
   dispatchCalls (trace r') = [false; false] /\
   quitReceived (final r') = true) /\
  (exists sn tn,
     iterations Sample.handler Sample.clock 2 1 25 1025
       (set_clockReads 1 Sample.queued) = Some (sn, tn) /\
     r = (Ret true, afterCondition 25 sn, tn) /\
     dispatchCalls tn = [true; true]).
Proof.
  intros r r'. split; [|split]; [| |
    assert (Hit : exists sn tn,
              iterations Sample.handler Sample.clock 2 1 25 1025
                (set_clockReads 1 Sample.queued) = Some (sn, tn) /\
              instance sn <> None /\ quitReceived sn = false /\
              deadlineReached Sample.clock 25 1025 sn = true)
      by (eexists _, _; split; [vm_compute; reflexivity|];
          repeat split; vm_compute; try reflexivity; discriminate);
    destruct Hit as (sn & tn & Hit & Hi & Hq & Hd);
    exists sn, tn; split; [exact Hit|];
    destruct (proj2 (proj2 (proj2 (proj2 (proj2 (proj2
                (runDispatchLoopUntil_spec Sample.handler Sample.clock
                   5 1 25 Sample.queued))))))
                2%nat sn tn Hit Hi (or_intror Hd) ltac:(lia)) as [Hrun Hcalls];
    fold r in Hrun; rewrite Hq in Hrun; split; [exact Hrun|exact Hcalls]].
  - assert (Hr : outcome r = Ret true) by (vm_compute; reflexivity).
    split; [exact Hr|]. split; [vm_compute; reflexivity|].
    destruct (proj1 (proj2 (runDispatchLoopUntil_spec Sample.handler Sample.clock
                              5 1 25 Sample.queued)) true Hr)
      as (_ & _ & Hdeadline).
    exact (Hdeadline eq_refl).
  - assert (Hr : outcome r' = Ret false) by (vm_compute; reflexivity).
    split; [exact Hr|]. split; [vm_compute; reflexivity|].
    destruct (proj1 (proj2 (runDispatchLoopUntil_spec Sample.handler Sample.clock
                              5 1 (-1)
                              (set_systemQueue [Sample.toListener 100; Sample.quitMessage]
                                 Sample.process))) false Hr)
      as (_ & Hq & _).
    fold r' in Hq. destruct (quitReceived (final r')); [reflexivity|discriminate Hq].
Defined.

(** In the sample process that has seen the quit message, with two
    messages still queued: a delivery leaves the flag set, and the loop
    returns false at once and leaves the queue as it is.  And over the
    queue with the quit message in third place, the loop ends after three
    iterations and leaves the fourth message queued. *)
Lemma quit_received_is_final_witness :
  quitReceived
    (final
       (perform [] (fun l ls => l :: ls) (fun l ls => ls)
          Sample.handler Sample.accepts Sample.clock Sample.idle Sample.send
          (fun s => s) 1 (OpDeliverMessage (Sample.toListener 100))
          Sample.stopped)) = true /\
  (exists s',
    runDispatchLoopUntil Sample.handler Sample.clock 5 1 (-1) Sample.stopped
      = (Ret false, s', []) /\
    quitReceived s' = true) /\
  (exists sn tn,
    runDispatchLoopUntil Sample.handler Sample.clock 5 1 (-1) Scenario.beforeQuit
      = (Ret false, sn, tn) /\
    systemQueue sn = [Sample.toListener 100] /\
    dispatchCalls tn = [false; false; false]).
Proof.
  assert (Hh : forall r m (s : State (ActionListenerList := list Pointer)),
             quitReceived s = true -> quitReceived (Sample.handler r m s).2 = true).
  { intros r m s H. unfold Sample.handler.
    destruct (bool_decide (r = 100)); exact H. }
  destruct (quit_received_is_final [] (fun l ls => l :: ls) (fun l ls => ls)
              Sample.handler Sample.accepts Sample.clock Sample.idle Sample.send
              (fun s => s) Hh (fun ms s H => H) (fun l v s H => H))
    as (Hops & _ & Hrun & Hmid).
  split; [|split].
  - apply Hops. reflexivity.
  - apply (Hrun 4%nat 1 (-1) Sample.stopped). reflexivity.
  - pose (it := iterations Sample.handler Sample.clock 3 1 (-1)
                  (to_int64 (to_int64 (Sample.clock 0) + -1))
                  (set_clockReads 1 Scenario.beforeQuit)).
    assert (Hit : exists sn tn, it = Some (sn, tn) /\ quitReceived sn = true /\
                    systemQueue sn = [Sample.toListener 100])
      by (eexists _, _; split; [vm_compute; reflexivity|];
          split; vm_compute; reflexivity).
    destruct Hit as (sn & tn & Hit & Hq & Hqueue).
    destruct (Hmid 3%nat 5%nat 1 (-1) Scenario.beforeQuit sn tn Hit Hq ltac:(lia))
      as [Hrun3 Hcalls].
    exists (afterCondition (-1) sn), tn.
    split; [exact Hrun3|]. split; [exact Hqueue|exact Hcalls].
Defined.

(** * Further properties of the code *)

Section Further.

Context {ActionListenerList : Type}.
Local Abbreviation St := (State (ActionListenerList := ActionListenerList)).
Implicit Types (s : St)
  (mm : MessageManager (ActionListenerList := ActionListenerList))
  (tid : ThreadID) (lock : MessageManagerLock) (m : Message).

(** ** The life of the singleton *)


(** The destructor of the coordinator clears [instance] last: the platform
    shutdown runs while [instance] still points to the coordinator, whose
    broadcast list is already gone; afterwards [instance] is null whatever
    the shutdown did, so that a lock constructed then takes nothing. *)
Theorem destructor_clears_instance_last (shutdown : St -> St) tid s mm :
  instance s = Some mm ->
  let seen := set_instance (Some (set_broadcastListeners None mm)) s in
  let s' := set_instance None (shutdown seen) in
  delete_MessageManager shutdown s = (Ret tt, s', []) /\
  MessageManagerLock_new tid s' =
    (Ret {| lastLockingThreadId := 0; locked := false |}, s', []).
Proof.
  intros Hi seen s'. split.
  - unfold delete_MessageManager.
    rewrite (bind_Ret_nil _ _ s tt seen) by (apply store_instance_Some; exact Hi).
    rewrite (bind_Ret_nil _ _ seen tt (shutdown seen)) by reflexivity.
    rewrite (bind_Ret_nil _ _ (shutdown seen) (shutdown seen) (shutdown seen))
      by reflexivity.
    reflexivity.
  - unfold MessageManagerLock_new.
    rewrite (bind_Ret_nil _ _ s' s' s') by reflexivity.
    reflexivity.
Qed.

(** ** Thread identity *)

(** After [setCurrentMessageThread (t)], [isThisTheMessageThread] answers
    true to thread [t] and to no other thread; the answer of
    [currentThreadHasLockedMessageManager] and the mutex are what they
    were: reassigning the message thread does not move the lock. *)
Theorem setCurrentMessageThread_then_ask t tid s mm :
  instance s = Some mm ->
  exists s1 mm1,
    setCurrentMessageThread t s = (Ret tt, s1, []) /\
    instance s1 = Some mm1 /\
    isThisTheMessageThread tid s1 = (Ret (bool_decide (tid = t)), s1, []) /\
    currentThreadHasLockedMessageManager tid s1
      = (Ret (bool_decide (tid = currentLockingThreadId mm)), s1, []) /\
    messageDispatchLock mm1 = messageDispatchLock mm.
Proof.
  intros Hi.
  exists (set_instance (Some (set_messageThreadId t mm)) s),
         (set_messageThreadId t mm).
  split; [apply store_instance_Some; exact Hi|].
  split; [reflexivity|].
  split; [|split]; [| |reflexivity].
  - unfold isThisTheMessageThread.
    rewrite (bind_Ret_nil _ _ _ (set_messageThreadId t mm) _) by reflexivity.
    reflexivity.
  - unfold currentThreadHasLockedMessageManager.
    rewrite (bind_Ret_nil _ _ _ (set_messageThreadId t mm) _) by reflexivity.
    reflexivity.
Qed.

(** ** Posting after the quit request *)

(** Once [stopDispatchLoop] has run, a post deletes its message without
    offering it to the operating system and leaves the queue alone; and a
    second [stopDispatchLoop] does the same with its quit message. *)
Theorem post_after_stop_is_dropped accepts m s mm :
  instance s = Some mm ->
  exists s1 tr1,
    stopDispatchLoop accepts s = (Ret tt, s1, tr1) /\
    postMessageToQueue accepts m s1 = (Ret tt, s1, [EvDelete m]) /\
    stopDispatchLoop accepts s1 =
      (Ret tt, s1, [EvDelete (mkMessage 0 quitMessageId 0 0 0)]).
Proof.
  intros Hi.
  assert (Hstop : forall s0 mm0, instance s0 = Some mm0 ->
            exists q tr,
              stopDispatchLoop accepts s0 =
                (Ret tt,
                 set_instance (Some (set_quitMessagePosted true mm0))
                   (set_systemQueue q s0), tr) /\
              (quitMessagePosted mm0 = true ->
               q = systemQueue s0 /\ tr = [EvDelete (mkMessage 0 quitMessageId 0 0 0)])).
  { intros s0 mm0 Hi0. unfold stopDispatchLoop. rewrite sentinel_eq.
    unfold bind at 1. rewrite (postMessageToQueue_eq _ _ _ _ Hi0).
    destruct (quitMessagePosted mm0).
    - exists (systemQueue s0), [EvDelete (mkMessage 0 quitMessageId 0 0 0)].
      rewrite (store_instance_Some _ _ _ Hi0). split; [|split; reflexivity].
      destruct s0; reflexivity.
    - destruct (accepts (systemQueue s0) (mkMessage 0 quitMessageId 0 0 0)).
      + eexists _, _. rewrite (store_instance_Some _ _ mm0) by exact Hi0.
        split; [reflexivity|discriminate].
      + exists (systemQueue s0). eexists.
        rewrite (store_instance_Some _ _ _ Hi0). split; [|discriminate].
        destruct s0; reflexivity. }
  destruct (Hstop s mm Hi) as (q & tr & Hrun & _).
  set (mm1 := set_quitMessagePosted true mm) in *.
  set (s1 := set_instance (Some mm1) (set_systemQueue q s)) in *.
  exists s1, tr. split; [exact Hrun|]. split.
  - rewrite (postMessageToQueue_eq accepts m s1 mm1 eq_refl). reflexivity.
  - destruct (Hstop s1 mm1 eq_refl) as (q' & tr' & Hrun' & Hflag).
    destruct (Hflag eq_refl) as [-> ->]. rewrite Hrun'.
    reflexivity.
Qed.

(** ** Broadcast *)

(** The broadcast list is created by the first registration and by nothing
    else.  Without a list, [deliverBroadcastMessage] sends nothing and
    [deregisterBroadcastListener] creates no list; the first
    [registerBroadcastListener] creates the list and adds its listener to
    it, a later one adds to the list that exists; with a list,
    [deliverBroadcastMessage] sends the value through it once. *)
Theorem broadcast_list_is_lazy
    (new_list : ActionListenerList)
    (add remove : Pointer -> ActionListenerList -> ActionListenerList)
    (send : ActionListenerList -> string -> St -> St)
    (l : Pointer) (v : string) s mm :
  instance s = Some mm ->
  (broadcastListeners mm = None ->
     deliverBroadcastMessage send v s = (Ret tt, s, []) /\
     deregisterBroadcastListener remove l s = (Ret tt, s, []) /\
     registerBroadcastListener new_list add l s =
       (Ret tt,
        set_instance (Some (set_broadcastListeners (Some (add l new_list)) mm)) s,
        [])) /\
  (forall L, broadcastListeners mm = Some L ->
     deliverBroadcastMessage send v s = (Ret tt, send L v s, [EvSendActionMessage v]) /\
     deregisterBroadcastListener remove l s =
       (Ret tt, set_instance (Some (set_broadcastListeners (Some (remove l L)) mm)) s, []) /\
     registerBroadcastListener new_list add l s =
       (Ret tt, set_instance (Some (set_broadcastListeners (Some (add l L)) mm)) s, [])).
Proof.
  intros Hi. split.
  - intros Hb. split; [|split].
    + unfold deliverBroadcastMessage.
      rewrite (bind_Ret_nil _ _ s mm s) by (apply deref_instance_Some; exact Hi).
      rewrite Hb. reflexivity.
    + unfold deregisterBroadcastListener.
      rewrite (bind_Ret_nil _ _ s mm s) by (apply deref_instance_Some; exact Hi).
      rewrite Hb. reflexivity.
    + unfold registerBroadcastListener.
      rewrite (bind_Ret_nil _ _ s mm s) by (apply deref_instance_Some; exact Hi).
      rewrite Hb. rewrite bool_decide_eq_true_2 by reflexivity.
      set (sa := set_instance (Some (set_broadcastListeners (Some new_list) mm)) s).
      rewrite (bind_Ret_nil _ _ s tt sa) by (apply store_instance_Some; exact Hi).
      rewrite (bind_Ret_nil _ _ sa (set_broadcastListeners (Some new_list) mm) sa)
        by reflexivity.
      cbn [broadcastListeners set_broadcastListeners].
      rewrite (store_instance_Some _ sa (set_broadcastListeners (Some new_list) mm))
        by reflexivity.
      destruct s; reflexivity.
  - intros L Hb. split; [|split].
    + unfold deliverBroadcastMessage.
      rewrite (bind_Ret_nil _ _ s mm s) by (apply deref_instance_Some; exact Hi).
      rewrite Hb.
      rewrite (bind_Ret _ _ s tt s [EvSendActionMessage v]) by reflexivity.
      reflexivity.
    + unfold deregisterBroadcastListener.
      rewrite (bind_Ret_nil _ _ s mm s) by (apply deref_instance_Some; exact Hi).
      rewrite Hb. apply store_instance_Some. exact Hi.
    + unfold registerBroadcastListener.
      rewrite (bind_Ret_nil _ _ s mm s) by (apply deref_instance_Some; exact Hi).
      rewrite Hb. rewrite bool_decide_eq_false_2 by discriminate.
      rewrite (bind_Ret_nil _ _ s tt s) by reflexivity.
      rewrite (bind_Ret_nil _ _ s mm s) by (apply deref_instance_Some; exact Hi).
      rewrite Hb. apply store_instance_Some. exact Hi.
Qed.

(** ** Exceptions *)

Lemma never_throws_ret {A} (a : A) :
  never_throws (ActionListenerList := ActionListenerList) (ret a).
Proof. intros s. discriminate. Qed.

Lemma never_throws_stop {A} (o : Outcome A) :
  o <> Throw -> never_throws (ActionListenerList := ActionListenerList) (stop o).
Proof. intros H s. exact H. Qed.

Lemma never_throws_deref_instance :
  never_throws (ActionListenerList := ActionListenerList) deref_instance.
Proof. intros s. unfold deref_instance. destruct (instance s); discriminate. Qed.

Lemma never_throws_bind {A B} (c : M (ActionListenerList := ActionListenerList) A)
    (f : A -> M B) :
  never_throws c -> (forall a, never_throws (f a)) -> never_throws (bind c f).
Proof.
  intros Hc Hf s. specialize (Hc s). unfold bind.
  destruct (c s) as [[o s1] t1]. unfold outcome in Hc; simpl in Hc.
  destruct o; try (unfold outcome; simpl; congruence).
  specialize (Hf a s1). destruct (f a s1) as [[o2 s2] t2]. exact Hf.
Qed.

(** The exception barrier lets nothing through, whatever its body does. *)
Lemma never_throws_JUCE_TRY_CATCH (body : M (ActionListenerList := ActionListenerList) unit) :
  never_throws (JUCE_TRY_CATCH body).
Proof.
  intros s. unfold JUCE_TRY_CATCH.
  destruct (body s) as [[o s1] t1]. destruct o; discriminate.
Qed.

Lemma never_throws_scope {A} (body : M (ActionListenerList := ActionListenerList) A)
    cleanup :
  never_throws body -> never_throws cleanup -> never_throws (scope body cleanup).
Proof.
  intros Hb Hc s. specialize (Hb s). unfold scope.
  destruct (body s) as [[o s1] t1]. unfold outcome in Hb; simpl in Hb.
  destruct o; try (unfold outcome; simpl; congruence).
  specialize (Hc s1). destruct (cleanup s1) as [[o2 s2] t2].
  unfold outcome in *; simpl in *. destruct o2; congruence.
Qed.

Lemma never_throws_store_instance (f : MessageManager -> MessageManager) :
  never_throws (ActionListenerList := ActionListenerList) (store_instance f).
Proof.
  apply never_throws_bind; [apply never_throws_deref_instance|].
  intros mm s. discriminate.
Qed.

Lemma never_throws_while_loop fuel
    (cond : M (ActionListenerList := ActionListenerList) bool) body :
  never_throws cond -> never_throws body -> never_throws (while_loop fuel cond body).
Proof.
  intros Hc Hb. induction fuel as [|fuel IH]; [apply never_throws_stop; discriminate|].
  cbn [while_loop]. apply never_throws_bind; [exact Hc|].
  intros [|]; [|apply never_throws_ret].
  apply never_throws_bind; [exact Hb|]. intros _. exact IH.
Qed.

(** Splits a goal [never_throws c] along the structure of [c]. *)
Ltac never_throws_step :=
  match goal with
  | |- forall _, _ => intro
  | |- never_throws (bind _ _) => apply never_throws_bind
  | |- never_throws (ret _) => apply never_throws_ret
  | |- never_throws (stop _) => apply never_throws_stop; discriminate
  | |- never_throws deref_instance => apply never_throws_deref_instance
  | |- never_throws (store_instance _) => apply never_throws_store_instance
  | |- never_throws (JUCE_TRY_CATCH _) => apply never_throws_JUCE_TRY_CATCH
  | |- never_throws (scope _ _) => apply never_throws_scope
  | |- never_throws (while_loop _ _ _) => apply never_throws_while_loop
  | |- never_throws get_state => intros ?; discriminate
  | |- never_throws (put_state _) => intros ?; discriminate
  | |- never_throws (emit _) => intros ?; discriminate
  | |- never_throws (delete _) => intros ?; discriminate
  | |- never_throws (external _) => intros ?; discriminate
  | |- never_throws (currentTimeMillis _) => intros ?; discriminate
  | |- never_throws (if ?b then _ else _) => destruct b
  | |- never_throws (match ?x with _ => _ end) => destruct x
  end.

Lemma never_throws_MessageManagerLock_new tid :
  never_throws (ActionListenerList := ActionListenerList) (MessageManagerLock_new tid).
Proof.
  unfold MessageManagerLock_new, CriticalSection_enter. repeat never_throws_step.
Qed.

Lemma never_throws_MessageManagerLock_delete lock :
  never_throws (ActionListenerList := ActionListenerList) (MessageManagerLock_delete lock).
Proof.
  unfold MessageManagerLock_delete, CriticalSection_exit. repeat never_throws_step.
Qed.

Lemma never_throws_deliverMessage
    (handleMessage : Pointer -> Message -> St -> Outcome unit * St) tid m :
  never_throws (deliverMessage handleMessage tid m).
Proof.
  unfold deliverMessage.
  apply never_throws_bind; [apply never_throws_MessageManagerLock_new|]. intros lock.
  apply never_throws_scope; [|apply never_throws_MessageManagerLock_delete].
  repeat never_throws_step.
Qed.

Lemma never_throws_runDispatchLoopUntil
    (handleMessage : Pointer -> Message -> St -> Outcome unit * St)
    clock fuel tid millis :
  never_throws (runDispatchLoopUntil handleMessage clock fuel tid millis).
Proof.
  unfold runDispatchLoopUntil, dispatchCondition, dispatchBody,
    shortcut_and, shortcut_or.
  repeat never_throws_step.
Qed.

(** An exception thrown by a message handler does not leave
    [deliverMessage], whatever the handler, the message and the state: it
    stops at the barrier around the handler call.  So none leaves
    [runDispatchLoopUntil] or [runDispatchLoop], which deliver through
    it. *)
Theorem handler_exceptions_are_contained
    (handleMessage : Pointer -> Message -> St -> Outcome unit * St)
    (clock : nat -> Z) fuel tid m millis s :
  outcome (deliverMessage handleMessage tid m s) <> Throw /\
  outcome (runDispatchLoopUntil handleMessage clock fuel tid millis s) <> Throw /\
  outcome (runDispatchLoop handleMessage clock fuel tid s) <> Throw.
Proof.
  split; [apply never_throws_deliverMessage|].
  split; [apply never_throws_runDispatchLoopUntil|].
  revert s. change (never_throws (runDispatchLoop handleMessage clock fuel tid)).
  unfold runDispatchLoop.
  apply never_throws_bind; [apply never_throws_runDispatchLoopUntil|].
  intros _. apply never_throws_ret.
Qed.

(** ** The cancellable constructor, when it is not cancelled *)

(** An attempt on a free mutex succeeds, whatever the thread has been
    told. *)
Lemma MessageManagerLock_retry_free (others : Z -> St -> St)
    fuel tid thread garbage s mm :
  instance s = Some mm -> messageDispatchLock mm = None ->
  MessageManagerLock_retry others (S fuel) tid thread garbage s =
    (Ret {| lastLockingThreadId := currentLockingThreadId mm; locked := true |},
     set_instance
       (Some (set_currentLockingThreadId tid
                (set_messageDispatchLock (Some tid) mm))) s,
     []).
Proof.
  intros Hi Hl. cbn [MessageManagerLock_retry].
  set (s1 := set_instance (Some (set_messageDispatchLock (Some tid) mm)) s).
  assert (Htry : CriticalSection_tryEnter tid s = (Ret true, s1, [])).
  { unfold CriticalSection_tryEnter.
    rewrite (bind_Ret_nil _ _ s mm s) by (apply deref_instance_Some; exact Hi).
    rewrite Hl.
    rewrite (bind_Ret_nil _ _ s tt s1) by (apply store_instance_Some; exact Hi).
    reflexivity. }
  rewrite (bind_Ret_nil _ _ s true s1) by exact Htry.
  rewrite (bind_Ret_nil _ _ s1 (set_messageDispatchLock (Some tid) mm) s1)
    by reflexivity.
  rewrite (bind_Ret_nil _ _ s1 tt
             (set_instance
                (Some (set_currentLockingThreadId tid
                         (set_messageDispatchLock (Some tid) mm))) s1))
    by reflexivity.
  destruct s; reflexivity.
Qed.

(** A failed attempt of a thread that has not been told to exit, or of a
    null thread, is followed by a sleep and another attempt. *)
Lemma MessageManagerLock_retry_again (others : Z -> St -> St)
    fuel tid (thread : Pointer) garbage s :
  heldByAnother tid s = true ->
  thread = 0 \/ thread ∉ exitSignalled s ->
  MessageManagerLock_retry others (S fuel) tid thread garbage s =
    let '(o, s2, t2) :=
      MessageManagerLock_retry others fuel tid thread garbage (others 1 s) in
    (o, s2, EvSleep 1 :: t2).
Proof.
  intros Hh Hno. rewrite MessageManagerLock_retry_failed by exact Hh.
  assert (Hc : bool_decide (thread <> 0) && bool_decide (thread ∈ exitSignalled s)
               = false).
  { destruct Hno as [-> | Hno].
    - rewrite bool_decide_eq_false_2 by (intros H; apply H; reflexivity). reflexivity.
    - rewrite (bool_decide_eq_false_2 (thread ∈ exitSignalled s)) by exact Hno.
      apply andb_false_r. }
  rewrite Hc. reflexivity.
Qed.

(** The cancellable constructor takes the mutex at the first attempt that
    finds it free: after [k] failed attempts, each followed by a sleep, it
    returns with [locked = true], the saved id being the
    [currentLockingThreadId] of that moment, exactly as the blocking
    constructor would there.  The thread is asked whether it should exit
    only after a failed attempt: a thread already told to exit still takes
    a free mutex. *)
Theorem cancellable_lock_acquires (others : Z -> St -> St)
    k fuel tid (thread : Pointer) garbage s mm :
  (forall j, (j < k)%nat ->
     heldByAnother tid (Nat.iter j (others 1) s) = true /\
     (thread = 0 \/ thread ∉ exitSignalled (Nat.iter j (others 1) s))) ->
  instance (Nat.iter k (others 1) s) = Some mm ->
  messageDispatchLock mm = None ->
  (k < fuel)%nat ->
  MessageManagerLock_new_thread others fuel tid thread garbage s =
    (Ret {| lastLockingThreadId := currentLockingThreadId mm; locked := true |},
     set_instance
       (Some (set_currentLockingThreadId tid
                (set_messageDispatchLock (Some tid) mm)))
       (Nat.iter k (others 1) s),
     repeat (EvSleep 1) k) /\
  MessageManagerLock_new tid (Nat.iter k (others 1) s) =
    (Ret {| lastLockingThreadId := currentLockingThreadId mm; locked := true |},
     set_instance
       (Some (set_currentLockingThreadId tid
                (set_messageDispatchLock (Some tid) mm)))
       (Nat.iter k (others 1) s),
     []).
Proof.
  intros Hbefore Hi Hl Hfuel.
  split; [|apply MessageManagerLock_new_free; assumption].
  assert (Hi0 : exists mm0, instance s = Some mm0).
  { destruct k as [|k]; [simpl in Hi; eauto|].
    destruct (Hbefore 0%nat ltac:(lia)) as [Hh _]. simpl in Hh.
    unfold heldByAnother in Hh. destruct (instance s); [eauto|discriminate]. }
  destruct Hi0 as [mm0 Hi0].
  unfold MessageManagerLock_new_thread.
  rewrite (bind_Ret_nil _ _ s s s) by reflexivity. rewrite Hi0.
  clear mm0 Hi0. revert fuel s Hbefore Hi Hfuel.
  induction k as [|k IH]; intros fuel s Hbefore Hi Hfuel.
  - destruct fuel as [|fuel]; [lia|]. simpl in Hi.
    apply MessageManagerLock_retry_free; assumption.
  - destruct fuel as [|fuel]; [lia|].
    destruct (Hbefore 0%nat ltac:(lia)) as [Hh0 Hn0]. simpl in Hh0, Hn0.
    rewrite MessageManagerLock_retry_again by assumption.
    rewrite Nat.iter_succ_r in Hi.
    rewrite (IH fuel (others 1 s)); [| |exact Hi|lia].
    + rewrite Nat.iter_succ_r. reflexivity.
    + intros j Hj. specialize (Hbefore (S j) ltac:(lia)).
      rewrite Nat.iter_succ_r in Hbefore. exact Hbefore.
Qed.

(** While another thread holds the mutex and the thread has not been told
    to exit (or the thread pointer is null, which is never dereferenced),
    the cancellable constructor does not return: after any number of
    attempts it has slept as many times, written nothing, and is about to
    try again. *)
Theorem cancellable_lock_keeps_waiting (others : Z -> St -> St)
    fuel tid (thread : Pointer) garbage s :
  (0 < fuel)%nat ->
  (forall j, (j < fuel)%nat ->
     heldByAnother tid (Nat.iter j (others 1) s) = true /\
     (thread = 0 \/ thread ∉ exitSignalled (Nat.iter j (others 1) s))) ->
  MessageManagerLock_new_thread others fuel tid thread garbage s =
    (NoFuel, Nat.iter fuel (others 1) s, repeat (EvSleep 1) fuel).
Proof.
  intros Hpos Hall.
  assert (Hi0 : exists mm0, instance s = Some mm0).
  { destruct (Hall 0%nat Hpos) as [Hh _]. simpl in Hh.
    unfold heldByAnother in Hh. destruct (instance s); [eauto|discriminate]. }
  destruct Hi0 as [mm0 Hi0].
  unfold MessageManagerLock_new_thread.
  rewrite (bind_Ret_nil _ _ s s s) by reflexivity. rewrite Hi0.
  clear mm0 Hi0 Hpos. revert s Hall.
  induction fuel as [|fuel IH]; intros s Hall; [reflexivity|].
  destruct (Hall 0%nat ltac:(lia)) as [Hh0 Hn0]. simpl in Hh0, Hn0.
  rewrite MessageManagerLock_retry_again by assumption.
  rewrite (IH (others 1 s)).
  - rewrite Nat.iter_succ_r. reflexivity.
  - intros j Hj. specialize (Hall (S j) ltac:(lia)).
    rewrite Nat.iter_succ_r in Hall. exact Hall.
Qed.

(** ** The loop without a deadline *)


(** ** Draining the queue *)

Lemma isQuitMessage_registered mm m :
  messageRecipient m ∈ messageListeners mm -> isQuitMessage mm m = false.
Proof.
  intros H. unfold isQuitMessage. rewrite bool_decide_eq_true_2 by exact H.
  reflexivity.
Qed.

(** One delivery, when the handlers leave the process alone and the
    dispatch lock is free: the lock is taken and given back, and the only
    lasting effect is that of a quit message. *)
Lemma deliverMessage_alone
    (handleMessage : Pointer -> Message -> St -> Outcome unit * St) tid m s mm :
  leavesProcessAlone handleMessage ->
  instance s = Some mm ->
  messageDispatchLock mm = None ->
  deliverMessage handleMessage tid m s =
    (Ret tt,
     (if isQuitMessage mm m
      then set_instance (Some (set_quitMessageReceived true mm)) s
      else s),
     deliveryTrace mm m).
Proof.
  intros Halone Hi Hl.
  set (lock := {| lastLockingThreadId := currentLockingThreadId mm; locked := true |}).
  set (mm1 := set_currentLockingThreadId tid (set_messageDispatchLock (Some tid) mm)).
  set (s1 := set_instance (Some mm1) s).
  assert (Hnew : MessageManagerLock_new tid s = (Ret lock, s1, []))
    by (apply MessageManagerLock_new_free; assumption).
  unfold deliverMessage.
  rewrite (bind_Ret_nil _ _ s lock s1) by exact Hnew.
  unfold scope.
  rewrite (bind_Ret_nil _ _ s1 mm1 s1) by reflexivity.
  cbn [messageListeners mm1 set_currentLockingThreadId set_messageDispatchLock].
  unfold isQuitMessage, deliveryTrace.
  destruct (bool_decide (messageRecipient m ∈ messageListeners mm)) eqn:Hreg.
  - cbn [negb andb].
    destruct (Halone (messageRecipient m) m s1) as [Hs Ho].
    unfold bind at 1, JUCE_TRY_CATCH, call_handleMessage.
    destruct (handleMessage (messageRecipient m) m s1) as [o s2].
    simpl in Hs, Ho. subst s2.
    pose proof (MessageManagerLock_delete_eq lock s1) as Hd.
    cbn [locked lock s1 instance set_instance lastLockingThreadId] in Hd.
    unfold mm1 in Hd. rewrite release_restores in Hd by exact Hl.
    assert (Hs : set_instance (Some mm) s1 = s)
      by (unfold s1; destruct s; simpl in *; subst; reflexivity).
    rewrite Hs in Hd.
    destruct Ho as [-> | ->]; cbn [delete emit]; rewrite Hd; reflexivity.
  - cbn [negb andb].
    destruct (bool_decide (messageRecipient m = 0)
              && bool_decide (intParameter1 m = quitMessageId)) eqn:Hq.
    + unfold bind at 1.
      rewrite (store_instance_Some _ s1 mm1) by reflexivity.
      cbn [delete emit app]. rewrite MessageManagerLock_delete_eq.
      cbn [locked lock lastLockingThreadId instance set_instance].
      unfold mm1. rewrite unlock_after_quit by exact Hl.
      destruct s; reflexivity.
    + unfold bind at 1. cbn [ret delete emit app].
      rewrite MessageManagerLock_delete_eq.
      cbn [locked lock lastLockingThreadId instance set_instance s1].
      unfold mm1. rewrite release_restores by exact Hl.
      destruct s; simpl in *; subst; reflexivity.
Qed.

(** One run of the loop body on a queue that is not empty. *)
Lemma dispatchBody_alone
    (handleMessage : Pointer -> Message -> St -> Outcome unit * St)
    tid millis m rest s mm :
  leavesProcessAlone handleMessage ->
  instance s = Some mm ->
  messageDispatchLock mm = None ->
  systemQueue s = m :: rest ->
  dispatchBody handleMessage tid millis s =
    (Ret tt,
     (if isQuitMessage mm m
      then set_instance (Some (set_quitMessageReceived true mm))
             (set_systemQueue rest s)
      else set_systemQueue rest s),
     EvDispatchNextMessage (bool_decide (millis >= 0)) :: deliveryTrace mm m).
Proof.
  intros Halone Hi Hl Hq.
  unfold dispatchBody, JUCE_TRY_CATCH, juce_dispatchNextMessageOnSystemQueue.
  set (flag := bool_decide (millis >= 0)).
  unfold bind at 1.
  rewrite (bind_Ret _ _ s tt s [EvDispatchNextMessage flag]) by reflexivity.
  rewrite (bind_Ret_nil _ _ s s s) by reflexivity.
  rewrite Hq.
  rewrite (bind_Ret_nil _ _ s tt (set_systemQueue rest s)) by reflexivity.
  unfold bind at 1.
  rewrite (deliverMessage_alone handleMessage tid m (set_systemQueue rest s) mm
             Halone Hi Hl).
  cbn [ret app]. rewrite !app_nil_r. reflexivity.
Qed.

(** The loop without a deadline, over a queue that holds a quit message:
    the messages before it are dispatched in order, then the quit message,
    and the loop ends; the messages behind it stay in the queue. *)
Lemma while_loop_drains
    (handleMessage : Pointer -> Message -> St -> Outcome unit * St)
    clock tid millis endTime mm mq q' :
  leavesProcessAlone handleMessage ->
  millis < 0 ->
  messageDispatchLock mm = None ->
  quitMessageReceived mm = false ->
  isQuitMessage mm mq = true ->
  forall q fuel s,
  instance s = Some mm ->
  systemQueue s = q ++ mq :: q' ->
  Forall (fun m => isQuitMessage mm m = false) q ->
  (length q + 1 < fuel)%nat ->
  while_loop fuel (dispatchCondition clock millis endTime)
    (dispatchBody handleMessage tid millis) s =
    (Ret tt,
     set_instance (Some (set_quitMessageReceived true mm)) (set_systemQueue q' s),
     drainTrace false mm q ++ [EvDispatchNextMessage false; EvDelete mq]).
Proof.
  intros Halone Hms Hl Hnq Hmq.
  assert (Hflag : bool_decide (millis >= 0) = false)
    by (apply bool_decide_eq_false_2; lia).
  assert (Hcond : forall s0 mm0, instance s0 = Some mm0 ->
            dispatchCondition clock millis endTime s0
            = (Ret (negb (quitMessageReceived mm0)), s0, [])).
  { intros s0 mm0 Hi0. rewrite dispatchCondition_eq.
    rewrite bool_decide_eq_true_2 by exact Hms. rewrite Hi0. reflexivity. }
  assert (Htr : deliveryTrace mm mq = [EvDelete mq]).
  { unfold isQuitMessage in Hmq. unfold deliveryTrace.
    destruct (bool_decide (messageRecipient mq ∈ messageListeners mm));
      [discriminate|reflexivity]. }
  induction q as [|m q IH]; intros fuel s Hi Hq Hall Hfuel.
  - destruct fuel as [|[|fuel]]; [simpl in Hfuel; lia|simpl in Hfuel; lia|].
    cbn [app] in Hq. cbn [while_loop].
    rewrite (bind_Ret_nil _ _ s true s) by (rewrite (Hcond s mm Hi), Hnq; reflexivity).
    rewrite (bind_Ret _ _ s tt
               (set_instance (Some (set_quitMessageReceived true mm))
                  (set_systemQueue q' s))
               [EvDispatchNextMessage false; EvDelete mq]).
    2:{ rewrite (dispatchBody_alone handleMessage tid millis mq q' s mm
                   Halone Hi Hl Hq).
        rewrite Hmq, Hflag, Htr. reflexivity. }
    rewrite (bind_Ret_nil _ _ _ false
               (set_instance (Some (set_quitMessageReceived true mm))
                  (set_systemQueue q' s)))
      by (rewrite (Hcond (set_instance (Some (set_quitMessageReceived true mm))
                            (set_systemQueue q' s))
                     (set_quitMessageReceived true mm) eq_refl); reflexivity).
    reflexivity.
  - destruct fuel as [|fuel]; [simpl in Hfuel; lia|].
    cbn [app] in Hq. cbn [while_loop].
    inversion Hall as [|m' q0 Hm Hq0]; subst.
    rewrite (bind_Ret_nil _ _ s true s) by (rewrite (Hcond s mm Hi), Hnq; reflexivity).
    rewrite (bind_Ret _ _ s tt (set_systemQueue (q ++ mq :: q') s)
               (EvDispatchNextMessage false :: deliveryTrace mm m)).
    2:{ rewrite (dispatchBody_alone handleMessage tid millis m (q ++ mq :: q') s mm
                   Halone Hi Hl Hq).
        rewrite Hm, Hflag. reflexivity. }
    rewrite (IH fuel (set_systemQueue (q ++ mq :: q') s));
      [|exact Hi|reflexivity|exact Hq0|simpl in Hfuel; lia].
    cbn [drainTrace app]. rewrite (app_assoc (deliveryTrace mm m)). reflexivity.
Qed.

(** Entered with [quitMessageReceived] clear and the dispatch lock free,
    with handlers that leave the process alone, over a queue whose first
    quit message is [mq], [runDispatchLoop] returns after having
    dispatched, in the order of the queue and once each, the messages in
    front of [mq] (a handler call and a deletion for a registered
    recipient, a deletion alone otherwise) and then [mq]; the messages
    behind [mq] are not dispatched and stay in the queue. *)
Theorem runDispatchLoop_drains_to_quit
    (handleMessage : Pointer -> Message -> St -> Outcome unit * St)
    clock fuel tid s mm q mq q' :
  leavesProcessAlone handleMessage ->
  instance s = Some mm ->
  messageDispatchLock mm = None ->
  quitMessageReceived mm = false ->
  systemQueue s = q ++ mq :: q' ->
  Forall (fun m => isQuitMessage mm m = false) q ->
  isQuitMessage mm mq = true ->
  (length q + 1 < fuel)%nat ->
  runDispatchLoop handleMessage clock fuel tid s =
    (Ret tt,
     set_instance (Some (set_quitMessageReceived true mm))
       (set_systemQueue q' (set_clockReads (S (clockReads s)) s)),
     drainTrace false mm q ++ [EvDispatchNextMessage false; EvDelete mq]).
Proof.
  intros Halone Hi Hl Hnq Hq Hall Hmq Hfuel.
  unfold runDispatchLoop. unfold bind at 1.
  rewrite runDispatchLoopUntil_eq. cbv zeta.
  rewrite (while_loop_drains handleMessage clock tid (-1) _ mm mq q'
             Halone ltac:(lia) Hl Hnq Hmq q fuel
             (set_clockReads (S (clockReads s)) s) Hi Hq Hall Hfuel).
  cbn [instance set_instance ret app]. rewrite app_nil_r. reflexivity.
Qed.

Lemma drainTrace_same_listeners flag mm mm' q :
  messageListeners mm' = messageListeners mm ->
  drainTrace flag mm' q = drainTrace flag mm q.
Proof.
  intros H. induction q as [|m q IH]; [reflexivity|].
  cbn [drainTrace]. unfold deliveryTrace. rewrite H, IH. reflexivity.
Qed.

(** The quit protocol, end to end.  Both quit flags are clear, no quit
    message is in the queue yet, the null pointer is not a registered
    listener, the operating system takes the quit message, the handlers
    leave the process alone and the dispatch lock is free.  Then
    [stopDispatchLoop] puts the quit message behind the messages already
    queued, and [runDispatchLoop] dispatches those messages in order, once
    each, then the quit message, and returns with an empty queue and both
    quit flags set. *)
Theorem stop_then_runDispatchLoop
    (handleMessage : Pointer -> Message -> St -> Outcome unit * St)
    accepts clock fuel tid s mm :
  let sentinel := mkMessage 0 quitMessageId 0 0 0 in
  leavesProcessAlone handleMessage ->
  instance s = Some mm ->
  messageDispatchLock mm = None ->
  quitMessagePosted mm = false ->
  quitMessageReceived mm = false ->
  0 ∉ messageListeners mm ->
  Forall (fun m => isQuitMessage mm m = false) (systemQueue s) ->
  accepts (systemQueue s) sentinel = true ->
  (length (systemQueue s) + 1 < fuel)%nat ->
  exists s1,
    stopDispatchLoop accepts s = (Ret tt, s1, [EvPostToSystemQueue sentinel]) /\
    runDispatchLoop handleMessage clock fuel tid s1 =
      (Ret tt,
       set_instance
         (Some (set_quitMessageReceived true (set_quitMessagePosted true mm)))
         (set_systemQueue [] (set_clockReads (S (clockReads s)) s)),
       drainTrace false mm (systemQueue s)
         ++ [EvDispatchNextMessage false; EvDelete sentinel]).
Proof.
  intros sentinel Halone Hi Hl Hnp Hnq H0 Hall Hacc Hfuel.
  set (mm1 := set_quitMessagePosted true mm).
  set (s1 := set_instance (Some mm1) (set_systemQueue (systemQueue s ++ [sentinel]) s)).
  exists s1. split.
  - unfold stopDispatchLoop. rewrite sentinel_eq. fold sentinel.
    unfold bind at 1. rewrite (postMessageToQueue_eq _ _ _ _ Hi).
    rewrite Hnp, Hacc.
    rewrite (store_instance_Some _ _ mm) by exact Hi. reflexivity.
  - assert (Hsent : isQuitMessage mm1 sentinel = true).
    { unfold isQuitMessage. cbn [messageRecipient intParameter1 sentinel
        messageListeners mm1 set_quitMessagePosted].
      rewrite bool_decide_eq_false_2 by exact H0.
      rewrite !bool_decide_eq_true_2 by reflexivity. reflexivity. }
    unfold runDispatchLoop. unfold bind at 1.
    rewrite runDispatchLoopUntil_eq. cbv zeta.
    rewrite (while_loop_drains handleMessage clock tid (-1) _ mm1 sentinel []
               Halone ltac:(lia) Hl Hnq Hsent (systemQueue s) fuel
               (set_clockReads (S (clockReads s1)) s1) eq_refl eq_refl Hall Hfuel).
    cbn [instance set_instance ret app]. rewrite app_nil_r.
    rewrite (drainTrace_same_listeners false mm mm1) by reflexivity.
    reflexivity.
Qed.

(** ** The loop with a deadline, on an empty queue *)

(** One run of the loop body on an empty queue, when the call may not
    block: the dispatch function is called and returns. *)
Lemma dispatchBody_empty
    (handleMessage : Pointer -> Message -> St -> Outcome unit * St)
    tid millis s :
  millis >= 0 ->
  systemQueue s = [] ->
  dispatchBody handleMessage tid millis s =
    (Ret tt, s, [EvDispatchNextMessage true]).
Proof.
  intros Hms Hq.
  unfold dispatchBody, JUCE_TRY_CATCH, juce_dispatchNextMessageOnSystemQueue.
  rewrite bool_decide_eq_true_2 by exact Hms.
  unfold bind at 1.
  rewrite (bind_Ret _ _ s tt s [EvDispatchNextMessage true]) by reflexivity.
  rewrite (bind_Ret_nil _ _ s s s) by reflexivity.
  rewrite Hq. reflexivity.
Qed.

Lemma while_loop_polls
    (handleMessage : Pointer -> Message -> St -> Outcome unit * St)
    clock tid millis endTime mm :
  millis >= 0 ->
  quitMessageReceived mm = false ->
  forall k fuel s,
  instance s = Some mm ->
  systemQueue s = [] ->
  (forall j, (j < k)%nat -> endTime > to_int64 (clock (clockReads s + j)%nat)) ->
  endTime <= to_int64 (clock (clockReads s + k)%nat) ->
  (k < fuel)%nat ->
  while_loop fuel (dispatchCondition clock millis endTime)
    (dispatchBody handleMessage tid millis) s =
    (Ret tt, set_clockReads (clockReads s + k + 1) s,
     repeat (EvDispatchNextMessage true) k).
Proof.
  intros Hms Hnq.
  induction k as [|k IH]; intros fuel s Hi Hq Hearly Hlate Hfuel.
  - destruct fuel as [|fuel]; [lia|]. cbn [while_loop].
    rewrite Nat.add_0_r in Hlate.
    rewrite (bind_Ret_nil _ _ s false (set_clockReads (S (clockReads s)) s)).
    2:{ rewrite dispatchCondition_eq.
        rewrite bool_decide_eq_false_2 by lia.
        rewrite bool_decide_eq_false_2 by lia. reflexivity. }
    replace (clockReads s + 0 + 1)%nat with (S (clockReads s)) by lia.
    reflexivity.
  - destruct fuel as [|fuel]; [lia|]. cbn [while_loop].
    pose proof (Hearly 0%nat ltac:(lia)) as H0. rewrite Nat.add_0_r in H0.
    set (s1 := set_clockReads (S (clockReads s)) s).
    rewrite (bind_Ret_nil _ _ s true s1).
    2:{ rewrite dispatchCondition_eq.
        rewrite bool_decide_eq_false_2 by lia.
        rewrite bool_decide_eq_true_2 by exact H0.
        rewrite Hi, Hnq. reflexivity. }
    rewrite (bind_Ret _ _ s1 tt s1 [EvDispatchNextMessage true])
      by (apply dispatchBody_empty; [exact Hms|exact Hq]).
    rewrite (IH fuel s1); [|exact Hi|exact Hq| | |lia].
    + cbn [clockReads set_clockReads s1 repeat app].
      replace (S (clockReads s) + k + 1)%nat with (clockReads s + S k + 1)%nat by lia.
      reflexivity.
    + intros j Hj. cbn [clockReads set_clockReads s1].
      replace (S (clockReads s) + j)%nat with (clockReads s + S j)%nat by lia.
      apply Hearly. lia.
    + cbn [clockReads set_clockReads s1].
      replace (S (clockReads s) + k)%nat with (clockReads s + S k)%nat by lia.
      exact Hlate.
Qed.

(** On an empty queue and with no quit message received,
    [runDispatchLoopUntil] with a non-negative argument polls: it calls
    the dispatch function, which returns at once, after each reading of
    the clock that is before [endTime], and returns true at the first
    reading that is not; the state is untouched but for the clock
    readings consumed.  [k] is the number of readings before
    [endTime]. *)
Theorem runDispatchLoopUntil_times_out
    (handleMessage : Pointer -> Message -> St -> Outcome unit * St)
    clock k fuel tid millis s mm :
  let endTime := to_int64 (to_int64 (clock (clockReads s)) + millis) in
  instance s = Some mm ->
  quitMessageReceived mm = false ->
  systemQueue s = [] ->
  millis >= 0 ->
  (forall j, (j < k)%nat ->
     endTime > to_int64 (clock (S (clockReads s) + j)%nat)) ->
  endTime <= to_int64 (clock (S (clockReads s) + k)%nat) ->
  (k < fuel)%nat ->
  runDispatchLoopUntil handleMessage clock fuel tid millis s =
    (Ret true, set_clockReads (clockReads s + k + 2) s,
     repeat (EvDispatchNextMessage true) k).
Proof.
  intros endTime Hi Hnq Hq Hms Hearly Hlate Hfuel.
  rewrite runDispatchLoopUntil_eq. cbv zeta. fold endTime.
  rewrite (while_loop_polls handleMessage clock tid millis endTime mm Hms Hnq
             k fuel (set_clockReads (S (clockReads s)) s) Hi Hq Hearly Hlate Hfuel).
  cbn [instance set_clockReads clockReads]. rewrite Hi, Hnq.
  replace (S (clockReads s) + k + 1)%nat with (clockReads s + k + 2)%nat by lia.
  reflexivity.
Qed.

(** ** The flag of the quit request *)

Section PostedFlag.

Local Abbreviation posted := (quitPosted (ActionListenerList := ActionListenerList)).

Variable new_ActionListenerList : ActionListenerList.
Variables addActionListener removeActionListener :
  Pointer -> ActionListenerList -> ActionListenerList.
Variable handleMessage : Pointer -> Message -> St -> Outcome unit * St.
Variable systemQueueAccepts : list Message -> Message -> bool.
Variable clock : nat -> Z.
Variable otherThreadsDuring : Z -> St -> St.
Variable sendActionMessage : ActionListenerList -> string -> St -> St.
Variable doPlatformSpecificInitialisation : St -> St.

(** Code outside the coordinator cannot write its private flag. *)
Hypothesis handler_keeps_posted :
  forall r m s, quitPosted s -> quitPosted (handleMessage r m s).2.
Hypothesis others_keep_posted :
  forall ms s, quitPosted s -> quitPosted (otherThreadsDuring ms s).
Hypothesis send_keeps_posted :
  forall l v s, quitPosted s -> quitPosted (sendActionMessage l v s).

Lemma keeps_posted_store_instance (f : MessageManager -> MessageManager) :
  (forall mm, quitMessagePosted mm = true -> quitMessagePosted (f mm) = true) ->
  keeps posted (store_instance f).
Proof.
  intros Hf s Hp. unfold quitPosted in Hp.
  destruct (instance s) as [mm|] eqn:Hi; [|contradiction].
  rewrite (store_instance_Some f s mm Hi).
  unfold quitPosted, final. simpl. apply Hf. exact Hp.
Qed.

Lemma keeps_posted_call_handleMessage r m :
  keeps posted (call_handleMessage handleMessage r m).
Proof.
  intros s Hp. unfold call_handleMessage.
  pose proof (handler_keeps_posted r m s Hp) as H.
  destruct (handleMessage r m s) as [o s']. exact H.
Qed.

Lemma keeps_posted_currentTimeMillis : keeps posted (currentTimeMillis clock).
Proof. intros s Hp. exact Hp. Qed.

(** Splits a goal [keeps posted c] along the structure of [c]. *)
Ltac posted_step :=
  match goal with
  | |- forall _, _ => intro
  | |- keeps _ (bind _ _) => apply keeps_bind
  | |- keeps _ (ret _) => apply keeps_ret
  | |- keeps _ (stop _) => apply keeps_stop
  | |- keeps _ (emit _) => apply keeps_emit
  | |- keeps _ (delete _) => apply keeps_emit
  | |- keeps _ deref_instance => apply keeps_deref_instance
  | |- keeps _ get_state => apply keeps_get_state
  | |- keeps _ (store_instance _) =>
      apply keeps_posted_store_instance; intros ? H; first [exact H | reflexivity]
  | |- keeps _ (external (otherThreadsDuring _)) =>
      apply keeps_external; apply others_keep_posted
  | |- keeps _ (external (sendActionMessage _ _)) =>
      apply keeps_external; apply send_keeps_posted
  | |- keeps _ (JUCE_TRY_CATCH _) => apply keeps_JUCE_TRY_CATCH
  | |- keeps _ (scope _ _) => apply keeps_scope
  | |- keeps _ (shortcut_or _ _) => apply keeps_shortcut_or
  | |- keeps _ (shortcut_and _ _) => apply keeps_shortcut_and
  | |- keeps _ (while_loop _ _ _) => apply keeps_while_loop
  | |- keeps _ (call_handleMessage _ _ _) => apply keeps_posted_call_handleMessage
  | |- keeps _ (currentTimeMillis _) => apply keeps_posted_currentTimeMillis
  | |- keeps _ (if ?b then _ else _) => destruct b
  | |- keeps _ (match ?x with _ => _ end) => destruct x
  end.

Lemma keeps_posted_MessageManagerLock_new tid : keeps posted (MessageManagerLock_new tid).
Proof. unfold MessageManagerLock_new, CriticalSection_enter. repeat posted_step. Qed.

Lemma keeps_posted_MessageManagerLock_delete lock :
  keeps posted (MessageManagerLock_delete lock).
Proof. unfold MessageManagerLock_delete, CriticalSection_exit. repeat posted_step. Qed.

Lemma keeps_posted_MessageManagerLock_retry fuel tid thread garbage :
  keeps posted (MessageManagerLock_retry otherThreadsDuring fuel tid thread garbage).
Proof.
  induction fuel as [|fuel IH]; [apply keeps_stop|].
  cbn [MessageManagerLock_retry].
  apply keeps_bind; [unfold CriticalSection_tryEnter; repeat posted_step|].
  intros [|]; [repeat posted_step|].
  apply keeps_bind; [unfold Thread_threadShouldExit; repeat posted_step|].
  intros [|]; [apply keeps_ret|].
  apply keeps_bind; [unfold Thread_sleep; repeat posted_step|].
  intros _. exact IH.
Qed.

Lemma keeps_posted_deliverMessage tid m :
  keeps posted (deliverMessage handleMessage tid m).
Proof.
  unfold deliverMessage.
  apply keeps_bind; [apply keeps_posted_MessageManagerLock_new|]. intros lock.
  apply keeps_scope; [|apply keeps_posted_MessageManagerLock_delete].
  repeat posted_step.
Qed.

Lemma keeps_posted_postMessageToQueue m :
  keeps posted (postMessageToQueue systemQueueAccepts m).
Proof.
  intros s Hp. unfold quitPosted in Hp.
  destruct (instance s) as [mm|] eqn:Hi; [|contradiction].
  rewrite (postMessageToQueue_eq _ _ _ _ Hi). rewrite Hp.
  unfold quitPosted, final. simpl. rewrite Hi. exact Hp.
Qed.

Lemma keeps_posted_dispatch tid flag :
  keeps posted (juce_dispatchNextMessageOnSystemQueue handleMessage tid flag).
Proof.
  intros s Hp. unfold juce_dispatchNextMessageOnSystemQueue.
  rewrite (bind_Ret _ _ s tt s [EvDispatchNextMessage flag]) by reflexivity.
  rewrite (bind_Ret_nil _ _ s s s) by reflexivity.
  destruct (systemQueue s) as [|m rest].
  - destruct flag; exact Hp.
  - rewrite (bind_Ret_nil _ _ s tt (set_systemQueue rest s)) by reflexivity.
    assert (H : keeps posted (bind (deliverMessage handleMessage tid m)
                                   (fun _ => ret true))).
    { apply keeps_bind; [apply keeps_posted_deliverMessage|].
      intros _. apply keeps_ret. }
    specialize (H (set_systemQueue rest s) Hp).
    destruct (bind _ _ (set_systemQueue rest s)) as [[o s2] t2]. exact H.
Qed.

Lemma keeps_posted_runDispatchLoopUntil fuel tid millis :
  keeps posted (runDispatchLoopUntil handleMessage clock fuel tid millis).
Proof.
  unfold runDispatchLoopUntil.
  apply keeps_bind; [apply keeps_posted_currentTimeMillis|]. intros now.
  apply keeps_bind.
  - apply keeps_while_loop.
    + unfold dispatchCondition. repeat posted_step.
    + unfold dispatchBody. apply keeps_JUCE_TRY_CATCH.
      apply keeps_bind; [apply keeps_posted_dispatch|]. intros _. apply keeps_ret.
  - repeat posted_step.
Qed.

Lemma keeps_posted_getInstance tid :
  keeps posted (getInstance doPlatformSpecificInitialisation tid).
Proof.
  intros s Hp. unfold getInstance.
  rewrite (bind_Ret_nil _ _ s s s) by reflexivity.
  unfold quitPosted in Hp.
  destruct (instance s) as [mm|] eqn:Hi; [|contradiction].
  rewrite bool_decide_eq_false_2 by discriminate.
  rewrite (bind_Ret_nil _ _ s tt s) by reflexivity.
  rewrite (deref_instance_Some _ _ Hi).
  unfold quitPosted, final. simpl. rewrite Hi. exact Hp.
Qed.

Lemma keeps_posted_perform tid op :
  keeps posted
    (perform new_ActionListenerList addActionListener removeActionListener
       handleMessage systemQueueAccepts clock otherThreadsDuring
       sendActionMessage doPlatformSpecificInitialisation tid op).
Proof.
  destruct op; cbn [perform].
  - apply keeps_bind; [apply keeps_posted_getInstance|]. intros _. apply keeps_ret.
  - apply keeps_posted_postMessageToQueue.
  - apply keeps_posted_deliverMessage.
  - unfold runDispatchLoop.
    apply keeps_bind; [apply keeps_posted_runDispatchLoopUntil|].
    intros _. apply keeps_ret.
  - unfold stopDispatchLoop.
    apply keeps_bind; [apply keeps_posted_postMessageToQueue|]. repeat posted_step.
  - apply keeps_bind; [apply keeps_posted_runDispatchLoopUntil|].
    intros _. apply keeps_ret.
  - unfold deliverBroadcastMessage. repeat posted_step.
  - unfold registerBroadcastListener. repeat posted_step.
  - unfold deregisterBroadcastListener. repeat posted_step.
  - unfold isThisTheMessageThread. repeat posted_step.
  - unfold setCurrentMessageThread. repeat posted_step.
  - unfold currentThreadHasLockedMessageManager. repeat posted_step.
  - apply keeps_bind; [apply keeps_posted_MessageManagerLock_new|].
    intros _. apply keeps_ret.
  - unfold MessageManagerLock_new_thread.
    apply keeps_bind; [|intros _; apply keeps_ret].
    apply keeps_bind; [apply keeps_get_state|]. intros s0.
    destruct (instance s0);
      [apply keeps_posted_MessageManagerLock_retry|apply keeps_ret].
  - apply keeps_posted_MessageManagerLock_delete.
Qed.

(** Once [quitMessagePosted] is set, no operation of this file clears it
    (the code outside the coordinator cannot write it): after any history
    of operations by any threads, however each of them ended, the flag is
    still set, and a post deletes its message without offering it to the
    operating system. *)
Theorem posts_stay_closed history m s :
  quitPosted s ->
  let s' :=
    performAll new_ActionListenerList addActionListener removeActionListener
      handleMessage systemQueueAccepts clock otherThreadsDuring
      sendActionMessage doPlatformSpecificInitialisation history s in
  quitPosted s' /\
  postMessageToQueue systemQueueAccepts m s' = (Ret tt, s', [EvDelete m]).
Proof.
  intros Hp s'.
  assert (Hp' : quitPosted s').
  { subst s'. revert s Hp.
    induction history as [|[tid op] rest IH]; intros s Hp; [exact Hp|].
    cbn [performAll]. apply IH. apply keeps_posted_perform. exact Hp. }
  split; [exact Hp'|].
  unfold quitPosted in Hp'.
  destruct (instance s') as [mm'|] eqn:Hi'; [|contradiction].
  rewrite (postMessageToQueue_eq _ _ _ _ Hi'), Hp'. reflexivity.
Qed.

End PostedFlag.

(** ** A refused quit message *)

(** When the operating system refuses the quit message,
    [stopDispatchLoop] deletes it and still sets [quitMessagePosted]: no
    quit message is queued, and a later [stopDispatchLoop] does not offer
    one either, even to an operating system that would now accept it. *)
Theorem refused_stop_is_not_retried accepts accepts' s mm :
  let sentinel := mkMessage 0 quitMessageId 0 0 0 in
  instance s = Some mm ->
  quitMessagePosted mm = false ->
  accepts (systemQueue s) sentinel = false ->
  exists s1,
    stopDispatchLoop accepts s =
      (Ret tt, s1, [EvPostToSystemQueue sentinel; EvDelete sentinel]) /\
    systemQueue s1 = systemQueue s /\
    stopDispatchLoop accepts' s1 = (Ret tt, s1, [EvDelete sentinel]).
Proof.
  intros sentinel Hi Hnp Hno.
  set (mm1 := set_quitMessagePosted true mm).
  exists (set_instance (Some mm1) s). split; [|split; [reflexivity|]].
  - unfold stopDispatchLoop. rewrite sentinel_eq. fold sentinel.
    unfold bind at 1. rewrite (postMessageToQueue_eq _ _ _ _ Hi).
    rewrite Hnp, Hno. rewrite (store_instance_Some _ _ _ Hi). reflexivity.
  - unfold stopDispatchLoop. rewrite sentinel_eq. fold sentinel.
    unfold bind at 1.
    rewrite (postMessageToQueue_eq accepts' sentinel (set_instance (Some mm1) s) mm1
               eq_refl).
    cbn [quitMessagePosted mm1 set_quitMessagePosted].
    rewrite (store_instance_Some _ (set_instance (Some mm1) s) mm1) by reflexivity.
    reflexivity.
Qed.

(** ** Delivery and the lock *)

(** While another thread holds the dispatch lock, [deliverMessage] does
    not get past the construction of its own lock: no handler is called,
    the message is not deleted, [quitMessageReceived] is not set and the
    state is untouched.  This is what lets the holder work undisturbed. *)
Theorem delivery_waits_for_lock
    (handleMessage : Pointer -> Message -> St -> Outcome unit * St) tid m s :
  heldByAnother tid s = true ->
  deliverMessage handleMessage tid m s = (Block, s, []).
Proof.
  intros Hh. unfold heldByAnother in Hh.
  destruct (instance s) as [mm|] eqn:Hi; [|discriminate].
  destruct (messageDispatchLock mm) as [holder|] eqn:Hl; [|discriminate].
  apply negb_true_iff, bool_decide_eq_false in Hh.
  unfold deliverMessage. unfold bind.
  rewrite (MessageManagerLock_new_held tid s mm holder Hi Hl Hh). reflexivity.
Qed.

End Further.

(** * The further properties on the concrete process *)


Lemma destructor_clears_instance_last_witness :
  delete_MessageManager (fun s => s) Scenario.listening = (Ret tt, Sample.bare, []) /\
  MessageManagerLock_new 6 Sample.bare =
    (Ret {| lastLockingThreadId := 0; locked := false |}, Sample.bare, []).
Proof.
  exact (destructor_clears_instance_last
           (fun s : State (ActionListenerList := list Pointer) => s) 6
           Scenario.listening
           (set_broadcastListeners (Some [11]) Sample.manager) eq_refl).
Defined.

Lemma setCurrentMessageThread_then_ask_witness :
  exists s1 mm1,
    setCurrentMessageThread 8 Sample.held = (Ret tt, s1, []) /\
    instance s1 = Some mm1 /\
    isThisTheMessageThread 1 s1 = (Ret false, s1, []) /\
    currentThreadHasLockedMessageManager 1 s1 = (Ret false, s1, []) /\
    messageDispatchLock mm1 = Some 5.
Proof.
  exact (setCurrentMessageThread_then_ask 8 1 Sample.held
           (set_messageDispatchLock (Some 5)
              (set_currentLockingThreadId 5 Sample.manager)) eq_refl).
Defined.

Lemma post_after_stop_is_dropped_witness :
  exists s1 tr1,
    stopDispatchLoop Sample.accepts Sample.process = (Ret tt, s1, tr1) /\
    postMessageToQueue Sample.accepts (Sample.toListener 100) s1
      = (Ret tt, s1, [EvDelete (Sample.toListener 100)]) /\
    stopDispatchLoop Sample.accepts s1 =
      (Ret tt, s1, [EvDelete (mkMessage 0 quitMessageId 0 0 0)]).
Proof.
  exact (post_after_stop_is_dropped Sample.accepts (Sample.toListener 100)
           Sample.process Sample.manager eq_refl).
Defined.

Lemma broadcast_list_is_lazy_witness :
  deliverBroadcastMessage Sample.send "hello" Sample.process
    = (Ret tt, Sample.process, []) /\
  registerBroadcastListener [] (fun l ls => l :: ls) 11 Sample.process
    = (Ret tt, Scenario.listening, []) /\
  deliverBroadcastMessage Sample.send "hello" Scenario.listening
    = (Ret tt, Scenario.listening, [EvSendActionMessage "hello"]).
Proof.
  destruct (broadcast_list_is_lazy [] (fun l ls => l :: ls) (fun l ls => ls)
              Sample.send 11 "hello" Sample.process Sample.manager eq_refl)
    as [Hnone _].
  destruct (Hnone eq_refl) as (Hd & _ & Hr).
  destruct (broadcast_list_is_lazy [] (fun l ls => l :: ls) (fun l ls => ls)
              Sample.send 11 "hello" Scenario.listening
              (set_broadcastListeners (Some [11]) Sample.manager) eq_refl)
    as [_ Hsome].
  destruct (Hsome [11] eq_refl) as (Hd' & _ & _).
  split; [exact Hd|]. split; [exact Hr|exact Hd'].
Defined.

(** Thread 6 waits for the lock of thread 5, which is released during the
    first sleep; and the thread object 7, already told to exit, takes the
    free lock of the sample process at once. *)
Lemma cancellable_lock_acquires_witness :
  MessageManagerLock_new_thread Scenario.release5 3 6 9 42 Sample.held =
    (Ret {| lastLockingThreadId := 0; locked := true |},
     set_instance
       (Some (set_currentLockingThreadId 6
                (set_messageDispatchLock (Some 6) Sample.manager)))
       Sample.process,
     [EvSleep 1]) /\
  7 ∈ exitSignalled Sample.process /\
  MessageManagerLock_new_thread Sample.idle 1 6 7 42 Sample.process =
    (Ret {| lastLockingThreadId := 0; locked := true |},
     set_instance
       (Some (set_currentLockingThreadId 6
                (set_messageDispatchLock (Some 6) Sample.manager)))
       Sample.process,
     []).
Proof.
  split; [|split].
  - refine (proj1 (cancellable_lock_acquires Scenario.release5 1 3 6 9 42
                     Sample.held Sample.manager _ eq_refl eq_refl _)); [|lia].
    intros j Hj. assert (j = 0%nat) as -> by lia.
    split; [reflexivity|]. right.
    apply (bool_decide_unpack _); vm_compute; exact I.
  - apply (bool_decide_unpack _); vm_compute; exact I.
  - refine (proj1 (cancellable_lock_acquires Sample.idle 0 1 6 7 42
                     Sample.process Sample.manager _ eq_refl eq_refl _)); [|lia].
    intros j Hj. lia.
Defined.

(** Thread 6, constructed on a null thread pointer, waits for the lock
    that thread 5 keeps. *)
Lemma cancellable_lock_keeps_waiting_witness :
  MessageManagerLock_new_thread Sample.idle 3 6 0 42 Sample.held =
    (NoFuel, Sample.held, [EvSleep 1; EvSleep 1; EvSleep 1]).
Proof.
  apply (cancellable_lock_keeps_waiting Sample.idle 3 6 0 42 Sample.held); [lia|].
  intros j Hj.
  assert (Hs : Nat.iter j (Sample.idle 1) Sample.held = Sample.held)
    by (clear Hj; induction j as [|j IH]; [reflexivity|exact IH]).
  rewrite Hs. split; [reflexivity|left; reflexivity].
Defined.


Lemma sample_handler_leaves_process_alone : leavesProcessAlone Sample.handler.
Proof.
  intros r m s. unfold Sample.handler.
  destruct (bool_decide (r = 100)); simpl; auto.
Defined.

(** The messages for listeners 100 and 200 are handled (the second
    handler throws), the quit message ends the loop, and the message
    behind it stays queued. *)
Lemma runDispatchLoop_drains_to_quit_witness :
  runDispatchLoop Sample.handler Sample.clock 5 1 Scenario.beforeQuit =
    (Ret tt,
     set_instance (Some (set_quitMessageReceived true Sample.manager))
       (set_systemQueue [Sample.toListener 100]
          (set_clockReads 1 Scenario.beforeQuit)),
     [EvDispatchNextMessage false;
      EvHandleMessage 100 (Sample.toListener 100); EvDelete (Sample.toListener 100);
      EvDispatchNextMessage false;
      EvHandleMessage 200 (Sample.toListener 200); EvDelete (Sample.toListener 200);
      EvDispatchNextMessage false; EvDelete Sample.quitMessage]).
Proof.
  apply (runDispatchLoop_drains_to_quit Sample.handler Sample.clock 5 1
           Scenario.beforeQuit Sample.manager
           [Sample.toListener 100; Sample.toListener 200] Sample.quitMessage
           [Sample.toListener 100] sample_handler_leaves_process_alone).
  - reflexivity.
  - reflexivity.
  - reflexivity.
  - reflexivity.
  - repeat constructor.
  - vm_compute. reflexivity.
  - simpl. lia.
Defined.

Lemma stop_then_runDispatchLoop_witness :
  exists s1,
    stopDispatchLoop (fun _ _ => true) Sample.queued
      = (Ret tt, s1, [EvPostToSystemQueue Sample.quitMessage]) /\
    runDispatchLoop Sample.handler Sample.clock 5 1 s1 =
      (Ret tt,
       set_instance
         (Some (set_quitMessageReceived true
                  (set_quitMessagePosted true Sample.manager)))
         (set_systemQueue [] (set_clockReads 1 Sample.queued)),
       [EvDispatchNextMessage false;
        EvHandleMessage 100 (Sample.toListener 100); EvDelete (Sample.toListener 100);
        EvDispatchNextMessage false; EvDelete (Sample.toListener 300);
        EvDispatchNextMessage false; EvDelete Sample.quitMessage]).
Proof.
  apply (stop_then_runDispatchLoop Sample.handler (fun _ _ => true) Sample.clock
           5 1 Sample.queued Sample.manager sample_handler_leaves_process_alone).
  - reflexivity.
  - reflexivity.
  - reflexivity.
  - reflexivity.
  - apply (bool_decide_unpack _); vm_compute; exact I.
  - repeat constructor.
  - reflexivity.
  - simpl. lia.
Defined.

(** The clock reads 1000 on entry and at the next three readings, then
    2000: a run for 500 ms polls three times. *)
Lemma runDispatchLoopUntil_times_out_witness :
  runDispatchLoopUntil Sample.handler Scenario.stepClock 5 1 500 Sample.process =
    (Ret true, set_clockReads 5 Sample.process,
     [EvDispatchNextMessage true; EvDispatchNextMessage true;
      EvDispatchNextMessage true]).
Proof.
  apply (runDispatchLoopUntil_times_out Sample.handler Scenario.stepClock 3 5 1 500
           Sample.process Sample.manager).
  - reflexivity.
  - reflexivity.
  - reflexivity.
  - lia.
  - intros j Hj. destruct j as [|[|[|j]]]; [reflexivity|reflexivity|reflexivity|lia].
  - vm_compute. discriminate.
  - lia.
Defined.

(** After a quit request in the sample process, thread 1 delivers a
    message, thread 2 asks again to stop and thread 1 runs the loop: a post
    is still dropped. *)
Lemma posts_stay_closed_witness :
  let stopped := final (stopDispatchLoop Sample.accepts Sample.process) in
  let s' :=
    performAll [] (fun l ls => l :: ls) (fun l ls => ls)
      Sample.handler Sample.accepts Sample.clock Sample.idle Sample.send
      (fun s => s)
      [(1, OpDeliverMessage (Sample.toListener 100)); (2, OpStopDispatchLoop);
       (1, OpRunDispatchLoopUntil 3 0)]
      stopped in
  quitPosted s' /\
  postMessageToQueue Sample.accepts (Sample.toListener 200) s'
    = (Ret tt, s', [EvDelete (Sample.toListener 200)]).
Proof.
  intros stopped.
  apply (posts_stay_closed [] (fun l ls => l :: ls) (fun l ls => ls)
           Sample.handler Sample.accepts Sample.clock Sample.idle Sample.send
           (fun s => s)).
  - intros r m s H. unfold Sample.handler.
    destruct (bool_decide (r = 100)); exact H.
  - intros ms s H. exact H.
  - intros l v s H. exact H.
  - reflexivity.
Defined.

Lemma delivery_waits_for_lock_witness :
  deliverMessage Sample.handler 1 (Sample.toListener 100) Sample.held
    = (Block, Sample.held, []).
Proof.
  apply (delivery_waits_for_lock Sample.handler 1 (Sample.toListener 100) Sample.held).
  reflexivity.
Defined.

(** The sample operating system refuses the quit message behind two
    queued messages; an operating system that accepts everything is not
    asked afterwards. *)
Lemma refused_stop_is_not_retried_witness :
  exists s1,
    stopDispatchLoop Sample.accepts Sample.queued =
      (Ret tt, s1,
       [EvPostToSystemQueue Sample.quitMessage; EvDelete Sample.quitMessage]) /\
    systemQueue s1 = [Sample.toListener 100; Sample.toListener 300] /\
    stopDispatchLoop (fun _ _ => true) s1
      = (Ret tt, s1, [EvDelete Sample.quitMessage]).
Proof.
  apply (refused_stop_is_not_retried Sample.accepts (fun _ _ => true)
           Sample.queued Sample.manager); reflexivity.
Defined.

(** The handler of listener 200 throws; the delivery returns. *)
Lemma handler_exceptions_are_contained_witness :
  (Sample.handler 200 (Sample.toListener 200) Sample.process).1 = Throw /\
  outcome (deliverMessage Sample.handler 1 (Sample.toListener 200) Sample.process)
    = Ret tt /\
  outcome (deliverMessage Sample.handler 1 (Sample.toListener 200) Sample.process)
    <> Throw.
Proof.
  split; [reflexivity|]. split; [reflexivity|].
  exact (proj1 (handler_exceptions_are_contained Sample.handler Sample.clock
                  3 1 (Sample.toListener 200) 0 Sample.process)).
Defined.
